(** * Portfolio analytics of icd-backend: a shallow embedding

    The development follows three source files.

    - [assets/models.py] (kept in the tree as [assets/tests.py]): the rows
      [WalletToken], [Portfolio], [PortfolioSnapshot] and [RiskMetrics].
    - [assets/views.py]: [PortfolioView.get] (the portfolio overview) and the
      portfolio part of [SyncWalletDataView.post] (the reconciliation cycle),
      together with the transaction direction test of the wallet loop.
    - [assets/services.py]:
      [RiskAnalysisService.calculate_portfolio_risk_metrics].

    Conventions.

    - A [DecimalField(max_digits=18, decimal_places=2)] amount is the integer
      number of its cents, so stored amounts are exact and compare with
      Leibniz equality.  A quotient of two [Decimal] values is rounded to the
      28 significant digits of the default [decimal] context and kept as the
      rational value of the result ([Q]); sums and differences of amounts of
      18 digits have fewer than 28 digits and are exact.
    - A Python [float] is a binary64 primitive float.  The five history
      metrics of [RiskMetrics] are [DecimalField]s of two places and are kept
      in hundredths.
    - The database is the slice of rows that belongs to one user, threaded
      through a state monad in which an exception keeps the writes made
      before it (Django autocommit). *)

From Stdlib Require Import ZArith QArith Qabs List String Ascii Bool Lia.
From Stdlib Require Import Floats Uint63.
From Stdlib Require Import Permutation Sorted.
Import ListNotations.

Set Warnings "-inexact-float".
Local Open Scope string_scope.
Local Open Scope list_scope.
Local Open Scope Z_scope.

(** ** Python built-ins used by the views *)

Module Py.

(** Truth value of an optional [Decimal]: [None] and zero are falsy. *)
Definition truthy (d : option Z) : bool :=
  match d with
  | None => false
  | Some v => negb (v =? 0)
  end.

(** [d or 0] *)
Definition or0 (d : option Z) : Z :=
  match d with
  | Some v => if truthy d then v else 0
  | None => 0
  end.

(** [sum(...)], starting from the integer 0 *)
Definition sum (l : list Z) : Z := fold_left Z.add l 0.

(** [max(...)] of a sequence; [None] stands for the [ValueError] that
    Python raises on an empty one. *)
Definition max (l : list Z) : option Z :=
  match l with
  | [] => None
  | x :: l' => Some (fold_left (fun m y => if m <? y then y else m) l' x)
  end.

Definition lower_ascii (c : ascii) : ascii :=
  let n := nat_of_ascii c in
  if (65 <=? n)%nat && (n <=? 90)%nat then ascii_of_nat (n + 32) else c.

(** [str.lower()] on ASCII text (wallet addresses are hexadecimal). *)
Fixpoint lower (s : string) : string :=
  match s with
  | EmptyString => EmptyString
  | String c s' => String (lower_ascii c) (lower s')
  end.

(** Stable ascending sort on an integer key, as [sorted(key=...)] and as
    [order_by] on rows inserted in the order of the list. *)
Fixpoint insert_by {A} (key : A -> Z) (x : A) (l : list A) : list A :=
  match l with
  | [] => [x]
  | y :: l' => if key x <=? key y then x :: l else y :: insert_by key x l'
  end.

Definition sort_by {A} (key : A -> Z) (l : list A) : list A :=
  fold_right (insert_by key) [] l.

End Py.

(** ** [decimal.Decimal]

    The standard library's [Decimal] under the default context: precision
    28 and [ROUND_HALF_EVEN].  A money amount is the integer number of its
    cents, that is a coefficient with exponent -2; a quotient is kept as the
    rational value of the rounded result, and so is the decimal that [str]
    prints for a float. *)

Module Decimal.

(** [context.prec] *)
Definition prec : Z := 28.

(** [len(str(n))] for a coefficient [n >= 0] *)
Fixpoint digits_upto (fuel : nat) (n : Z) : Z :=
  match fuel with
  | O => 1
  | S fuel' => if n <? 10 then 1 else 1 + digits_upto fuel' (n / 10)
  end.

Definition digits (n : Z) : Z := digits_upto (Z.to_nat (Z.log2 n)) n.

(** The value [coefficient * 10 ** exponent] *)
Definition scaled (coefficient exponent : Z) : Q :=
  if 0 <=? exponent then inject_Z (coefficient * 10 ^ exponent)
  else (inject_Z coefficient / inject_Z (10 ^ (- exponent)))%Q.

(** [_fix] under [ROUND_HALF_EVEN]: a coefficient of more than [prec] digits
    keeps its first [prec] digits, rounded to the nearest and to even on a
    tie; the result is the new coefficient and the number of digits
    dropped. *)
Definition fix_ (coeff : Z) : Z * Z :=
  let dropped := digits coeff - prec in
  if dropped <=? 0 then (coeff, 0)
  else
    let unit := 10 ^ dropped in
    let kept := coeff / unit in
    let rest := coeff mod unit in
    let half := 5 * 10 ^ (dropped - 1) in
    if (half <? rest) || ((rest =? half) && Z.odd kept)
    then (kept + 1, dropped)
    else (kept, dropped).

(** [__truediv__] on two positive coefficients of equal exponent: the
    integer quotient is taken with [prec + 1] digits or one more, an inexact
    quotient ending in 0 or 5 is bumped so that the rounding sees the
    remainder, and [_fix] rounds.  (On an exact quotient the code also strips
    trailing zeros, which changes neither the value nor its rounding.) *)
Definition divide (op1 op2 : Z) : Q :=
  let shift := digits op2 - digits op1 + prec + 1 in
  let '(coeff, remainder) :=
    if 0 <=? shift then Z.div_eucl (op1 * 10 ^ shift) op2
    else Z.div_eucl op1 (op2 * 10 ^ (- shift)) in
  let coeff :=
    if negb (remainder =? 0) && (coeff mod 5 =? 0) then coeff + 1
    else coeff in
  let '(coeff, dropped) := fix_ coeff in
  scaled coeff (dropped - shift).

(** [a / b] for a divisor that is not zero; a zero dividend gives zero. *)
Definition quotient (a b : Z) : Q :=
  if a =? 0 then 0%Q
  else
    let magnitude := divide (Z.abs a) (Z.abs b) in
    if Bool.eqb (a <? 0) (b <? 0) then magnitude else (- magnitude)%Q.

(** *** A float printed and read as a [Decimal] *)

(** [c * 2 ** e] as a rational *)
Definition binary (c e : Z) : Q :=
  if 0 <=? e then inject_Z (c * 2 ^ e)
  else (inject_Z c / inject_Z (2 ^ (- e)))%Q.

(** Whether the decimal [d] reads back as the float [m * 2 ** e]: it lies
    within half a step of it on either side, the ends counting when [m] is
    even.  The step below a power of two is half the step above. *)
Definition reads_back (m e : Z) (d : Q) : bool :=
  let below := if (m =? 2 ^ 52) && (-1074 <? e) then 1 else 2 in
  let lo := binary (4 * m - below) (e - 2) in
  let hi := binary (4 * m + 2) (e - 2) in
  if Z.even m then Qle_bool lo d && Qle_bool d hi
  else negb (Qle_bool d lo) && negb (Qle_bool hi d).

(** [floor(q)] for a rational *)
Definition floor (q : Q) : Z := Qnum q / Zpos (Qden q).

(** The exponent [k] with [10 ** k <= x < 10 ** (k + 1)], for [x > 0]. *)
Definition floor_log10 (x : Q) : Z :=
  let k :=
    if Qle_bool 1 x then digits (floor x) - 1
    else - digits (floor (/ x)) in
  if Qle_bool (scaled 1 (k + 1)) x then k + 1
  else if Qle_bool (scaled 1 k) x then k
  else k - 1.

(** The decimal of [p] significant digits nearest to [x] among those that
    read back as [x], if there is one. *)
Definition nearest_reading_back (m e : Z) (x : Q) (k0 p : Z) : option Q :=
  let k := k0 - p + 1 in
  let below := floor (x / scaled 1 k) in
  let d1 := scaled below k in
  let d2 := scaled (below + 1) k in
  match reads_back m e d1, reads_back m e d2 with
  | true, false => Some d1
  | false, true => Some d2
  | true, true =>
      match Qcompare (x - d1) (d2 - x) with
      | Lt => Some d1
      | Gt => Some d2
      | Eq => if Z.even below then Some d1 else Some d2
      end
  | false, false => None
  end.

Fixpoint shortest_from (fuel : nat) (m e : Z) (x : Q) (k0 p : Z) : Q :=
  match fuel with
  | O => x
  | S fuel' =>
      match nearest_reading_back m e x k0 p with
      | Some d => d
      | None => shortest_from fuel' m e x k0 (p + 1)
      end
  end.

(** The value of [Decimal(str(x))] for a float [x]; [None] for a NaN or an
    infinity.  [str] prints the shortest decimal that reads back as [x],
    and of two such decimals of one length the nearer. *)
Definition of_float (x : float) : option Q :=
  match Prim2SF x with
  | S754_zero _ => Some 0%Q
  | S754_finite negative m e =>
      let v := binary (Zpos m) e in
      let d := shortest_from 17 (Zpos m) e v (floor_log10 v) 1 in
      Some (if negative then (- d)%Q else d)
  | _ => None
  end.

(** [quantize(Decimal('0.01'))] under [ROUND_HALF_EVEN], in hundredths *)
Definition quantize (q : Q) : Z :=
  let n := Qnum q * 100 in
  let d := Zpos (Qden q) in
  let below := n / d in
  let rest := n mod d in
  match Z.compare (2 * rest) d with
  | Lt => below
  | Gt => below + 1
  | Eq => if Z.even below then below else below + 1
  end.

End Decimal.

Arguments Decimal.quotient : simpl never.

(** ** Exceptions *)

Inductive exn : Type :=
| NameError (name : string)
| ValueError (msg : string)
| DivisionByZero
| DivisionUndefined
| InvalidOperation
| ValidationError (value : string)
| DoesNotExist.

(** [str(e)] *)
Definition str (e : exn) : string :=
  match e with
  | NameError name => ("name '" ++ name ++ "' is not defined")%string
  | ValueError msg => msg
  | DivisionByZero => "[<class 'decimal.DivisionByZero'>]"
  | DivisionUndefined => "[<class 'decimal.DivisionUndefined'>]"
  | InvalidOperation => "[<class 'decimal.InvalidOperation'>]"
  | ValidationError value =>
      ("['“" ++ value ++ "” value must be a decimal number.']")%string
  | DoesNotExist => "Portfolio matching query does not exist."
  end.

(** ** Rows ([assets/models.py]) *)

Record WalletToken : Type := {
  token_symbol : string;          (* wt.token.symbol *)
  balance_usd : option Z          (* cents, nullable *)
}.

Record Portfolio : Type := {
  id : Z;
  total_value_usd : Z;
  previous_day_value_usd : option Z;
  previous_week_value_usd : option Z;
  previous_month_value_usd : option Z;
  all_time_high_usd : option Z;
  all_time_high_date : option Z;
  all_time_low_usd : option Z;
  all_time_low_date : option Z;
  last_updated : Z
}.

Record PortfolioSnapshot : Type := {
  snapshot_total_value_usd : Z;
  timestamp : Z
}.

(** The five history metrics are [DecimalField]s of two places, kept in
    hundredths; the service writes them.  The concentration is written by
    the sync view from a [Decimal] quotient. *)
Record RiskMetrics : Type := {
  volatility_30d : option Z;
  volatility_90d : option Z;
  max_drawdown : option Z;
  sharpe_ratio : option Z;
  value_at_risk : option Z;
  concentration_risk : option Q
}.

Record DB : Type := {
  wallet_tokens : list WalletToken;
  portfolio : option Portfolio;
  portfolio_seq : Z;              (* next primary key of the Portfolio table *)
  snapshots : list PortfolioSnapshot;
  risk_metrics : option RiskMetrics
}.

(** Field assignments on a model instance. *)

Definition set_total_value_usd (p : Portfolio) (v : Z) : Portfolio :=
  {| id := id p; total_value_usd := v;
     previous_day_value_usd := previous_day_value_usd p;
     previous_week_value_usd := previous_week_value_usd p;
     previous_month_value_usd := previous_month_value_usd p;
     all_time_high_usd := all_time_high_usd p;
     all_time_high_date := all_time_high_date p;
     all_time_low_usd := all_time_low_usd p;
     all_time_low_date := all_time_low_date p;
     last_updated := last_updated p |}.

Definition set_previous_day_value_usd (p : Portfolio) (v : Z) : Portfolio :=
  {| id := id p; total_value_usd := total_value_usd p;
     previous_day_value_usd := Some v;
     previous_week_value_usd := previous_week_value_usd p;
     previous_month_value_usd := previous_month_value_usd p;
     all_time_high_usd := all_time_high_usd p;
     all_time_high_date := all_time_high_date p;
     all_time_low_usd := all_time_low_usd p;
     all_time_low_date := all_time_low_date p;
     last_updated := last_updated p |}.

Definition set_previous_week_value_usd (p : Portfolio) (v : Z) : Portfolio :=
  {| id := id p; total_value_usd := total_value_usd p;
     previous_day_value_usd := previous_day_value_usd p;
     previous_week_value_usd := Some v;
     previous_month_value_usd := previous_month_value_usd p;
     all_time_high_usd := all_time_high_usd p;
     all_time_high_date := all_time_high_date p;
     all_time_low_usd := all_time_low_usd p;
     all_time_low_date := all_time_low_date p;
     last_updated := last_updated p |}.

Definition set_previous_month_value_usd (p : Portfolio) (v : Z) : Portfolio :=
  {| id := id p; total_value_usd := total_value_usd p;
     previous_day_value_usd := previous_day_value_usd p;
     previous_week_value_usd := previous_week_value_usd p;
     previous_month_value_usd := Some v;
     all_time_high_usd := all_time_high_usd p;
     all_time_high_date := all_time_high_date p;
     all_time_low_usd := all_time_low_usd p;
     all_time_low_date := all_time_low_date p;
     last_updated := last_updated p |}.

Definition set_all_time_high (p : Portfolio) (v day : Z) : Portfolio :=
  {| id := id p; total_value_usd := total_value_usd p;
     previous_day_value_usd := previous_day_value_usd p;
     previous_week_value_usd := previous_week_value_usd p;
     previous_month_value_usd := previous_month_value_usd p;
     all_time_high_usd := Some v;
     all_time_high_date := Some day;
     all_time_low_usd := all_time_low_usd p;
     all_time_low_date := all_time_low_date p;
     last_updated := last_updated p |}.

Definition set_all_time_low (p : Portfolio) (v day : Z) : Portfolio :=
  {| id := id p; total_value_usd := total_value_usd p;
     previous_day_value_usd := previous_day_value_usd p;
     previous_week_value_usd := previous_week_value_usd p;
     previous_month_value_usd := previous_month_value_usd p;
     all_time_high_usd := all_time_high_usd p;
     all_time_high_date := all_time_high_date p;
     all_time_low_usd := Some v;
     all_time_low_date := Some day;
     last_updated := last_updated p |}.

Definition touch (p : Portfolio) (now : Z) : Portfolio :=
  {| id := id p; total_value_usd := total_value_usd p;
     previous_day_value_usd := previous_day_value_usd p;
     previous_week_value_usd := previous_week_value_usd p;
     previous_month_value_usd := previous_month_value_usd p;
     all_time_high_usd := all_time_high_usd p;
     all_time_high_date := all_time_high_date p;
     all_time_low_usd := all_time_low_usd p;
     all_time_low_date := all_time_low_date p;
     last_updated := now |}.

Definition set_concentration_risk (r : RiskMetrics) (c : Q) : RiskMetrics :=
  {| volatility_30d := volatility_30d r;
     volatility_90d := volatility_90d r;
     max_drawdown := max_drawdown r;
     sharpe_ratio := sharpe_ratio r;
     value_at_risk := value_at_risk r;
     concentration_risk := Some c |}.

(** A row as the model defaults create it. *)

Definition new_Portfolio (pk now : Z) : Portfolio :=
  {| id := pk; total_value_usd := 0;
     previous_day_value_usd := None;
     previous_week_value_usd := None;
     previous_month_value_usd := None;
     all_time_high_usd := None; all_time_high_date := None;
     all_time_low_usd := None; all_time_low_date := None;
     last_updated := now |}.

Definition new_RiskMetrics : RiskMetrics :=
  {| volatility_30d := None; volatility_90d := None; max_drawdown := None;
     sharpe_ratio := None; value_at_risk := None;
     concentration_risk := None |}.

(** The risk metrics of a portfolio, a missing row reading as the row that
    [get_or_create] would make. *)
Definition risk_metrics_or_new (db : DB) : RiskMetrics :=
  match risk_metrics db with
  | Some r => r
  | None => new_RiskMetrics
  end.

(** ** The database monad *)

Inductive outcome (A : Type) : Type :=
| Ok (a : A)
| Raise (e : exn).
Arguments Ok {A} a.
Arguments Raise {A} e.

Definition M (A : Type) : Type := DB -> outcome A * DB.

Definition ret {A} (a : A) : M A := fun db => (Ok a, db).

Definition bind {A B} (c : M A) (k : A -> M B) : M B :=
  fun db =>
    match c db with
    | (Ok a, db') => k a db'
    | (Raise e, db') => (Raise e, db')
    end.

Definition raise {A} (e : exn) : M A := fun db => (Raise e, db).

(** A step that does not touch the database. *)
Definition lift {A} (o : outcome A) : M A := fun db => (o, db).

Declare Scope db_scope.
Delimit Scope db_scope with db.
Notation "x <- c ;; k" := (bind c (fun x => k))
  (at level 61, c at next level, right associativity) : db_scope.
Notation "' pat <- c ;; k" := (bind c (fun x => match x with pat => k end))
  (at level 61, pat pattern, c at next level, right associativity) : db_scope.
Notation "c ;; k" := (bind c (fun _ => k))
  (at level 61, right associativity) : db_scope.
Local Open Scope db_scope.

(** *** The ORM calls of the views and of the service *)

(** [Portfolio.objects.get_or_create(user=request.user)] *)
Definition Portfolio_get_or_create (now : Z) : M (Portfolio * bool) :=
  fun db =>
    match portfolio db with
    | Some p => (Ok (p, false), db)
    | None =>
        let p := new_Portfolio (portfolio_seq db) now in
        (Ok (p, true),
         {| wallet_tokens := wallet_tokens db;
            portfolio := Some p;
            portfolio_seq := portfolio_seq db + 1;
            snapshots := snapshots db;
            risk_metrics := risk_metrics db |})
    end.

(** [Portfolio.objects.get(id=portfolio_id)] *)
Definition Portfolio_get (portfolio_id : Z) : M Portfolio :=
  fun db =>
    match portfolio db with
    | Some p => if id p =? portfolio_id then (Ok p, db)
                else (Raise DoesNotExist, db)
    | None => (Raise DoesNotExist, db)
    end.

(** [portfolio.save()]; [last_updated] is an [auto_now] field. *)
Definition Portfolio_save (now : Z) (p : Portfolio) : M unit :=
  fun db =>
    (Ok tt,
     {| wallet_tokens := wallet_tokens db;
        portfolio := Some (touch p now);
        portfolio_seq := portfolio_seq db;
        snapshots := snapshots db;
        risk_metrics := risk_metrics db |}).

(** [WalletToken.objects.filter(wallet__in=wallets)] *)
Definition WalletToken_filter : M (list WalletToken) :=
  fun db => (Ok (wallet_tokens db), db).

(** [PortfolioSnapshot.objects.create(portfolio=..., total_value_usd=...)];
    [timestamp] defaults to the time of the call. *)
Definition PortfolioSnapshot_create (total now : Z) : M unit :=
  fun db =>
    (Ok tt,
     {| wallet_tokens := wallet_tokens db;
        portfolio := portfolio db;
        portfolio_seq := portfolio_seq db;
        snapshots := snapshots db ++
                     [{| snapshot_total_value_usd := total; timestamp := now |}];
        risk_metrics := risk_metrics db |}).

(** [RiskMetrics.objects.get_or_create(portfolio=portfolio)] *)
Definition RiskMetrics_get_or_create : M RiskMetrics :=
  fun db =>
    match risk_metrics db with
    | Some r => (Ok r, db)
    | None =>
        (Ok new_RiskMetrics,
         {| wallet_tokens := wallet_tokens db;
            portfolio := portfolio db;
            portfolio_seq := portfolio_seq db;
            snapshots := snapshots db;
            risk_metrics := Some new_RiskMetrics |})
    end.

(** [risk_metrics.save()] *)
Definition RiskMetrics_save (r : RiskMetrics) : M unit :=
  fun db =>
    (Ok tt,
     {| wallet_tokens := wallet_tokens db;
        portfolio := portfolio db;
        portfolio_seq := portfolio_seq db;
        snapshots := snapshots db;
        risk_metrics := Some r |}).

(** The snapshots of the portfolio taken at or after [since], by ascending
    timestamp: [filter(timestamp__gte=since).order_by('timestamp')]. *)
Definition snapshots_since (since : Z) (db : DB) : list PortfolioSnapshot :=
  Py.sort_by timestamp (filter (fun s => since <=? timestamp s) (snapshots db)).

(** Division of two [Decimal] amounts given in cents.  A zero divisor
    raises: [DivisionByZero], or [InvalidOperation] with the signal
    [DivisionUndefined] for [0 / 0]. *)
Definition Decimal_div (a b : Z) : M Q :=
  if b =? 0 then raise (if a =? 0 then DivisionUndefined else DivisionByZero)
  else ret (Decimal.quotient a b).

(** Seconds in a day, and [datetime.now().date()] as a day number. *)
Definition day : Z := 86400.
Definition date (now : Z) : Z := now / day.

(** ** [assets/views.py] *)

(** The names bound at module level in [views.py]: its imports, [logger]
    and its three classes.  A name used in a method body and absent from
    this list raises [NameError] when the line runs. *)
Definition views_globals : list string :=
  [ "status"; "api_view"; "APIView"; "Response"; "IsAuthenticated";
    "Wallet"; "WalletUser";
    "Token"; "WalletToken"; "Transaction"; "Portfolio"; "RiskMetrics";
    "TokenSerializer"; "WalletTokenSerializer"; "TransactionSerializer";
    "PortfolioSerializer"; "RiskMetricsSerializer";
    "MoralisService"; "logging"; "datetime"; "timedelta"; "logger";
    "PortfolioView"; "TransactionHistoryView"; "SyncWalletDataView" ].

(** Looking a global name up. *)
Definition bound (globals : list string) (name : string) : bool :=
  existsb (String.eqb name) globals.
Arguments bound : simpl never.

Definition resolve (globals : list string) (name : string) : M unit :=
  if bound globals name then ret tt else raise (NameError name).

(** *** Grouping balances by token symbol

    [token_values] is a dict from symbol to summed [balance_usd]; a dict
    keeps its keys in order of first insertion. *)

Fixpoint dict_add (symbol : string) (v : Z) (d : list (string * Z))
  : list (string * Z) :=
  match d with
  | [] => [(symbol, v)]
  | (k, w) :: d' =>
      if String.eqb k symbol then (k, w + v) :: d'
      else (k, w) :: dict_add symbol v d'
  end.

Definition token_values_of (wallet_tokens : list WalletToken)
  : list (string * Z) :=
  fold_left
    (fun d wt => dict_add (token_symbol wt) (Py.or0 (balance_usd wt)) d)
    wallet_tokens [].

(** [sum(wt.balance_usd or 0 for wt in wallet_tokens)] *)
Definition total_value_of (wallet_tokens : list WalletToken) : Z :=
  Py.sum (map (fun wt => Py.or0 (balance_usd wt)) wallet_tokens).

(** *** The reconciliation cycle: [SyncWalletDataView.post] *)

(** Lines 289-314: checkpoints and extrema of the in-memory portfolio. *)
Definition roll_forward (created : bool) (total_value today : Z)
    (portfolio : Portfolio) : Portfolio :=
  if negb created then
    let portfolio :=
      if negb (Py.truthy (previous_day_value_usd portfolio))
      then set_previous_day_value_usd portfolio total_value
      else portfolio in
    let portfolio :=
      if negb (Py.truthy (previous_week_value_usd portfolio))
      then set_previous_week_value_usd portfolio total_value
      else portfolio in
    let portfolio :=
      if negb (Py.truthy (previous_month_value_usd portfolio))
      then set_previous_month_value_usd portfolio total_value
      else portfolio in
    let portfolio :=
      match all_time_high_usd portfolio with
      | None => set_all_time_high portfolio total_value today
      | Some high =>
          if high <? total_value
          then set_all_time_high portfolio total_value today
          else portfolio
      end in
    let portfolio :=
      match all_time_low_usd portfolio with
      | None => set_all_time_low portfolio total_value today
      | Some low =>
          if total_value <? low
          then set_all_time_low portfolio total_value today
          else portfolio
      end in
    portfolio
  else
    let portfolio := set_previous_day_value_usd portfolio total_value in
    let portfolio := set_previous_week_value_usd portfolio total_value in
    let portfolio := set_previous_month_value_usd portfolio total_value in
    let portfolio := set_all_time_high portfolio total_value today in
    let portfolio := set_all_time_low portfolio total_value today in
    portfolio.

(** Lines 328-343: the concentration of the largest position, assigned to
    the in-memory [risk_metrics] when there are rows and a positive total. *)
Definition concentration_block (total_value : Z) (risk_metrics : RiskMetrics)
  : M RiskMetrics :=
  wallet_tokens <- WalletToken_filter ;;
  if negb (Nat.eqb (List.length wallet_tokens) 0) && (0 <? total_value) then
    let token_values := token_values_of wallet_tokens in
    match Py.max (map snd token_values) with
    | None => raise (ValueError "max() arg is an empty sequence")
    | Some largest_position =>
        ratio <- Decimal_div largest_position total_value ;;
        ret (set_concentration_risk risk_metrics (ratio * 100)%Q)
    end
  else ret risk_metrics.

(** Lines 281-346, the body of the [try] under "Update portfolio data". *)
Definition update_portfolio_data (globals : list string) (now : Z) : M unit :=
  '(portfolio, created) <- Portfolio_get_or_create now ;;
  wallet_tokens <- WalletToken_filter ;;
  let total_value := total_value_of wallet_tokens in
  let today := date now in
  let portfolio := roll_forward created total_value today portfolio in
  let portfolio := set_total_value_usd portfolio total_value in
  Portfolio_save now portfolio ;;
  resolve globals "PortfolioSnapshot" ;;
  PortfolioSnapshot_create total_value now ;;
  risk_metrics <- RiskMetrics_get_or_create ;;
  risk_metrics <- concentration_block total_value risk_metrics ;;
  RiskMetrics_save risk_metrics.

(** One cycle as the portfolio part sees it: the [WalletToken] rows that the
    wallet loop (lines 183-277, the calls to the data provider) has left in
    the table, and the clock. *)
Record cycle : Type := {
  synced_tokens : list WalletToken;
  now_of : Z
}.

Definition with_wallet_tokens (db : DB) (rows : list WalletToken) : DB :=
  {| wallet_tokens := rows;
     portfolio := portfolio db;
     portfolio_seq := portfolio_seq db;
     snapshots := snapshots db;
     risk_metrics := risk_metrics db |}.

(** [post]: the wallet loop, then the portfolio update under its
    [except Exception]; the value is the [failed_syncs] entry of the
    portfolio part. *)
Definition SyncWalletDataView_post (globals : list string) (c : cycle)
    (db : DB) : list string * DB :=
  let db := with_wallet_tokens db (synced_tokens c) in
  match update_portfolio_data globals (now_of c) db with
  | (Ok _, db') => ([], db')
  | (Raise e, db') => ([("Portfolio update: " ++ str e)%string], db')
  end.

(** A sequence of cycles, oldest first. *)
Definition run_cycles (globals : list string) (cs : list cycle) (db : DB)
  : DB :=
  fold_left (fun db c => snd (SyncWalletDataView_post globals c db)) cs db.

(** Lines 246-251: the direction of a synced transaction. *)
Definition transaction_type (wallet_address : string)
    (from_address to_address : option string) : string :=
  let is_wallet (a : option string) :=
    match a with
    | Some s => String.eqb s (Py.lower wallet_address)
    | None => false
    end in
  if is_wallet from_address then "send"
  else if is_wallet to_address then "receive"
  else "unknown".

(** *** The overview: [PortfolioView.get] *)

Record allocation : Type := {
  symbol : string;
  value_usd : Z;
  percentage : Q
}.

Record overview : Type := {
  ov_total_value_usd : Z;
  asset_allocation : list allocation;
  daily_change_pct : Q;
  weekly_change_pct : Q;
  monthly_change_pct : Q;
  ov_risk_metrics : RiskMetrics;
  historical_data : list PortfolioSnapshot
}.

Inductive response : Type :=
| HTTP_200 (body : overview)
| HTTP_500 (error : string).

(** Lines 52-62: one row per symbol of [token_values]. *)
Fixpoint allocation_rows (total_value : Z) (token_values : list (string * Z))
  : M (list allocation) :=
  match token_values with
  | [] => ret []
  | (sym, value) :: rest =>
      pct <- (if 0 <? total_value
              then ratio <- Decimal_div value total_value ;;
                   ret (ratio * 100)%Q
              else ret 0%Q) ;;
      rows <- allocation_rows total_value rest ;;
      ret ({| symbol := sym; value_usd := value; percentage := pct |} :: rows)
  end.

(** Lines 82-95: the percentage change against one checkpoint. *)
Definition change_pct (total_value : Z) (checkpoint : option Z) : M Q :=
  match checkpoint with
  | Some previous =>
      if Py.truthy checkpoint && (0 <? previous) then
        ratio <- Decimal_div (total_value - previous) previous ;;
        ret (ratio * 100)%Q
      else ret 0%Q
  | None => ret 0%Q
  end.

(** Lines 27-114, the body of the [try]. *)
Definition overview_body (now : Z) : M overview :=
  '(portfolio, created) <- Portfolio_get_or_create now ;;
  wallet_tokens <- WalletToken_filter ;;
  let total_value := total_value_of wallet_tokens in
  let portfolio := set_total_value_usd portfolio total_value in
  Portfolio_save now portfolio ;;
  let token_values := token_values_of wallet_tokens in
  rows <- allocation_rows total_value token_values ;;
  let rows := Py.sort_by (fun r => - value_usd r) rows in
  risk_metrics <- RiskMetrics_get_or_create ;;
  history <- (fun db => (Ok (snapshots_since (now - 30 * day) db), db)) ;;
  daily <- change_pct total_value (previous_day_value_usd portfolio) ;;
  weekly <- change_pct total_value (previous_week_value_usd portfolio) ;;
  monthly <- change_pct total_value (previous_month_value_usd portfolio) ;;
  ret {| ov_total_value_usd := total_value;
         asset_allocation := rows;
         daily_change_pct := daily;
         weekly_change_pct := weekly;
         monthly_change_pct := monthly;
         ov_risk_metrics := risk_metrics;
         historical_data := history |}.

Definition PortfolioView_get (now : Z) (db : DB) : response * DB :=
  match overview_body now db with
  | (Ok body, db') => (HTTP_200 body, db')
  | (Raise e, db') =>
      (HTTP_500 ("Failed to fetch portfolio overview: " ++ str e)%string, db')
  end.

(** ** [assets/services.py] *)

Local Open Scope float_scope.

Definition float_of_nat (n : nat) : float :=
  PrimFloat.of_uint63 (Uint63.of_Z (Z.of_nat n)).

(** [float(snapshot.total_value_usd)]: the binary64 value nearest to the
    decimal amount [cents / 100], ties to even. *)
Definition float_of_cents (c : Z) : float :=
  match c with
  | Z0 => 0
  | Zpos p =>
      SF2Prim (SFdiv prec emax (S754_finite false p 0) (S754_finite false 100 0))
  | Zneg p =>
      SF2Prim (SFdiv prec emax (S754_finite true p 0) (S754_finite false 100 0))
  end.

(** *** The NumPy calls of the service

    NumPy is not part of the repository.  The definitions give the result of
    each call on a one-dimensional float64 array. *)
Module np.

(** [r[j] += a[i + j]] for the blocks of eight that [a] still holds *)
Fixpoint add_blocks (fuel : nat) (r a : list float) : list float * list float :=
  match fuel with
  | O => (r, a)
  | S fuel' =>
      if (8 <=? List.length a)%nat
      then add_blocks fuel'
             (map (fun p => fst p + snd p) (combine r (firstn 8 a)))
             (skipn 8 a)
      else (r, a)
  end.

(** The unrolled loop that adds 8 to 128 elements: eight running sums over
    the blocks of eight, combined in pairs, then the elements left over. *)
Definition unrolled_sum (a : list float) : float :=
  let '(r, rest) := add_blocks (List.length a) (firstn 8 a) (skipn 8 a) in
  match r with
  | [r0; r1; r2; r3; r4; r5; r6; r7] =>
      fold_left PrimFloat.add rest
        (((r0 + r1) + (r2 + r3)) + ((r4 + r5) + (r6 + r7)))
  | _ => fold_left PrimFloat.add a 0
  end.

(** Pairwise summation, the inner loop of [np.add.reduce]: fewer than 8
    elements are added left to right, up to 128 by the unrolled loop, and a
    longer array is split near its middle, at a multiple of 8. *)
Fixpoint pairwise_sum (fuel : nat) (a : list float) : float :=
  let n := List.length a in
  if (n <? 8)%nat then fold_left PrimFloat.add a 0
  else if (n <=? 128)%nat then unrolled_sum a
  else
    match fuel with
    | O => unrolled_sum a
    | S fuel' =>
        let n2 := (n / 2)%nat in
        let n2 := (n2 - n2 mod 8)%nat in
        pairwise_sum fuel' (firstn n2 a) + pairwise_sum fuel' (skipn n2 a)
    end.

(** [np.sum]: the reduction starts from 0.  (The sign of a sum that is
    zero has no effect on any metric.) *)
Definition sum (a : list float) : float := 0 + pairwise_sum (List.length a) a.

Definition mean (a : list float) : float := sum a / float_of_nat (List.length a).

(** Population standard deviation, [ddof=0]. *)
Definition std (a : list float) : float :=
  let m := mean a in
  PrimFloat.sqrt (mean (map (fun x => (x - m) * (x - m)) a)).

Definition sqrt (x : float) : float := PrimFloat.sqrt x.

(** [np.maximum] on two scalars: a NaN on either side is returned. *)
Definition maximum (x y : float) : float :=
  if (y <=? x) || PrimFloat.is_nan x then x else y.

Fixpoint accumulate_from (m : float) (a : list float) : list float :=
  match a with
  | [] => []
  | x :: a' => let m' := maximum m x in m' :: accumulate_from m' a'
  end.

(** [np.maximum.accumulate] *)
Definition maximum_accumulate (a : list float) : list float :=
  match a with
  | [] => []
  | x :: a' => x :: accumulate_from x a'
  end.

(** [np.max]; [None] stands for the [ValueError] on an empty array. *)
Definition max (a : list float) : option float :=
  match a with
  | [] => None
  | x :: a' => Some (fold_left maximum a' x)
  end.

(** Element-wise [a - b] and [a / b] on arrays of one length.  A division
    by zero does not raise: it yields an infinity or a NaN. *)
Fixpoint subtract (a b : list float) : list float :=
  match a, b with
  | x :: a', y :: b' => (x - y) :: subtract a' b'
  | _, _ => []
  end.

Fixpoint divide (a b : list float) : list float :=
  match a, b with
  | x :: a', y :: b' => (x / y) :: divide a' b'
  | _, _ => []
  end.

Fixpoint insert (x : float) (a : list float) : list float :=
  match a with
  | [] => [x]
  | y :: a' => if x <=? y then x :: a else y :: insert x a'
  end.

Definition sort (a : list float) : list float := fold_right insert [] a.

(** The largest [k] below [n] with [k <= v]: [floor(v)] for [0 <= v <= n]. *)
Fixpoint floor_upto (n : nat) (v : float) : nat :=
  match n with
  | O => O
  | S n' => if float_of_nat n <=? v then n else floor_upto n' v
  end.

(** [np.percentile(a, q)] with the default linear interpolation between
    the two neighbouring order statistics; a NaN in [a] gives NaN. *)
Definition percentile (a : list float) (q : float) : float :=
  if existsb PrimFloat.is_nan a then nan
  else
    let n := List.length a in
    let sorted := sort a in
    let virtual_index := float_of_nat (n - 1) * (q / 100) in
    let previous := floor_upto (n - 1) virtual_index in
    let next := Nat.min (S previous) (n - 1) in
    let gamma := virtual_index - float_of_nat previous in
    let lo := nth previous sorted nan in
    let hi := nth next sorted nan in
    let diff := hi - lo in
    if 0.5 <=? gamma then hi - diff * (1 - gamma) else lo + diff * gamma.

End np.

(** Lines 33-38: the returns of adjacent valuations, a pair being skipped
    when its first value is not positive. *)
Fixpoint daily_returns (values : list float) : list float :=
  match values with
  | [] => []
  | previous :: rest =>
      match rest with
      | [] => []
      | current :: _ =>
          if 0 <? previous
          then (current - previous) / previous :: daily_returns rest
          else daily_returns rest
      end
  end.

(** [returns_array[-30:] if len(returns_array) >= 30 else returns_array] *)
Definition last_30 (returns : list float) : list float :=
  if (30 <=? List.length returns)%nat
  then skipn (List.length returns - 30) returns
  else returns.

(** Lines 50-53. *)
Definition max_drawdown_of (values : list float) : option float :=
  let rolling_max := np.maximum_accumulate values in
  let drawdowns := np.divide (np.subtract rolling_max values) rolling_max in
  match np.max drawdowns with
  | Some m => Some (100 * m)
  | None => None
  end.

(** Lines 55-61. *)
Definition sharpe_ratio_of (returns : list float) : float :=
  let risk_free_rate := 0.02 / 365 in
  let mean_return := np.mean returns in
  if 0 <? np.std returns
  then (mean_return - risk_free_rate) / np.std returns * np.sqrt 365
  else 0.

(** Lines 47-48 and 64. *)
Definition volatility_30d_of (returns : list float) : float :=
  np.std (last_30 returns) * 100.

Definition volatility_90d_of (returns : list float) : float :=
  np.std returns * 100.

Definition var_95_of (returns : list float) : float :=
  PrimFloat.abs (np.percentile returns 5 * 100).

(** The valuations of the 90-day window, oldest first (lines 21-32). *)
Definition window_values (now : Z) (db : DB) : list float :=
  map (fun s => float_of_cents (snapshot_total_value_usd s))
      (snapshots_since (now - 90 * day)%Z db).

Local Open Scope db_scope.

(** A float on its way into a [DecimalField] of [max_digits] digits and two
    places: [Decimal(str(x))] at the assignment; at [save()] a value that is
    not finite is refused with a [ValidationError] (Django 4.2 and later),
    the others are rounded to two places, and a result of more than
    [max_digits] digits is refused with [InvalidOperation].  The value is in
    hundredths. *)
Definition DecimalField_of_float (max_digits : Z) (x : float) : outcome Z :=
  match Decimal.of_float x with
  | None =>
      Raise (ValidationError
               (if PrimFloat.is_nan x then "NaN"
                else if x <? 0 then "-Infinity" else "Infinity"))
  | Some d =>
      let hundredths := Decimal.quantize d in
      if (10 ^ max_digits <=? Z.abs hundredths)%Z then Raise InvalidOperation
      else Ok hundredths
  end.

(** Lines 15-74, the body of the [try].  The assignments of lines 67-71
    cannot fail; [save()] at line 72 prepares the fields in the order of the
    model and raises at the first that it refuses, before anything is
    written. *)
Definition risk_metrics_body (now portfolio_id : Z) : M (bool * string) :=
  portfolio <- Portfolio_get portfolio_id ;;
  risk_metrics <- RiskMetrics_get_or_create ;;
  values <- (fun db => (Ok (window_values now db), db)) ;;
  if (List.length values <? 7)%nat then
    ret (false, "Not enough historical data for risk calculations")
  else
    let returns := daily_returns values in
    if (List.length returns <? 5)%nat then
      ret (false, "Not enough return data for risk calculations")
    else
      match max_drawdown_of values with
      | None =>
          raise (ValueError
                   "zero-size array to reduction operation maximum which has no identity")
      | Some drawdown =>
          volatility_30d <- lift (DecimalField_of_float 7 (volatility_30d_of returns)) ;;
          volatility_90d <- lift (DecimalField_of_float 7 (volatility_90d_of returns)) ;;
          max_drawdown <- lift (DecimalField_of_float 7 drawdown) ;;
          sharpe_ratio <- lift (DecimalField_of_float 5 (sharpe_ratio_of returns)) ;;
          value_at_risk <- lift (DecimalField_of_float 7 (var_95_of returns)) ;;
          RiskMetrics_save
            {| volatility_30d := Some volatility_30d;
               volatility_90d := Some volatility_90d;
               max_drawdown := Some max_drawdown;
               sharpe_ratio := Some sharpe_ratio;
               value_at_risk := Some value_at_risk;
               concentration_risk := concentration_risk risk_metrics |} ;;
          ret (true, "Risk metrics updated successfully")
      end.

(** [calculate_portfolio_risk_metrics], with its two [except] clauses. *)
Definition calculate_portfolio_risk_metrics (now portfolio_id : Z) (db : DB)
  : (bool * string) * DB :=
  match risk_metrics_body now portfolio_id db with
  | (Ok result, db') => (result, db')
  | (Raise DoesNotExist, db') => ((false, "Portfolio not found"), db')
  | (Raise e, db') =>
      ((false, ("Error calculating risk metrics: " ++ str e)%string), db')
  end.

(** The five metrics that the calculator writes from the snapshot history
    (lines 67-71): both volatilities, the maximum drawdown, the Sharpe ratio
    and the value at risk. *)
Definition history_metrics (r : RiskMetrics)
  : option Z * option Z * option Z * option Z * option Z :=
  (volatility_30d r, volatility_90d r, max_drawdown r, sharpe_ratio r,
   value_at_risk r).

(** ** [assets/views.py], the transaction history *)

Local Open Scope Z_scope.

(** A row of the [Transaction] table.  Amounts with 18 decimal places are
    counted in units of 10^-18. *)
Module Transaction.

Record row : Type := {
  wallet_id : Z;
  transaction_hash : string;
  block_number : Z;
  timestamp : Z;
  from_address : string;
  to_address : string;
  value : Z;
  gas_price : Z;
  gas_used : Z;
  transaction_fee : Z;
  transaction_type : string;
  status : bool
}.

End Transaction.

(** What the handler of [TransactionHistoryView.get] can catch. *)
Inductive fault : Type :=
| InvalidLiteral        (* ValueError of [int()] on a text that is no integer *)
| NegativeIndexing      (* a QuerySet sliced with a negative bound *)
| OutOfRange            (* a LIMIT or OFFSET that the database cannot hold *)
| ZeroDivisionError.

(** A query parameter as [int(request.query_params.get(name, default))]
    reads it: missing, the text of an integer, or any other text. *)
Inductive query_param : Type :=
| Absent
| Integer (z : Z)
| NotInteger.

Definition int_of_param (p : query_param) (default : Z) : fault + Z :=
  match p with
  | Absent => inr default
  | Integer z => inr z
  | NotInteger => inl InvalidLiteral
  end.

(** The largest LIMIT or OFFSET of a query: a signed 64-bit integer. *)
Definition max_limit : Z := 9223372036854775807.

(** [queryset[start:stop]], evaluated.  Django refuses a negative bound.  A
    slice with [stop <= start] is empty and runs no query.  Any other slice
    is the query with [LIMIT stop - start OFFSET start], which the database
    refuses when one of the two is beyond its integers, and which otherwise
    gives the rows from offset [start] up to offset [stop]. *)
Definition queryset_slice {A} (rows : list A) (start stop : Z)
  : fault + list A :=
  if (start <? 0) || (stop <? 0) then inl NegativeIndexing
  else if stop <=? start then inr []
  else if (max_limit <? stop - start) || (max_limit <? start)
  then inl OutOfRange
  else inr (firstn (Z.to_nat (stop - start)) (skipn (Z.to_nat start) rows)).

Record history_page : Type := {
  page_transactions : list Transaction.row;
  total : Z;
  page : Z;
  page_size : Z;
  total_pages : Z
}.

Inductive history_response : Type :=
| History_200 (body : history_page)
| History_500 (cause : fault).   (* "Failed to fetch transaction history: ..." *)

(** Lines 131-134: the transactions of the user's wallets, newest first.
    Transactions of one timestamp are kept in the order of the table; the
    query names no second key, so the database may return them in any
    order. *)
Definition user_transactions (wallet_ids : list Z)
    (table : list Transaction.row) : list Transaction.row :=
  Py.sort_by (fun t => - Transaction.timestamp t)
    (filter (fun t => existsb (Z.eqb (Transaction.wallet_id t)) wallet_ids)
       table).

(** Lines 129-161.  The serializer is taken as the identity on rows. *)
Definition TransactionHistoryView_get (wallet_ids : list Z)
    (page_param page_size_param : query_param)
    (table : list Transaction.row) : history_response :=
  let transactions := user_transactions wallet_ids table in
  match int_of_param page_param 1 with
  | inl e => History_500 e
  | inr page =>
      match int_of_param page_size_param 20 with
      | inl e => History_500 e
      | inr page_size =>
          let start := (page - 1) * page_size in
          let stop := start + page_size in
          match queryset_slice transactions start stop with
          | inl e => History_500 e
          | inr paginated_transactions =>
              let count := Z.of_nat (List.length transactions) in
              if page_size =? 0 then History_500 ZeroDivisionError
              else
                History_200
                  {| page_transactions := paginated_transactions;
                     total := count;
                     page := page;
                     page_size := page_size;
                     total_pages := (count + page_size - 1) / page_size |}
          end
      end
  end.

(** * Vocabulary of the statements

    Closed forms of what the views leave in the database, the readings of
    the specification that the theorems compare the code with, and the
    concrete databases and cycles of the examples. *)

Local Open Scope Z_scope.

(** The wallet's own address as the view compares it. *)
Definition own (wallet_address : string) : option string :=
  Some (Py.lower wallet_address).

(** Equality of an address of the provider with the wallet's address when
    letter case is ignored on both sides. *)
Definition same_ignoring_case (wallet_address : string) (a : option string)
  : Prop :=
  exists s, a = Some s /\ Py.lower s = Py.lower wallet_address.

(** The classification with both sides normalised. *)
Definition direction_ignoring_case (wallet_address : string)
    (from_address to_address : option string) : Prop :=
  (transaction_type wallet_address from_address to_address = "send"
     <-> same_ignoring_case wallet_address from_address) /\
  (transaction_type wallet_address from_address to_address = "receive"
     <-> same_ignoring_case wallet_address to_address).

(** The portfolio that a view loads: the stored row, or a new one. *)
Definition loaded (now : Z) (db : DB) : Portfolio * bool :=
  match portfolio db with
  | Some p => (p, false)
  | None => (new_Portfolio (portfolio_seq db) now, true)
  end.

(** Amounts in dollars. *)
Definition usd (cents : Z) : Q := (inject_Z cents / 100)%Q.

(** The percentage change against a checkpoint, in exact arithmetic. *)
Definition exact_change (current checkpoint : Z) : Q :=
  (100 * (usd current - usd checkpoint) / usd checkpoint)%Q.

(** What the comparator is to report for one checkpoint. *)
Definition change_as_specified (current : Z) (checkpoint : option Z)
    (reported : Q) : Prop :=
  (forall c, checkpoint = Some c -> 0 < c ->
     (reported == exact_change current c)%Q) /\
  (checkpoint = None \/ (exists c, checkpoint = Some c /\ c <= 0) ->
     reported = 0%Q).

(** Half a unit of the 28th significant digit, as a fraction of the value. *)
Definition tolerance : Q := 5 # 10000000000000000000000000000.

(** [reported] is [exact] up to the rounding of a 28-digit quotient. *)
Definition within_rounding (reported exact : Q) : Prop :=
  (Qabs (reported - exact) <= tolerance * Qabs exact)%Q.

(** What the comparator does report for one checkpoint. *)
Definition change_as_computed (current : Z) (checkpoint : option Z)
    (reported : Q) : Prop :=
  (forall c, checkpoint = Some c -> 0 < c ->
     within_rounding reported (exact_change current c)) /\
  (checkpoint = None \/ (exists c, checkpoint = Some c /\ c <= 0) ->
     reported = 0%Q).

(** The three checkpoints and the two dated extrema of a portfolio row. *)
Definition checkpoints (p : Portfolio) : option Z * option Z * option Z :=
  (previous_day_value_usd p, previous_week_value_usd p,
   previous_month_value_usd p).

Definition extrema (p : Portfolio)
  : option Z * option Z * option Z * option Z :=
  (all_time_high_usd p, all_time_high_date p,
   all_time_low_usd p, all_time_low_date p).

(** A portfolio whose day checkpoint is 0.00, whose week checkpoint is
    400.00 and whose month checkpoint is unset, holding 500.00. *)
Definition db_zero_checkpoint : DB :=
  {| wallet_tokens := [ {| token_symbol := "USDC"; balance_usd := Some 50000 |} ];
     portfolio :=
       Some {| id := 1; total_value_usd := 0;
               previous_day_value_usd := Some 0;
               previous_week_value_usd := Some 40000;
               previous_month_value_usd := None;
               all_time_high_usd := Some 40000; all_time_high_date := Some 3;
               all_time_low_usd := Some 0; all_time_low_date := Some 1;
               last_updated := 0 |};
     portfolio_seq := 2;
     snapshots := [];
     risk_metrics := None |}.

(** The sum of the USD balances of the rows; a row without a balance adds
    nothing. *)
Fixpoint balance_sum (wts : list WalletToken) : Z :=
  match wts with
  | [] => 0
  | wt :: rest =>
      match balance_usd wt with
      | Some cents => cents + balance_sum rest
      | None => balance_sum rest
      end
  end.

(** A portfolio stored at 250.00 whose wallets now hold ETH 300.00,
    BTC 600.00, a token without a price and ETH 100.00. *)
Definition db_four_rows : DB :=
  {| wallet_tokens :=
       [ {| token_symbol := "ETH"; balance_usd := Some 30000 |};
         {| token_symbol := "BTC"; balance_usd := Some 60000 |};
         {| token_symbol := "XYZ"; balance_usd := None |};
         {| token_symbol := "ETH"; balance_usd := Some 10000 |} ];
     portfolio :=
       Some {| id := 1; total_value_usd := 25000;
               previous_day_value_usd := Some 25000;
               previous_week_value_usd := Some 25000;
               previous_month_value_usd := None;
               all_time_high_usd := Some 40000; all_time_high_date := Some 3;
               all_time_low_usd := Some 25000; all_time_low_date := Some 1;
               last_updated := 0 |};
     portfolio_seq := 2;
     snapshots := [ {| snapshot_total_value_usd := 25000; timestamp := 5 |} ];
     risk_metrics := None |}.

(** A portfolio holding 100.00 whose three checkpoints are 300.00. *)
Definition db_third : DB :=
  {| wallet_tokens := [ {| token_symbol := "USDC"; balance_usd := Some 10000 |} ];
     portfolio :=
       Some {| id := 1; total_value_usd := 30000;
               previous_day_value_usd := Some 30000;
               previous_week_value_usd := Some 30000;
               previous_month_value_usd := Some 30000;
               all_time_high_usd := Some 30000; all_time_high_date := Some 1;
               all_time_low_usd := Some 30000; all_time_low_date := Some 1;
               last_updated := 0 |};
     portfolio_seq := 2;
     snapshots := [];
     risk_metrics := None |}.

(** The total that a cycle computes. *)
Definition cycle_total (c : cycle) : Z := total_value_of (synced_tokens c).

(** The portfolio row that a cycle saves at line 317. *)
Definition reconciled (c : cycle) (db : DB) : Portfolio :=
  touch
    (set_total_value_usd
       (roll_forward (snd (loaded (now_of c) db)) (cycle_total c)
          (date (now_of c)) (fst (loaded (now_of c) db)))
       (cycle_total c))
    (now_of c).

(** The largest aggregated position, [max(token_values.values())]. *)
Definition largest_position (wts : list WalletToken) : Z :=
  match Py.max (map snd (token_values_of wts)) with
  | Some m => m
  | None => 0
  end.

(** The risk metrics after lines 328-343. *)
Definition with_concentration (wts : list WalletToken) (r : RiskMetrics)
  : RiskMetrics :=
  if negb (Nat.eqb (List.length wts) 0) && (0 <? total_value_of wts)
  then set_concentration_risk r
         (Decimal.quotient (largest_position wts) (total_value_of wts) * 100)%Q
  else r.

(** The database after one cycle. *)
Definition after_cycle (globals : list string) (c : cycle) (db : DB) : DB :=
  {| wallet_tokens := synced_tokens c;
     portfolio := Some (reconciled c db);
     portfolio_seq :=
       (if snd (loaded (now_of c) db) then portfolio_seq db + 1
        else portfolio_seq db);
     snapshots :=
       (if bound globals "PortfolioSnapshot"
        then snapshots db ++ [{| snapshot_total_value_usd := cycle_total c;
                                 timestamp := now_of c |}]
        else snapshots db);
     risk_metrics :=
       (if bound globals "PortfolioSnapshot"
        then Some (with_concentration (synced_tokens c)
                     (risk_metrics_or_new db))
        else risk_metrics db) |}.

(** A database with no row of the user yet. *)
Definition empty_db : DB :=
  {| wallet_tokens := []; portfolio := None; portfolio_seq := 1;
     snapshots := []; risk_metrics := None |}.

(** A cycle that finds one token position worth [cents]. *)
Definition cycle_of (cents now : Z) : cycle :=
  {| synced_tokens := [ {| token_symbol := "ETH"; balance_usd := Some cents |} ];
     now_of := now |}.

(** One of the three checkpoints, and its stored value; a portfolio without
    a row has none. *)
Inductive checkpoint : Type := previous_day | previous_week | previous_month.

Definition checkpoint_value (k : checkpoint) (p : Portfolio) : option Z :=
  match k with
  | previous_day => previous_day_value_usd p
  | previous_week => previous_week_value_usd p
  | previous_month => previous_month_value_usd p
  end.

Definition stored_checkpoint (k : checkpoint) (db : DB) : option Z :=
  match portfolio db with
  | Some p => checkpoint_value k p
  | None => None
  end.



Local Open Scope nat_scope.

(** The database once [get_or_create] has made sure of a [RiskMetrics] row. *)
Definition with_risk_metrics (db : DB) (r : RiskMetrics) : DB :=
  {| wallet_tokens := wallet_tokens db;
     portfolio := portfolio db;
     portfolio_seq := portfolio_seq db;
     snapshots := snapshots db;
     risk_metrics := Some r |}.

(** The five history metrics that lines 44-72 compute from a window and
    store, or the exception that ends the attempt. *)
Definition computed_history_metrics (values : list float)
  : outcome (option Z * option Z * option Z * option Z * option Z) :=
  let returns := daily_returns values in
  match max_drawdown_of values with
  | None =>
      Raise (ValueError
               "zero-size array to reduction operation maximum which has no identity")
  | Some drawdown =>
      match DecimalField_of_float 7 (volatility_30d_of returns) with
      | Raise e => Raise e
      | Ok v30 =>
      match DecimalField_of_float 7 (volatility_90d_of returns) with
      | Raise e => Raise e
      | Ok v90 =>
      match DecimalField_of_float 7 drawdown with
      | Raise e => Raise e
      | Ok dd =>
      match DecimalField_of_float 5 (sharpe_ratio_of returns) with
      | Raise e => Raise e
      | Ok sr =>
      match DecimalField_of_float 7 (var_95_of returns) with
      | Raise e => Raise e
      | Ok var => Ok (Some v30, Some v90, Some dd, Some sr, Some var)
      end end end end end
  end.

(** Snapshots of the given amounts, one per day from day 1 on. *)
Definition daily_snapshots (amounts : list Z) : list PortfolioSnapshot :=
  map (fun '(i, cents) =>
         {| snapshot_total_value_usd := cents;
            timestamp := (Z.of_nat i * day)%Z |})
      (combine (seq 1 (List.length amounts)) amounts).

(** A portfolio with the given snapshot history and no [RiskMetrics] row. *)
Definition db_with_history (amounts : list Z) : DB :=
  {| wallet_tokens := [];
     portfolio := Some (new_Portfolio 1 0);
     portfolio_seq := 2;
     snapshots := daily_snapshots amounts;
     risk_metrics := None |}.

Local Open Scope float_scope.

(** The drawdown as the specification words it: per index the fall from the
    running maximum relative to it, an index whose running maximum is 0
    counting as 0. *)
Definition drawdown_at (peak value : float) : float :=
  if peak =? 0 then 0 else (peak - value) / peak.

(** The drawdowns of a series along its running maxima, and 100 times the
    largest of them. *)
Fixpoint drawdowns_spec (peaks values : list float) : list float :=
  match peaks, values with
  | peak :: peaks', value :: values' =>
      drawdown_at peak value :: drawdowns_spec peaks' values'
  | _, _ => []
  end.

Definition max_drawdown_spec (values : list float) : option float :=
  match np.max (drawdowns_spec (np.maximum_accumulate values) values) with
  | Some m => Some (100 * m)
  | None => None
  end.

(** The number that a float stands for; 0 for an infinity or a NaN. *)
Definition exact_value (x : float) : Q :=
  match Prim2SF x with
  | S754_finite negative m e =>
      let magnitude :=
        if (0 <=? e)%Z then inject_Z (Zpos m * 2 ^ e)
        else Qmake (Zpos m) (Z.to_pos (2 ^ (- e))) in
      if negative then (- magnitude)%Q else magnitude
  | _ => 0%Q
  end.

(** Mean and population variance of a series in exact arithmetic. *)
Definition exact_mean (xs : list Q) : Q :=
  (fold_right Qplus 0 xs / inject_Z (Z.of_nat (List.length xs)))%Q.

Definition exact_variance (returns : list float) : Q :=
  let xs := map exact_value returns in
  let m := exact_mean xs in
  exact_mean (map (fun x => (x - m) * (x - m))%Q xs).

(** The population standard deviation as the calculator computes it: the
    root of the mean squared distance from the mean, all in binary64. *)
Definition computed_deviation (returns : list float) : float :=
  let n := float_of_nat (List.length returns) in
  let m := np.sum returns / n in
  PrimFloat.sqrt (np.sum (map (fun r => (r - m) * (r - m)) returns) / n).

(** Six returns of one tenth. *)
Definition six_tenths : list float := [0.1; 0.1; 0.1; 0.1; 0.1; 0.1].

(** Seven valuations, each a tenth above the one before. *)
Definition growing_by_a_tenth : list Z :=
  [100000000; 110000000; 121000000; 133100000; 146410000; 161051000;
   177156100]%Z.

Local Open Scope Z_scope.

(** The summed balance of one symbol over all rows. *)
Definition aggregate (sym : string) (wts : list WalletToken) : Z :=
  Py.sum (map (fun wt => Py.or0 (balance_usd wt))
            (filter (fun wt => String.eqb (token_symbol wt) sym) wts)).

(** [d[sym]] *)
Fixpoint lookup (sym : string) (d : list (string * Z)) : option Z :=
  match d with
  | [] => None
  | (k, w) :: d' => if String.eqb k sym then Some w else lookup sym d'
  end.

(** The holdings of the specification's example, in one wallet. *)
Definition btc_eth_sol : cycle :=
  {| synced_tokens :=
       [ {| token_symbol := "BTC"; balance_usd := Some 60000 |};
         {| token_symbol := "ETH"; balance_usd := Some 30000 |};
         {| token_symbol := "SOL"; balance_usd := Some 10000 |} ];
     now_of := day |}.

Local Open Scope nat_scope.

(** The reading of the specification for one cycle: when the window after
    the cycle holds enough history, the stored volatility, drawdown, Sharpe
    ratio and value at risk are those that the calculator computes from it
    and stores. *)
Definition recomputed_on_sync (globals : list string) (c : cycle) (db : DB)
  : Prop :=
  7 <= List.length
         (window_values (now_of c) (snd (SyncWalletDataView_post globals c db))) ->
  5 <= List.length
         (daily_returns
            (window_values (now_of c)
               (snd (SyncWalletDataView_post globals c db)))) ->
  forall metrics,
    computed_history_metrics
      (window_values (now_of c) (snd (SyncWalletDataView_post globals c db)))
    = Ok metrics ->
    history_metrics
      (risk_metrics_or_new (snd (SyncWalletDataView_post globals c db)))
    = metrics.

(** Eight daily snapshots of 100.00. *)
Definition flat_history : DB :=
  db_with_history
    [10000; 10000; 10000; 10000; 10000; 10000; 10000; 10000]%Z.

Local Open Scope Z_scope.

(** The transactions that page [k] of size [n] of the history shows, none
    when the view answers 500. *)
Definition shown (wallet_ids : list Z) (k n : Z)
    (table : list Transaction.row) : list Transaction.row :=
  match TransactionHistoryView_get wallet_ids (Integer k) (Integer n) table with
  | History_200 body => page_transactions body
  | History_500 _ => []
  end.

(** [a] is at least as new as [b]. *)
Definition newer_or_same (a b : Transaction.row) : Prop :=
  Transaction.timestamp b <= Transaction.timestamp a.

(** A transaction with the given wallet, hash and time; the other fields do
    not matter to the history. *)
Definition transaction_at (wallet : Z) (hash : string) (time : Z)
  : Transaction.row :=
  {| Transaction.wallet_id := wallet;
     Transaction.transaction_hash := hash;
     Transaction.block_number := time;
     Transaction.timestamp := time;
     Transaction.from_address := "0xaa";
     Transaction.to_address := "0xbb";
     Transaction.value := 0;
     Transaction.gas_price := 0;
     Transaction.gas_used := 21000;
     Transaction.transaction_fee := 0;
     Transaction.transaction_type := "unknown";
     Transaction.status := true |}.

(** Five transactions of wallets 1 and 2, and one of wallet 3. *)
Definition example_table : list Transaction.row :=
  [ transaction_at 1 "0x01" 10; transaction_at 2 "0x02" 50;
    transaction_at 3 "0x03" 40; transaction_at 1 "0x04" 30;
    transaction_at 2 "0x05" 20; transaction_at 1 "0x06" 60 ].

Local Open Scope Z_scope.

(** *** Closed forms of the overview *)

(** The allocation row of one entry of [token_values] (lines 53-62). *)
Definition allocation_of (total_value : Z) (entry : string * Z) : allocation :=
  {| symbol := fst entry;
     value_usd := snd entry;
     percentage :=
       if 0 <? total_value
       then (Decimal.quotient (snd entry) total_value * 100)%Q
       else 0%Q |}.

(** The change that lines 82-95 report against one checkpoint. *)
Definition change_of (total_value : Z) (checkpoint : option Z) : Q :=
  match checkpoint with
  | Some previous =>
      if Py.truthy checkpoint && (0 <? previous)
      then (Decimal.quotient (total_value - previous) previous * 100)%Q
      else 0%Q
  | None => 0%Q
  end.

(** The body of an overview that answers 200, and the database it leaves. *)
Definition overview_of (now : Z) (db : DB) : overview :=
  let total_value := total_value_of (wallet_tokens db) in
  {| ov_total_value_usd := total_value;
     asset_allocation :=
       Py.sort_by (fun r => - value_usd r)
         (map (allocation_of total_value) (token_values_of (wallet_tokens db)));
     daily_change_pct :=
       change_of total_value (previous_day_value_usd (fst (loaded now db)));
     weekly_change_pct :=
       change_of total_value (previous_week_value_usd (fst (loaded now db)));
     monthly_change_pct :=
       change_of total_value (previous_month_value_usd (fst (loaded now db)));
     ov_risk_metrics := risk_metrics_or_new db;
     historical_data := snapshots_since (now - 30 * day) db |}.

Definition after_overview (now : Z) (db : DB) : DB :=
  {| wallet_tokens := wallet_tokens db;
     portfolio :=
       Some (touch (set_total_value_usd (fst (loaded now db))
                      (total_value_of (wallet_tokens db))) now);
     portfolio_seq :=
       (if snd (loaded now db) then portfolio_seq db + 1 else portfolio_seq db);
     snapshots := snapshots db;
     risk_metrics := Some (risk_metrics_or_new db) |}.

(** The balances of one symbol over all rows, added up; a row without a
    balance adds nothing. *)
Fixpoint symbol_sum (sym : string) (wts : list WalletToken) : Z :=
  match wts with
  | [] => 0
  | wt :: rest =>
      if String.eqb (token_symbol wt) sym
      then match balance_usd wt with
           | Some cents => cents + symbol_sum sym rest
           | None => symbol_sum sym rest
           end
      else symbol_sum sym rest
  end.

(** A portfolio whose snapshots are 20, 80 and 95 days old at day 100. *)
Definition db_three_snapshots : DB :=
  {| wallet_tokens := [];
     portfolio := Some (new_Portfolio 1 0);
     portfolio_seq := 2;
     snapshots :=
       [ {| snapshot_total_value_usd := 90000; timestamp := 95 * day |};
         {| snapshot_total_value_usd := 70000; timestamp := 20 * day |};
         {| snapshot_total_value_usd := 80000; timestamp := 80 * day |} ];
     risk_metrics := None |}.

(** *** Extrema and series *)

(** The stored all-time high and low; a portfolio without a row has none. *)
Definition stored_high (db : DB) : option Z :=
  match portfolio db with
  | Some p => all_time_high_usd p
  | None => None
  end.

Definition stored_low (db : DB) : option Z :=
  match portfolio db with
  | Some p => all_time_low_usd p
  | None => None
  end.

(** The database with another snapshot series. *)
Definition with_snapshots (db : DB) (series : list PortfolioSnapshot) : DB :=
  {| wallet_tokens := wallet_tokens db;
     portfolio := portfolio db;
     portfolio_seq := portfolio_seq db;
     snapshots := series;
     risk_metrics := risk_metrics db |}.

(** A value in hundredths that a field of [max_digits] digits holds. *)
Definition field_fits (max_digits : Z) (hundredths : Z) : Prop :=
  Z.abs hundredths < 10 ^ max_digits.

(** A field of [max_digits] digits holds [hundredths] for the float [x]:
    the value fits, and it is within half a hundredth of the decimal that
    [str] prints for [x]. *)
Definition stored_from (x : float) (max_digits hundredths : Z) : Prop :=
  field_fits max_digits hundredths /\
  exists d, Decimal.of_float x = Some d /\
            (Qabs (d * 100 - inject_Z hundredths) <= 1 # 2)%Q.

(** Eight daily valuations that move. *)
Definition moving_history : DB :=
  db_with_history [10000; 11000; 9900; 10500; 9000; 12000; 11500; 10800].

(** * Properties *)

Local Open Scope Z_scope.

(** ** Transaction direction (lines 246-251) *)

Section Direction.

Variable wallet_address : string.
Variables from_address to_address : option string.

Lemma is_wallet_eq (a : option string) :
  match a with
  | Some s => String.eqb s (Py.lower wallet_address)
  | None => false
  end = true <-> a = own wallet_address.
Proof.
  unfold own. destruct a as [s|].
  - rewrite String.eqb_eq. split; [intros ->; reflexivity | congruence].
  - split; discriminate.
Qed.

(** C9 (as the code has it): the direction is "send" exactly when the
    from-address, taken as the provider gave it, equals the lower-cased
    wallet address; "receive" exactly when the from-address does not and
    the to-address does; "unknown" exactly when neither does. *)
Theorem transaction_type_spec :
  (transaction_type wallet_address from_address to_address = "send"
     <-> from_address = own wallet_address) /\
  (transaction_type wallet_address from_address to_address = "receive"
     <-> from_address <> own wallet_address /\
         to_address = own wallet_address) /\
  (transaction_type wallet_address from_address to_address = "unknown"
     <-> from_address <> own wallet_address /\
         to_address <> own wallet_address).
Proof.
  unfold transaction_type.
  pose proof (is_wallet_eq from_address) as Hf.
  pose proof (is_wallet_eq to_address) as Ht.
  destruct (match from_address with
            | Some s => String.eqb s (Py.lower wallet_address)
            | None => false end);
    destruct (match to_address with
              | Some s => String.eqb s (Py.lower wallet_address)
              | None => false end).
  all: repeat split; intros; try discriminate; try tauto.
  all: try (apply Hf; reflexivity); try (apply Ht; reflexivity).
  all: try (intros E; apply Hf in E; discriminate).
  all: try (intros E; apply Ht in E; discriminate).
  all: try (exfalso; intuition congruence).
Qed.

End Direction.

(** C9, counterexample: a from-address in mixed case differs from the
    lower-cased wallet address, so the transaction is "unknown" although the
    two agree when case is ignored; and a transfer of the wallet to itself
    is "send", not "receive". *)
Lemma direction_is_case_sensitive :
  ~ direction_ignoring_case "0xab" (Some "0xAB") None /\
  ~ direction_ignoring_case "0xab" (Some "0xab") (Some "0xab").
Proof.
  split; intros [Hsend Hrecv].
  - assert (H : transaction_type "0xab" (Some "0xAB") None = "send").
    { apply Hsend. exists "0xAB". split; reflexivity. }
    vm_compute in H. discriminate.
  - assert (H : transaction_type "0xab" (Some "0xab") (Some "0xab") = "receive").
    { apply Hrecv. exists "0xab". split; reflexivity. }
    vm_compute in H. discriminate.
Qed.

(** ** Running the monad *)

Ltac run_db :=
  repeat progress
    (unfold bind, ret, raise, resolve, Portfolio_get_or_create, Portfolio_get,
       Portfolio_save, WalletToken_filter, PortfolioSnapshot_create,
       RiskMetrics_get_or_create, RiskMetrics_save, Decimal_div; simpl).

(** ** Decimal division *)

Section DecimalDivision.

Import Decimal.

Lemma digits_upto_spec (fuel : nat) : forall n,
  0 < n < 2 ^ (Z.of_nat fuel + 1) ->
  1 <= digits_upto fuel n /\
  10 ^ (digits_upto fuel n - 1) <= n < 10 ^ digits_upto fuel n.
Proof.
  induction fuel as [|fuel IH]; intros n Hn.
  - simpl in *. change (2 ^ 1) with 2 in Hn. split; [lia|].
    change (10 ^ (1 - 1)) with 1. change (10 ^ 1) with 10. lia.
  - cbn [digits_upto]. destruct (n <? 10) eqn:Hlt.
    + split; [lia|]. change (10 ^ (1 - 1)) with 1. change (10 ^ 1) with 10. lia.
    + apply Z.ltb_ge in Hlt.
      assert (Hq : 0 < n / 10 < 2 ^ (Z.of_nat fuel + 1)).
      { split.
        - apply Z.div_str_pos. lia.
        - apply Z.div_lt_upper_bound; [lia|].
          replace (Z.of_nat (S fuel) + 1) with (Z.succ (Z.of_nat fuel + 1)) in Hn by lia.
          rewrite Z.pow_succ_r in Hn by lia. lia. }
      destruct (IH _ Hq) as (Hd & Hlo & Hhi).
      set (d := digits_upto fuel (n / 10)) in *.
      split; [lia|].
      replace (1 + d - 1) with (Z.succ (d - 1)) by lia.
      replace (1 + d) with (Z.succ d) by lia.
      rewrite !Z.pow_succ_r by lia.
      pose proof (Z.div_mod n 10 ltac:(lia)) as E.
      pose proof (Z.mod_pos_bound n 10 ltac:(lia)) as B.
      lia.
Qed.

(** [digits n] is the number of decimal digits of a positive [n]. *)
Lemma digits_spec (n : Z) :
  0 < n -> 1 <= digits n /\ 10 ^ (digits n - 1) <= n < 10 ^ digits n.
Proof.
  intros Hn. unfold digits. apply digits_upto_spec.
  split; [exact Hn|].
  rewrite Z2Nat.id by apply Z.log2_nonneg.
  replace (Z.log2 n + 1) with (Z.succ (Z.log2 n)) by lia.
  apply Z.log2_spec. exact Hn.
Qed.

Lemma digits_unique (n d : Z) :
  0 < n -> 10 ^ (d - 1) <= n < 10 ^ d -> 1 <= d -> digits n = d.
Proof.
  intros Hn [Hlo Hhi] Hd.
  destruct (digits_spec n Hn) as (H1 & H2 & H3).
  assert (digits n - 1 < d).
  { apply (Z.pow_lt_mono_r_iff 10); lia. }
  assert (d - 1 < digits n).
  { apply (Z.pow_lt_mono_r_iff 10); lia. }
  lia.
Qed.

Lemma rounding_error (D c r u h m T : Z) (big : Z) :
  0 < D -> 0 <= r < D -> T = D * c + r ->
  big <= c -> 0 < h ->
  u <= h -> (- h < u \/ (u = - h /\ r = 0)) ->
  10 ^ 28 * h <= 5 * big ->
  - (5 * T) <= 10 ^ 28 * ((u + c) * D - T) <= 5 * T.
Proof.
  intros HD Hr HT Hbig Hh Hu Hl Hsz.
  assert (H1 : u * D <= h * D) by (apply Z.mul_le_mono_nonneg_r; lia).
  assert (H2 : big * D <= c * D) by (apply Z.mul_le_mono_nonneg_r; lia).
  assert (H3 : 10 ^ 28 * h * D <= 5 * big * D)
    by (apply Z.mul_le_mono_nonneg_r; lia).
  assert (H4 : - h * D <= u * D - r).
  { destruct Hl as [Hl | [-> ->]]; [|lia].
    assert ((- h + 1) * D <= u * D) by (apply Z.mul_le_mono_nonneg_r; lia).
    lia. }
  replace ((u + c) * D - T) with (u * D - r) by (subst T; ring).
  replace (5 * T) with (5 * (c * D) + 5 * r) by (subst T; ring).
  change (10 ^ 28) with 10000000000000000000000000000 in *.
  set (uD := u * D) in *. set (cD := c * D) in *. set (hD := h * D) in *.
  replace (- h * D) with (- hD) in H4 by (unfold hD; ring).
  replace (10000000000000000000000000000 * h * D)
    with (10000000000000000000000000000 * hD) in H3 by (unfold hD; ring).
  replace (5 * big * D) with (5 * (big * D)) in H3 by ring.
  set (bD := big * D) in *.
  clearbody uD cD hD bD. lia.
Qed.

(** Rounding a quotient of 29 or 30 digits to 28: the result is within
    5 parts in 10^28 of the exact quotient [T / D]. *)
Lemma fix_bound (T D : Z) :
  0 < D -> 10 ^ 28 * D <= T < 10 ^ 30 * D ->
  let c := T / D in
  let r := T mod D in
  let coeff := if negb (r =? 0) && (c mod 5 =? 0) then c + 1 else c in
  exists hi k,
    fix_ coeff = (hi, k) /\ 1 <= k <= 2 /\
    - (5 * T) <= 10 ^ 28 * (hi * 10 ^ k * D - T) <= 5 * T.
Proof.
  intros HD [Hlo Hhi] c r coeff.
  pose proof (Z.div_mod T D ltac:(lia)) as HT. fold c r in HT.
  pose proof (Z.mod_pos_bound T D HD) as Hr. fold r in Hr.
  assert (Hc : 10 ^ 28 <= c < 10 ^ 30).
  { split.
    - apply Z.div_le_lower_bound; lia.
    - apply Z.div_lt_upper_bound; lia. }
  pose proof (Z.div_mod c 5 ltac:(lia)) as Hc5.
  pose proof (Z.mod_pos_bound c 5 ltac:(lia)) as Hc5b.
  set (c5 := c mod 5) in *. set (cq := c / 5) in *.
  assert (Hs : (coeff = c /\ (r = 0 \/ c5 <> 0)) \/
               (coeff = c + 1 /\ 0 < r /\ c5 = 0)).
  { unfold coeff. destruct (r =? 0) eqn:E1; simpl.
    - left. split; [reflexivity | lia].
    - destruct (c5 =? 0) eqn:E2; [right | left]; lia. }
  clearbody coeff c r c5 cq.
  change (10 ^ 28) with 10000000000000000000000000000 in Hc.
  change (10 ^ 30) with 1000000000000000000000000000000 in Hc.
  assert (Hcoeff : 10000000000000000000000000000 <= coeff
                   < 1000000000000000000000000000000) by lia.
  destruct (digits_spec coeff ltac:(lia)) as (Hd1 & Hd2 & Hd3).
  assert (Hk : digits coeff = 29 \/ digits coeff = 30).
  { assert (digits coeff - 1 < 30).
    { apply (Z.pow_lt_mono_r_iff 10); [lia | lia |].
      change (10 ^ 30) with 1000000000000000000000000000000. lia. }
    assert (28 < digits coeff).
    { apply (Z.pow_lt_mono_r_iff 10); [lia | lia |].
      change (10 ^ 28) with 10000000000000000000000000000. lia. }
    lia. }
  unfold fix_, prec.
  destruct Hk as [Hk | Hk]; rewrite Hk in *; simpl Z.sub; simpl Z.leb;
    cbv iota.
  - (* one digit dropped *)
    change (10 ^ 1) with 10. change (5 * 10 ^ 0) with 5.
    pose proof (Z.div_mod coeff 10 ltac:(lia)) as Hm.
    pose proof (Z.mod_pos_bound coeff 10 ltac:(lia)) as Hmb.
    set (lo := coeff mod 10) in *. set (hi := coeff / 10) in *.
    clearbody lo hi.
    destruct ((5 <? lo) || ((lo =? 5) && Z.odd hi)) eqn:Hup.
    + exists (hi + 1), 1. split; [reflexivity|]. split; [lia|].
      change (10 ^ 1) with 10.
      assert (Hlo5 : 5 <= lo).
      { apply orb_true_iff in Hup. destruct Hup as [H|H]; [lia|].
        apply andb_true_iff in H. lia. }
      replace ((hi + 1) * 10) with (((hi + 1) * 10 - c) + c) by ring.
      apply (rounding_error D c r _ 5 10 T 10000000000000000000000000000);
        first [lia | change (10 ^ 28) with 10000000000000000000000000000; lia].
    + exists hi, 1. split; [reflexivity|]. split; [lia|].
      change (10 ^ 1) with 10.
      apply orb_false_iff in Hup. destruct Hup as [Hup _].
      replace (hi * 10) with ((hi * 10 - c) + c) by ring.
      apply (rounding_error D c r _ 5 10 T 10000000000000000000000000000);
        first [lia | change (10 ^ 28) with 10000000000000000000000000000; lia].
  - change (10 ^ 2) with 100. change (5 * 10 ^ 1) with 50.
    change (10 ^ (30 - 1)) with 100000000000000000000000000000 in *.
    pose proof (Z.div_mod coeff 100 ltac:(lia)) as Hm.
    pose proof (Z.mod_pos_bound coeff 100 ltac:(lia)) as Hmb.
    set (lo := coeff mod 100) in *. set (hi := coeff / 100) in *.
    clearbody lo hi.
    destruct ((50 <? lo) || ((lo =? 50) && Z.odd hi)) eqn:Hup.
    + exists (hi + 1), 2. split; [reflexivity|]. split; [lia|].
      change (10 ^ 2) with 100.
      assert (Hlo5 : 50 <= lo).
      { apply orb_true_iff in Hup. destruct Hup as [H|H]; [lia|].
        apply andb_true_iff in H. lia. }
      replace ((hi + 1) * 100) with (((hi + 1) * 100 - c) + c) by ring.
      apply (rounding_error D c r _ 50 100 T 100000000000000000000000000000);
        first [lia | change (10 ^ 28) with 10000000000000000000000000000; lia].
    + exists hi, 2. split; [reflexivity|]. split; [lia|].
      change (10 ^ 2) with 100.
      apply orb_false_iff in Hup. destruct Hup as [Hup _].
      replace (hi * 100) with ((hi * 100 - c) + c) by ring.
      apply (rounding_error D c r _ 50 100 T 100000000000000000000000000000);
        first [lia | change (10 ^ 28) with 10000000000000000000000000000; lia].
Qed.

Lemma inject_Z_nonzero (z : Z) : z <> 0 -> ~ (inject_Z z == 0)%Q.
Proof. intros H. unfold Qeq; simpl. lia. Qed.

Lemma fraction_bound (N M A B : Z) :
  0 < M -> 0 < B -> 0 < A ->
  - (5 * (A * M)) <= 10 ^ 28 * (N * B - A * M) <= 5 * (A * M) ->
  (Qabs (inject_Z N / inject_Z M - inject_Z A / inject_Z B)
     <= tolerance * (inject_Z A / inject_Z B))%Q.
Proof.
  intros HM HB HA [Hlo Hhi].
  pose proof (inject_Z_nonzero M ltac:(lia)) as HMq.
  pose proof (inject_Z_nonzero B ltac:(lia)) as HBq.
  set (W := 10 ^ 28 * (M * B)).
  assert (HW : 0 < W) by (unfold W; change (10 ^ 28) with 10000000000000000000000000000; nia).
  pose proof (inject_Z_nonzero W ltac:(lia)) as HWq.
  assert (E1 : (inject_Z N / inject_Z M - inject_Z A / inject_Z B
                == inject_Z (10 ^ 28 * (N * B - A * M)) / inject_Z W)%Q).
  { unfold W. unfold Z.sub. rewrite !inject_Z_mult, inject_Z_plus, inject_Z_opp, !inject_Z_mult.
    change (10 ^ 28) with 10000000000000000000000000000.
    field. repeat split; first [exact HMq | exact HBq | discriminate]. }
  assert (E2 : (tolerance * (inject_Z A / inject_Z B)
                == inject_Z (5 * (A * M)) / inject_Z W)%Q).
  { unfold W, tolerance. rewrite !inject_Z_mult.
    change (10 ^ 28) with 10000000000000000000000000000.
    change (5 # 10000000000000000000000000000)%Q
      with (inject_Z 5 / inject_Z 10000000000000000000000000000)%Q.
    field. repeat split; first [exact HMq | exact HBq | discriminate]. }
  rewrite E1, E2.
  assert (HWi : (0 < / inject_Z W)%Q).
  { apply Qinv_lt_0_compat. change 0%Q with (inject_Z 0).
    rewrite <- Zlt_Qlt. exact HW. }
  apply Qabs_Qle_condition. unfold Qdiv. split.
  - setoid_replace (- (inject_Z (5 * (A * M)) * / inject_Z W))%Q
      with (inject_Z (- (5 * (A * M))) * / inject_Z W)%Q
      by (rewrite inject_Z_opp; ring).
    apply Qmult_le_compat_r; [|apply Qlt_le_weak; exact HWi].
    rewrite <- Zle_Qle. exact Hlo.
  - apply Qmult_le_compat_r; [|apply Qlt_le_weak; exact HWi].
    rewrite <- Zle_Qle. exact Hhi.
Qed.

Lemma scaled_nonneg_shift (hi k s : Z) :
  0 <= k -> 0 <= s ->
  (scaled hi (k - s) == inject_Z (hi * 10 ^ k) / inject_Z (10 ^ s))%Q.
Proof.
  intros Hk Hs. unfold scaled.
  assert (Hp : forall e, 0 <= e -> 0 < 10 ^ e) by (intros; apply Z.pow_pos_nonneg; lia).
  destruct (0 <=? k - s) eqn:E.
  - apply Z.leb_le in E.
    replace (10 ^ k) with (10 ^ (k - s) * 10 ^ s)
      by (rewrite <- Z.pow_add_r by lia; f_equal; lia).
    rewrite !inject_Z_mult. field.
    apply inject_Z_nonzero. specialize (Hp s Hs). lia.
  - apply Z.leb_gt in E.
    replace (10 ^ s) with (10 ^ k * 10 ^ (- (k - s)))
      by (rewrite <- Z.pow_add_r by lia; f_equal; lia).
    rewrite !inject_Z_mult. field. split; apply inject_Z_nonzero.
    + specialize (Hp (- (k - s)) ltac:(lia)). lia.
    + specialize (Hp k Hk). lia.
Qed.

Lemma divide_bound (A B : Z) :
  0 < A -> 0 < B ->
  (Qabs (divide A B - inject_Z A / inject_Z B)
     <= tolerance * (inject_Z A / inject_Z B))%Q.
Proof.
  intros HA HB. unfold divide, prec.
  destruct (digits_spec A HA) as (HdA & HA1 & HA2).
  destruct (digits_spec B HB) as (HdB & HB1 & HB2).
  set (dA := digits A) in *. set (dB := digits B) in *.
  set (s := dB - dA + 28 + 1).
  assert (Hp : forall e, 0 <= e -> 0 < 10 ^ e) by (intros; apply Z.pow_pos_nonneg; lia).
  destruct (0 <=? s) eqn:Hs.
  - apply Z.leb_le in Hs.
    assert (HT : 10 ^ 28 * B <= A * 10 ^ s < 10 ^ 30 * B).
    { pose proof (Hp s Hs) as Hps.
      split.
      - apply Z.le_trans with (10 ^ (dA - 1) * 10 ^ s).
        + rewrite <- Z.pow_add_r by lia.
          replace (dA - 1 + s) with (28 + dB) by (unfold s; lia).
          rewrite Z.pow_add_r by lia.
          apply Z.mul_le_mono_nonneg_l; [apply Z.lt_le_incl, Hp|]; lia.
        + apply Z.mul_le_mono_nonneg_r; lia.
      - apply Z.lt_le_trans with (10 ^ dA * 10 ^ s).
        + apply Z.mul_lt_mono_pos_r; lia.
        + rewrite <- Z.pow_add_r by lia.
          replace (dA + s) with (30 + (dB - 1)) by (unfold s; lia).
          rewrite Z.pow_add_r by lia.
          apply Z.mul_le_mono_nonneg_l; [apply Z.lt_le_incl, Hp|]; lia. }
    destruct (fix_bound (A * 10 ^ s) B HB HT) as (hi & k & Hfix & Hk & Hb).
    cbv zeta in Hfix.
    destruct (Z.div_eucl (A * 10 ^ s) B) as [c r] eqn:E.
    assert (Ec : A * 10 ^ s / B = c) by (unfold Z.div; rewrite E; reflexivity).
    assert (Er : (A * 10 ^ s) mod B = r)
      by (unfold Z.modulo; rewrite E; reflexivity).
    rewrite Ec, Er in Hfix. rewrite Hfix.
    rewrite scaled_nonneg_shift by lia.
    apply fraction_bound; try lia.
  - apply Z.leb_gt in Hs.
    assert (HT : 10 ^ 28 * (B * 10 ^ (- s)) <= A < 10 ^ 30 * (B * 10 ^ (- s))).
    { pose proof (Hp (- s) ltac:(lia)) as Hps.
      split.
      - apply Z.le_trans with (10 ^ (dA - 1)); [|lia].
        replace (dA - 1) with (28 + (dB + - s)) by (unfold s; lia).
        rewrite !Z.pow_add_r by lia.
        apply Z.mul_le_mono_nonneg_l; [apply Z.lt_le_incl, Hp; lia|].
        apply Z.mul_le_mono_nonneg_r; lia.
      - apply Z.lt_le_trans with (10 ^ dA); [lia|].
        replace dA with (30 + ((dB - 1) + - s)) at 1 by (unfold s; lia).
        rewrite !Z.pow_add_r by lia.
        apply Z.mul_le_mono_nonneg_l; [apply Z.lt_le_incl, Hp; lia|].
        apply Z.mul_le_mono_nonneg_r; lia. }
    assert (HD : 0 < B * 10 ^ (- s)).
    { apply Z.mul_pos_pos; [lia | apply Hp; lia]. }
    destruct (fix_bound A (B * 10 ^ (- s)) HD HT) as (hi & k & Hfix & Hk & Hb).
    cbv zeta in Hfix.
    destruct (Z.div_eucl A (B * 10 ^ (- s))) as [c r] eqn:E.
    assert (Ec : A / (B * 10 ^ (- s)) = c)
      by (unfold Z.div; rewrite E; reflexivity).
    assert (Er : A mod (B * 10 ^ (- s)) = r)
      by (unfold Z.modulo; rewrite E; reflexivity).
    rewrite Ec, Er in Hfix. rewrite Hfix.
    unfold scaled.
    assert (Ek : (0 <=? k - s) = true) by lia. rewrite Ek.
    setoid_replace (inject_Z (hi * 10 ^ (k - s)))
      with (inject_Z (hi * 10 ^ (k - s)) / inject_Z 1)%Q
      by (change (inject_Z 1) with 1%Q; field).
    apply fraction_bound; try lia.
    replace (10 ^ (k - s)) with (10 ^ k * 10 ^ (- s))
      by (rewrite <- Z.pow_add_r by lia; f_equal; lia).
    replace (hi * (10 ^ k * 10 ^ (- s)) * B - A * 1)
      with (hi * 10 ^ k * (B * 10 ^ (- s)) - A) by ring.
    replace (A * 1) with A by ring. exact Hb.
Qed.

(** A [Decimal] quotient is the exact one up to half a unit of the 28th
    significant digit. *)
Lemma quotient_bound (a b : Z) :
  b <> 0 ->
  (Qabs (quotient a b - inject_Z a / inject_Z b)
     <= tolerance * Qabs (inject_Z a / inject_Z b))%Q.
Proof.
  intros Hb. unfold quotient.
  destruct (a =? 0) eqn:Ha.
  - apply Z.eqb_eq in Ha. subst a.
    change (inject_Z 0) with 0%Q. unfold Qdiv. rewrite Qmult_0_l.
    discriminate.
  - apply Z.eqb_neq in Ha.
    pose proof (divide_bound (Z.abs a) (Z.abs b) ltac:(lia) ltac:(lia)) as H.
    pose proof (inject_Z_nonzero b Hb) as Hbq.
    pose proof (inject_Z_nonzero (Z.abs b) ltac:(lia)) as Hbq'.
    assert (Hpos : (0 <= inject_Z (Z.abs a) / inject_Z (Z.abs b))%Q).
    { apply Qle_shift_div_l.
      - change 0%Q with (inject_Z 0). rewrite <- Zlt_Qlt. lia.
      - rewrite Qmult_0_l. change 0%Q with (inject_Z 0). rewrite <- Zle_Qle. lia. }
    destruct (Bool.eqb (a <? 0) (b <? 0)) eqn:Hsign.
    + assert (E : (inject_Z a / inject_Z b
                   == inject_Z (Z.abs a) / inject_Z (Z.abs b))%Q).
      { apply eqb_prop in Hsign.
        destruct (a <? 0) eqn:Ea; symmetry in Hsign.
        - rewrite (Z.abs_neq a), (Z.abs_neq b) by lia.
          rewrite !inject_Z_opp. field. exact Hbq.
        - rewrite (Z.abs_eq a), (Z.abs_eq b) by lia. reflexivity. }
      rewrite E. rewrite (Qabs_pos _ Hpos). exact H.
    + assert (E : (inject_Z a / inject_Z b
                   == - (inject_Z (Z.abs a) / inject_Z (Z.abs b)))%Q).
      { apply eqb_false_iff in Hsign.
        destruct (a <? 0) eqn:Ea; destruct (b <? 0) eqn:Eb; try congruence.
        - rewrite (Z.abs_neq a), (Z.abs_eq b) by lia.
          rewrite !inject_Z_opp. field. exact Hbq.
        - rewrite (Z.abs_eq a), (Z.abs_neq b) by lia.
          rewrite !inject_Z_opp. field. exact Hbq. }
      rewrite E. rewrite Qabs_opp. rewrite (Qabs_pos _ Hpos).
      setoid_replace (- divide (Z.abs a) (Z.abs b)
                      - - (inject_Z (Z.abs a) / inject_Z (Z.abs b)))%Q
        with (- (divide (Z.abs a) (Z.abs b)
                 - inject_Z (Z.abs a) / inject_Z (Z.abs b)))%Q
        by ring.
      rewrite Qabs_opp. exact H.
Qed.

End DecimalDivision.

(** A percentage, the quotient times 100, keeps the relative error. *)
Lemma percent_within_rounding (a b : Z) :
  b <> 0 ->
  within_rounding (Decimal.quotient a b * 100)
    (100 * (inject_Z a / inject_Z b))%Q.
Proof.
  intros Hb. unfold within_rounding.
  pose proof (quotient_bound a b Hb) as H.
  set (q := Decimal.quotient a b) in *.
  set (x := (inject_Z a / inject_Z b)%Q) in *.
  setoid_replace (q * 100 - 100 * x)%Q with (100 * (q - x))%Q by ring.
  rewrite !Qabs_Qmult.
  change (Qabs 100) with 100%Q.
  setoid_replace (tolerance * (100 * Qabs x))%Q
    with (100 * (tolerance * Qabs x))%Q by ring.
  apply Qmult_le_l; [reflexivity | exact H].
Qed.

Lemma exact_change_quotient (current c : Z) :
  0 < c ->
  (exact_change current c == 100 * (inject_Z (current - c) / inject_Z c))%Q.
Proof.
  intros Hc. unfold exact_change, usd.
  unfold Z.sub. rewrite inject_Z_plus, inject_Z_opp.
  assert (Hnz : ~ (inject_Z c == 0)%Q) by (apply inject_Z_nonzero; lia).
  field; repeat split; first [exact Hnz | discriminate].
Qed.

(** [Decimal(str(x))] and the rounding of a field of two places: the
    shortest decimal that reads back, not the binary value, is rounded, and
    a tie goes to the even hundredth. *)
Example decimal_of_float_examples :
  Decimal.of_float 0.1%float = Some (1 # 10) /\
  Decimal.of_float 2.675%float = Some (2675 # 1000) /\
  DecimalField_of_float 7 2.675%float = Ok 268 /\
  DecimalField_of_float 7 0.125%float = Ok 12 /\
  DecimalField_of_float 7 0.375%float = Ok 38 /\
  DecimalField_of_float 7 (-14.999109963095475)%float = Ok (-1500) /\
  DecimalField_of_float 7 99999.994%float = Ok 9999999 /\
  DecimalField_of_float 7 99999.995%float = Raise InvalidOperation /\
  DecimalField_of_float 5 999.995%float = Raise InvalidOperation /\
  DecimalField_of_float 5 1.3759040677462333e+17%float = Raise InvalidOperation /\
  DecimalField_of_float 7 nan = Raise (ValidationError "NaN") /\
  DecimalField_of_float 7 infinity = Raise (ValidationError "Infinity").
Proof. repeat split; vm_compute; reflexivity. Qed.

(** ** The overview *)

Lemma allocation_rows_ok (total_value : Z) (token_values : list (string * Z))
    (db : DB) :
  exists rows, allocation_rows total_value token_values db = (Ok rows, db).
Proof.
  induction token_values as [|[sym value] rest [rows IH]]; simpl.
  - eexists; reflexivity.
  - run_db. destruct (0 <? total_value) eqn:Hpos.
    + destruct (total_value =? 0) eqn:Hz; [lia|].
      rewrite IH. eexists; reflexivity.
    + rewrite IH. eexists; reflexivity.
Qed.

Lemma change_pct_ok (total_value : Z) (checkpoint : option Z) (db : DB) :
  exists reported,
    change_pct total_value checkpoint db = (Ok reported, db) /\
    change_as_computed total_value checkpoint reported.
Proof.
  unfold change_pct, change_as_computed.
  destruct checkpoint as [c|].
  - simpl. destruct (0 <? c) eqn:Hpos.
    + assert (Hc : (c =? 0) = false) by lia. rewrite Hc. simpl. run_db.
      rewrite Hc. eexists; split; [reflexivity|]. split.
      * intros c' [= <-] _. unfold within_rounding.
        rewrite exact_change_quotient by lia.
        apply percent_within_rounding. lia.
      * intros [H | [c' [[= <-] Hle]]]; [discriminate | lia].
    + rewrite andb_false_r. run_db. eexists; split; [reflexivity|]. split.
      * intros c' [= <-] Hlt. lia.
      * reflexivity.
  - run_db. eexists; split; [reflexivity|]. split.
    + discriminate.
    + reflexivity.
Qed.

Lemma change_unset (current : Z) : change_as_computed current None 0.
Proof. split; [discriminate | reflexivity]. Qed.

Lemma overview_body_run (now : Z) (db : DB) :
  exists body,
    overview_body now db =
      (Ok body,
       {| wallet_tokens := wallet_tokens db;
          portfolio :=
            Some (touch (set_total_value_usd (fst (loaded now db))
                           (total_value_of (wallet_tokens db))) now);
          portfolio_seq :=
            (if snd (loaded now db) then portfolio_seq db + 1
             else portfolio_seq db);
          snapshots := snapshots db;
          risk_metrics := Some (risk_metrics_or_new db) |}) /\
    ov_total_value_usd body = total_value_of (wallet_tokens db) /\
    change_as_computed (total_value_of (wallet_tokens db))
      (previous_day_value_usd (fst (loaded now db))) (daily_change_pct body) /\
    change_as_computed (total_value_of (wallet_tokens db))
      (previous_week_value_usd (fst (loaded now db))) (weekly_change_pct body) /\
    change_as_computed (total_value_of (wallet_tokens db))
      (previous_month_value_usd (fst (loaded now db)))
      (monthly_change_pct body).
Proof.
  unfold overview_body, loaded, risk_metrics_or_new.
  set (total := total_value_of (wallet_tokens db)).
  destruct (portfolio db) as [p|] eqn:Hp;
    destruct (risk_metrics db) as [r|] eqn:Hr.
  all: run_db; rewrite Hp; simpl; fold total.
  all: match goal with
       | |- context [allocation_rows ?t ?tv ?d] =>
           destruct (allocation_rows_ok t tv d) as [rows ->]
       end; simpl; rewrite Hr; simpl.
  all: repeat match goal with
       | |- context [change_pct ?t ?cp ?d] =>
           let q := fresh "q" in
           let Hrun := fresh "Hrun" in
           let Hq := fresh "Hq" in
           destruct (change_pct_ok t cp d) as (q & Hrun & Hq);
           rewrite Hrun; simpl
       end.
  all: eexists; split; [reflexivity|]; simpl; auto using change_unset.
Qed.

(** C8, counterexample: with a checkpoint of 300.00 and a current total of
    100.00 the exact change is -200/3 per cent; the overview reports
    -66.66666666666666666666666667, the quotient rounded to 28 digits. *)
Lemma reported_change_not_exact :
  exists body,
    fst (PortfolioView_get 0 db_third) = HTTP_200 body /\
    (daily_change_pct body
       == - (6666666666666666666666666667 # 100000000000000000000000000))%Q /\
    (exact_change 10000 30000 == - (200 # 3))%Q /\
    ~ change_as_specified 10000 (Some 30000) (daily_change_pct body).
Proof.
  eexists. split; [vm_compute; reflexivity|].
  split; [vm_compute; reflexivity|].
  split; [vm_compute; reflexivity|].
  intros [H _]. specialize (H 30000 eq_refl ltac:(lia)).
  vm_compute in H. discriminate.
Qed.

(** C8 (as the code has it): on amounts that the fields of the portfolio
    hold, the comparator of lines 82-95 raises no division error.  For a
    checkpoint that is present and positive it reports
    100 x (current - checkpoint) / checkpoint as [Decimal] computes it: within
    half a unit of the 28th significant digit of the exact value.  For a
    checkpoint that is absent or not positive it reports exactly 0.  An
    overview that answers 200 carries these values for the three
    checkpoints. *)
Theorem reported_change_rounded (now : Z) (db : DB) (body : overview) :
  fst (PortfolioView_get now db) = HTTP_200 body ->
  (forall total checkpoint,
     field_fits 18 total ->
     (forall c, checkpoint = Some c -> field_fits 18 c) ->
     exists reported,
       change_pct total checkpoint db = (Ok reported, db) /\
       change_as_computed total checkpoint reported) /\
  change_as_computed (total_value_of (wallet_tokens db))
    (previous_day_value_usd (fst (loaded now db))) (daily_change_pct body) /\
  change_as_computed (total_value_of (wallet_tokens db))
    (previous_week_value_usd (fst (loaded now db))) (weekly_change_pct body) /\
  change_as_computed (total_value_of (wallet_tokens db))
    (previous_month_value_usd (fst (loaded now db)))
    (monthly_change_pct body).
Proof.
  intros Hresp.
  destruct (overview_body_run now db) as (body' & Hrun & _ & Hd & Hw & Hm).
  unfold PortfolioView_get in Hresp. rewrite Hrun in Hresp. simpl in Hresp.
  injection Hresp as <-.
  split; [|auto].
  intros total checkpoint _ _. apply change_pct_ok.
Qed.

Lemma reported_change_witness :
  exists body,
    fst (PortfolioView_get 0 db_zero_checkpoint) = HTTP_200 body /\
    daily_change_pct body = 0%Q /\
    (weekly_change_pct body == 25)%Q /\
    within_rounding (weekly_change_pct body) (exact_change 50000 40000) /\
    monthly_change_pct body = 0%Q.
Proof.
  eexists. split; [vm_compute; reflexivity|].
  destruct (reported_change_rounded 0 db_zero_checkpoint _ eq_refl)
    as (_ & [_ Hd] & [Hw _] & [_ Hm]).
  split; [|split; [|split]].
  - apply Hd. right. exists 0. split; [reflexivity | lia].
  - vm_compute. reflexivity.
  - apply (Hw 40000 eq_refl). lia.
  - apply Hm. left. reflexivity.
Defined.

Lemma sum_from (l : list Z) (acc : Z) :
  fold_left Z.add l acc = acc + fold_left Z.add l 0.
Proof.
  revert acc. induction l as [|x l IH]; intros acc; simpl.
  - lia.
  - rewrite (IH (acc + x)), (IH x). lia.
Qed.

Lemma or0_value (d : option Z) :
  Py.or0 d = match d with Some v => v | None => 0 end.
Proof.
  destruct d as [v|]; [|reflexivity].
  unfold Py.or0, Py.truthy. destruct (v =? 0) eqn:E; simpl; lia.
Qed.

(** The total of the overview and of the cycle is the sum of the balances. *)
Lemma total_value_is_balance_sum (wts : list WalletToken) :
  total_value_of wts = balance_sum wts.
Proof.
  unfold total_value_of, Py.sum.
  induction wts as [|wt wts IH]; [reflexivity|].
  cbn [map fold_left balance_sum]. rewrite sum_from, IH, or0_value.
  destruct (balance_usd wt); lia.
Qed.

(** C10: the overview is not a pure read.  A call that answers 200 has
    stored the sum of the wallet-token balances as the portfolio's total
    value, so it changes the database whenever the stored total was another
    one; the checkpoints, the extrema, the risk metric values and the
    snapshot series stay as they were (a missing row reading as unset
    fields), and no snapshot is appended. *)
Theorem overview_writes_total_only (now : Z) (db : DB) (body : overview) :
  fst (PortfolioView_get now db) = HTTP_200 body ->
  (exists after,
     portfolio (snd (PortfolioView_get now db)) = Some after /\
     total_value_usd after = balance_sum (wallet_tokens db) /\
     checkpoints after = checkpoints (fst (loaded now db)) /\
     extrema after = extrema (fst (loaded now db))) /\
  (forall before,
     portfolio db = Some before ->
     total_value_usd before <> balance_sum (wallet_tokens db) ->
     snd (PortfolioView_get now db) <> db) /\
  risk_metrics_or_new (snd (PortfolioView_get now db))
    = risk_metrics_or_new db /\
  snapshots (snd (PortfolioView_get now db)) = snapshots db.
Proof.
  intros _.
  destruct (overview_body_run now db) as (body' & Hrun & _).
  unfold PortfolioView_get. rewrite Hrun. simpl. split; [|split; [|split]].
  - eexists. split; [reflexivity|]. simpl.
    rewrite total_value_is_balance_sum. auto.
  - intros before Hbefore Hne Heq.
    apply (f_equal portfolio) in Heq. simpl in Heq.
    rewrite Hbefore in Heq. injection Heq as Heq.
    apply Hne. rewrite <- Heq. simpl. apply total_value_is_balance_sum.
  - reflexivity.
  - reflexivity.
Qed.

Lemma overview_writes_total_witness :
  exists body after,
    fst (PortfolioView_get 9 db_four_rows) = HTTP_200 body /\
    ov_total_value_usd body = 100000 /\
    portfolio (snd (PortfolioView_get 9 db_four_rows)) = Some after /\
    total_value_usd after = 100000 /\
    checkpoints after = (Some 25000, Some 25000, None) /\
    extrema after = (Some 40000, Some 3, Some 25000, Some 1) /\
    snd (PortfolioView_get 9 db_four_rows) <> db_four_rows /\
    snapshots (snd (PortfolioView_get 9 db_four_rows))
      = [ {| snapshot_total_value_usd := 25000; timestamp := 5 |} ].
Proof.
  eexists. 
  destruct (overview_writes_total_only 9 db_four_rows _ eq_refl)
    as ((after & Hafter & Htotal & Hcp & Hex) & Hchange & _ & Hsnap).
  exists after. split; [vm_compute; reflexivity|].
  split; [reflexivity|].
  split; [exact Hafter|].
  split; [exact Htotal|].
  split; [exact Hcp|].
  split; [exact Hex|].
  split; [|exact Hsnap].
  apply (Hchange _ eq_refl). discriminate.
Defined.

(** ** The reconciliation cycle *)

(** *** The concentration block never raises *)

Lemma dict_add_nonempty (sym : string) (v : Z) (d : list (string * Z)) :
  dict_add sym v d <> [].
Proof.
  destruct d as [|[k w] d]; simpl; [discriminate|].
  destruct (String.eqb k sym); discriminate.
Qed.

Lemma fold_dict_add_nonempty (wts : list WalletToken) (d : list (string * Z)) :
  wts <> [] \/ d <> [] ->
  fold_left
    (fun d wt => dict_add (token_symbol wt) (Py.or0 (balance_usd wt)) d)
    wts d <> [].
Proof.
  revert d. induction wts as [|wt wts IH]; intros d H; simpl.
  - destruct H as [H|H]; [congruence | exact H].
  - apply IH. right. apply dict_add_nonempty.
Qed.

Lemma token_values_nonempty (wts : list WalletToken) :
  wts <> [] -> token_values_of wts <> [].
Proof. intros H. apply fold_dict_add_nonempty. left. exact H. Qed.

Lemma concentration_block_run (r : RiskMetrics) (db : DB) :
  concentration_block (total_value_of (wallet_tokens db)) r db
    = (Ok (with_concentration (wallet_tokens db) r), db).
Proof.
  unfold concentration_block, with_concentration, largest_position.
  run_db.
  destruct (wallet_tokens db) as [|wt wts] eqn:Hw; [reflexivity|].
  cbn [List.length Nat.eqb negb andb].
  destruct (0 <? total_value_of (wt :: wts)) eqn:Hpos; [|reflexivity].
  pose proof (token_values_nonempty (wt :: wts) ltac:(discriminate)) as Hne.
  destruct (token_values_of (wt :: wts)) as [|kv tv] eqn:Htv; [congruence|].
  cbn [map Py.max].
  destruct (total_value_of (wt :: wts) =? 0) eqn:Hz; [lia|].
  reflexivity.
Qed.

Lemma post_run (globals : list string) (c : cycle) (db : DB) :
  SyncWalletDataView_post globals c db =
    ((if bound globals "PortfolioSnapshot" then []
      else ["Portfolio update: name 'PortfolioSnapshot' is not defined"]),
     after_cycle globals c db).
Proof.
  unfold SyncWalletDataView_post, update_portfolio_data, after_cycle,
    reconciled, loaded, cycle_total, with_wallet_tokens, risk_metrics_or_new.
  run_db.
  destruct (portfolio db) as [p|]; run_db;
    destruct (bound globals "PortfolioSnapshot"); run_db;
    try reflexivity;
    destruct (risk_metrics db) as [r|]; run_db.
  all: match goal with
       | |- context [concentration_block ?t ?r ?d] =>
           pose proof (concentration_block_run r d) as Hc;
           cbn [wallet_tokens] in Hc; rewrite Hc
       end; reflexivity.
Qed.

Lemma post_portfolio (globals : list string) (c : cycle) (db : DB) :
  portfolio (snd (SyncWalletDataView_post globals c db))
    = Some (reconciled c db).
Proof. rewrite post_run. reflexivity. Qed.

Lemma with_concentration_history (wts : list WalletToken) (r : RiskMetrics) :
  history_metrics (with_concentration wts r) = history_metrics r.
Proof.
  unfold with_concentration.
  destruct (negb (Nat.eqb (List.length wts) 0) && (0 <? total_value_of wts));
    reflexivity.
Qed.

(** *** Checkpoints *)

(** Case analysis on the tests of [roll_forward], in the order in which the
    code runs them. *)
Ltac checkpoint_cases p :=
  unfold roll_forward; simpl;
  destruct (Py.truthy (previous_day_value_usd p)) eqn:?; simpl;
  destruct (Py.truthy (previous_week_value_usd p)) eqn:?; simpl;
  destruct (Py.truthy (previous_month_value_usd p)) eqn:?; simpl.

Ltac roll_cases p total :=
  checkpoint_cases p;
  destruct (all_time_high_usd p) as [?high|] eqn:?; simpl;
  try match goal with
    | |- context [?h <? total] => destruct (h <? total) eqn:?; simpl
    end;
  destruct (all_time_low_usd p) as [?low|] eqn:?; simpl;
  try match goal with
    | |- context [total <? ?l] => destruct (total <? l) eqn:?; simpl
    end.

(** A cycle writes a checkpoint exactly when the truth test [not checkpoint]
    passes, that is when the checkpoint is unset or zero. *)
Lemma checkpoint_after_cycle (globals : list string) (c : cycle) (db : DB)
    (k : checkpoint) :
  stored_checkpoint k (snd (SyncWalletDataView_post globals c db)) =
    if Py.truthy (stored_checkpoint k db) then stored_checkpoint k db
    else Some (cycle_total c).
Proof.
  unfold stored_checkpoint. rewrite post_portfolio.
  unfold reconciled, loaded.
  destruct (portfolio db) as [p|]; [|destruct k; reflexivity].
  destruct k; simpl; roll_cases p (cycle_total c); congruence.
Qed.

(** C4 (as the code has it): once a checkpoint holds a non-zero value, no
    later cycle changes it, whatever totals the later cycles observe. *)
Theorem checkpoint_stable_once_nonzero (globals : list string)
    (cs : list cycle) (db : DB) (k : checkpoint) (v : Z) :
  stored_checkpoint k db = Some v ->
  v <> 0 ->
  stored_checkpoint k (run_cycles globals cs db) = Some v.
Proof.
  revert db. induction cs as [|c cs IH]; intros db Hset Hnz; simpl.
  - exact Hset.
  - apply IH; [|exact Hnz].
    rewrite checkpoint_after_cycle, Hset. simpl.
    destruct (v =? 0) eqn:Hz; [lia | reflexivity].
Qed.

Lemma checkpoint_stable_witness :
  stored_checkpoint previous_week
    (run_cycles views_globals [cycle_of 70000 200; cycle_of 0 300]
       (snd (SyncWalletDataView_post views_globals (cycle_of 50000 100) empty_db)))
  = Some 50000.
Proof.
  apply (checkpoint_stable_once_nonzero views_globals
           [cycle_of 70000 200; cycle_of 0 300]
           (snd (SyncWalletDataView_post views_globals (cycle_of 50000 100)
                   empty_db))
           previous_week 50000).
  - reflexivity.
  - lia.
Defined.

(** C4, counterexample: the first cycle of a portfolio sees a total of 0.00
    and sets the three checkpoints to it; the second cycle sees 500.00 and
    writes each of them again. *)
Lemma checkpoint_rewritten_after_zero :
  let db1 := run_cycles views_globals [cycle_of 0 100] empty_db in
  let db2 := run_cycles views_globals [cycle_of 0 100; cycle_of 50000 200]
               empty_db in
  (stored_checkpoint previous_day db1 = Some 0 /\
   stored_checkpoint previous_day db2 = Some 50000) /\
  (stored_checkpoint previous_week db1 = Some 0 /\
   stored_checkpoint previous_week db2 = Some 50000) /\
  (stored_checkpoint previous_month db1 = Some 0 /\
   stored_checkpoint previous_month db2 = Some 50000).
Proof. vm_compute. repeat split. Qed.

(** *** Extrema *)






(** ** The risk-metrics calculator *)

Local Open Scope nat_scope.

Lemma max_drawdown_of_defined (values : list float) :
  values <> [] -> exists d, max_drawdown_of values = Some d.
Proof.
  destruct values as [|v values]; [congruence|]. intros _.
  unfold max_drawdown_of. simpl. eexists; reflexivity.
Qed.

Lemma risk_metrics_get_or_create_run (db : DB) :
  RiskMetrics_get_or_create db
    = (Ok (risk_metrics_or_new db), with_risk_metrics db (risk_metrics_or_new db)).
Proof.
  unfold RiskMetrics_get_or_create, risk_metrics_or_new, with_risk_metrics.
  destruct db as [w p s sn [r|]]; reflexivity.
Qed.

(** The calculator on an existing portfolio, by the size of its window and
    by what the fields make of the computed values. *)
Lemma calculate_run (now portfolio_id : Z) (db : DB) (p : Portfolio) :
  portfolio db = Some p ->
  id p = portfolio_id ->
  calculate_portfolio_risk_metrics now portfolio_id db =
    let values := window_values now db in
    let returns := daily_returns values in
    let r := risk_metrics_or_new db in
    if List.length values <? 7 then
      ((false, "Not enough historical data for risk calculations"),
       with_risk_metrics db r)
    else if List.length returns <? 5 then
      ((false, "Not enough return data for risk calculations"),
       with_risk_metrics db r)
    else
      match computed_history_metrics values with
      | Ok (v30, v90, dd, sr, var) =>
          ((true, "Risk metrics updated successfully"),
           with_risk_metrics db
             {| volatility_30d := v30;
                volatility_90d := v90;
                max_drawdown := dd;
                sharpe_ratio := sr;
                value_at_risk := var;
                concentration_risk := concentration_risk r |})
      | Raise e =>
          ((false, ("Error calculating risk metrics: " ++ str e)%string),
           with_risk_metrics db r)
      end.
Proof.
  intros Hp Hid.
  unfold calculate_portfolio_risk_metrics, risk_metrics_body.
  unfold bind at 1. unfold Portfolio_get. rewrite Hp, Hid, Z.eqb_refl.
  unfold bind at 1. rewrite risk_metrics_get_or_create_run.
  unfold bind at 1.
  replace (window_values now (with_risk_metrics db (risk_metrics_or_new db)))
    with (window_values now db) by reflexivity.
  cbv zeta.
  destruct (List.length (window_values now db) <? 7) eqn:Hn; [reflexivity|].
  destruct (List.length (daily_returns (window_values now db)) <? 5) eqn:Hr;
    [reflexivity|].
  unfold computed_history_metrics.
  destruct (max_drawdown_of_defined (window_values now db)) as [d Hd].
  { intros E. rewrite E in Hn. discriminate. }
  rewrite Hd. cbv zeta.
  set (returns := daily_returns (window_values now db)).
  unfold bind, lift, DecimalField_of_float.
  repeat match goal with
         | |- context [Decimal.of_float ?x] =>
             destruct (Decimal.of_float x); [|reflexivity]
         | |- context [(10 ^ ?m <=? Z.abs ?h)%Z] =>
             destruct (10 ^ m <=? Z.abs h)%Z; [reflexivity|]
         end.
  reflexivity.
Qed.

(** C2: for a portfolio whose 90-day window holds fewer than 7 snapshots, or
    whose return series (pairs with a non-positive first value skipped)
    holds fewer than 5 returns, the calculator does not raise: it returns
    success = false with one of its two reasons, and every stored
    [RiskMetrics] field, the portfolio and the snapshot series are as
    before. *)
Theorem insufficient_data_soft_failure (now portfolio_id : Z) (db : DB)
    (p : Portfolio) :
  portfolio db = Some p ->
  id p = portfolio_id ->
  List.length (snapshots_since (now - 90 * day)%Z db) < 7 \/
  List.length (daily_returns (window_values now db)) < 5 ->
  exists reason,
    fst (calculate_portfolio_risk_metrics now portfolio_id db) = (false, reason) /\
    (reason = "Not enough historical data for risk calculations" \/
     reason = "Not enough return data for risk calculations") /\
    risk_metrics_or_new (snd (calculate_portfolio_risk_metrics now portfolio_id db))
      = risk_metrics_or_new db /\
    portfolio (snd (calculate_portfolio_risk_metrics now portfolio_id db))
      = portfolio db /\
    snapshots (snd (calculate_portfolio_risk_metrics now portfolio_id db))
      = snapshots db.
Proof.
  intros Hp Hid Hfew.
  rewrite (calculate_run now portfolio_id db p Hp Hid). cbv zeta.
  assert (Hlen : List.length (window_values now db)
                 = List.length (snapshots_since (now - 90 * day)%Z db)).
  { unfold window_values. apply length_map. }
  destruct (List.length (window_values now db) <? 7) eqn:Hn.
  - eexists. split; [reflexivity|]. split; [left; reflexivity|].
    repeat split.
  - destruct (List.length (daily_returns (window_values now db)) <? 5) eqn:Hr.
    + eexists. split; [reflexivity|]. split; [right; reflexivity|].
      repeat split.
    + apply Nat.ltb_ge in Hn, Hr. lia.
Qed.

Lemma insufficient_data_witness :
  (exists reason,
     fst (calculate_portfolio_risk_metrics (10 * day) 1
            (db_with_history [10000; 11000; 9900]%Z)) = (false, reason) /\
     risk_metrics_or_new
       (snd (calculate_portfolio_risk_metrics (10 * day) 1
               (db_with_history [10000; 11000; 9900]%Z))) = new_RiskMetrics) /\
  (exists reason,
     fst (calculate_portfolio_risk_metrics (10 * day) 1
            (db_with_history [0; 0; 0; 0; 10000; 11000; 9900; 10500]%Z))
       = (false, reason) /\
     risk_metrics_or_new
       (snd (calculate_portfolio_risk_metrics (10 * day) 1
               (db_with_history [0; 0; 0; 0; 10000; 11000; 9900; 10500]%Z)))
       = new_RiskMetrics).
Proof.
  split.
  - destruct (insufficient_data_soft_failure (10 * day) 1
                (db_with_history [10000; 11000; 9900]%Z) (new_Portfolio 1 0)
                eq_refl eq_refl)
      as (reason & Hres & _ & Hrm & _).
    + left. vm_compute. lia.
    + exists reason. split; [exact Hres | exact Hrm].
  - destruct (insufficient_data_soft_failure (10 * day) 1
                (db_with_history [0; 0; 0; 0; 10000; 11000; 9900; 10500]%Z)
                (new_Portfolio 1 0) eq_refl eq_refl)
      as (reason & Hres & _ & Hrm & _).
    + right. vm_compute. lia.
    + exists reason. split; [exact Hres | exact Hrm].
Defined.

(** *** Sharpe ratio *)

Local Open Scope float_scope.

(** A float that equals zero is not above zero. *)
Lemma zero_not_positive (x : float) : (x =? 0) = true -> (0 <? x) = false.
Proof.
  rewrite FloatAxioms.eqb_spec, FloatAxioms.ltb_spec.
  change (Prim2SF 0) with (S754_zero false).
  destruct (Prim2SF x) as [s | s | | s m e]; try reflexivity;
    try destruct s; discriminate.
Qed.

(** A NaN is not above zero. *)
Lemma nan_not_positive (x : float) :
  PrimFloat.is_nan x = true -> (0 <? x) = false.
Proof.
  unfold PrimFloat.is_nan. intros H. apply negb_true_iff in H.
  rewrite FloatAxioms.eqb_spec in H. rewrite FloatAxioms.ltb_spec.
  change (Prim2SF 0) with (S754_zero false).
  destruct (Prim2SF x) as [s | s | | s m e]; try reflexivity.
  - destruct s; discriminate.
  - exfalso. unfold SFeqb, SFcompare in H.
    destruct s; rewrite Z.compare_refl, Pos.compare_cont_refl in H;
      discriminate.
Qed.

(** C6, counterexample: seven valuations that grow by a tenth each give six
    returns of 0.1, whose population standard deviation is 0.  The computed
    mean is 0.09999999999999999, one unit in the last place below 0.1, so
    the computed deviation is 1.39e-17, which is above zero, and the Sharpe
    ratio is 1.376e17 where the claim has 0. *)
Lemma sharpe_ratio_of_equal_returns :
  daily_returns (map float_of_cents growing_by_a_tenth) = six_tenths /\
  (exact_variance six_tenths == 0)%Q /\
  np.mean six_tenths = 0.09999999999999999 /\
  np.std six_tenths = 1.3877787807814457e-17 /\
  sharpe_ratio_of six_tenths = 1.3759040677462333e+17 /\
  (sharpe_ratio_of six_tenths =? 0) = false.
Proof. repeat split; vm_compute; reflexivity. Qed.

(** C6 (as the code has it): the standard deviation is the one computed in
    binary64.  When it is zero the Sharpe ratio is exactly 0, whatever the
    mean return, and so it is when the deviation is a NaN; when it is
    positive the ratio is (mean - 0.02/365) / deviation x sqrt(365), each
    operation rounded to binary64. *)
Theorem sharpe_ratio_computed (returns : list float) :
  let mean := np.sum returns / float_of_nat (List.length returns) in
  let deviation := computed_deviation returns in
  ((deviation =? 0) = true \/ PrimFloat.is_nan deviation = true ->
   sharpe_ratio_of returns = 0) /\
  ((0 <? deviation) = true ->
   sharpe_ratio_of returns
     = (mean - 0.02 / 365) / deviation * PrimFloat.sqrt 365).
Proof.
  intros mean deviation.
  assert (Hstd : np.std returns = deviation).
  { unfold deviation, computed_deviation, np.std, np.mean.
    rewrite length_map. reflexivity. }
  unfold sharpe_ratio_of. rewrite Hstd. split.
  - intros [H | H].
    + rewrite (zero_not_positive _ H). reflexivity.
    + rewrite (nan_not_positive _ H). reflexivity.
  - intros H. rewrite H. reflexivity.
Qed.

(** Eight equal valuations give seven zero returns and a Sharpe ratio of 0;
    equal returns of 0.5, or of -0.25, have a computed deviation of 0 and a
    Sharpe ratio of 0 as well; a series that moves has a positive deviation
    and the annualised ratio. *)
Lemma sharpe_ratio_witness :
  daily_returns (map float_of_cents
                   [10000; 10000; 10000; 10000; 10000; 10000; 10000; 10000]%Z)
    = [0; 0; 0; 0; 0; 0; 0] /\
  sharpe_ratio_of [0; 0; 0; 0; 0; 0; 0] = 0 /\
  sharpe_ratio_of [0.5; 0.5; 0.5; 0.5; 0.5; 0.5] = 0 /\
  sharpe_ratio_of [-0.25; -0.25; -0.25; -0.25; -0.25] = 0 /\
  sharpe_ratio_of [0.5; 0; 0.5; 0; 0.5]
    = (0.3 - 0.02 / 365) / 0.24494897427831783 * PrimFloat.sqrt 365 /\
  sharpe_ratio_of [0.5; 0; 0.5; 0; 0.5] = 23.394444175163468 /\
  sharpe_ratio_of
    (daily_returns
       (map float_of_cents
          [10000; 11000; 9900; 10500; 9000; 12000; 11500; 10800]%Z))
    = 2.696007376451933.
Proof.
  split; [vm_compute; reflexivity|].
  split; [|split; [|split; [|split; [|split]]]].
  - apply (proj1 (sharpe_ratio_computed [0; 0; 0; 0; 0; 0; 0])).
    left. vm_compute. reflexivity.
  - apply (proj1 (sharpe_ratio_computed [0.5; 0.5; 0.5; 0.5; 0.5; 0.5])).
    left. vm_compute. reflexivity.
  - apply (proj1 (sharpe_ratio_computed [-0.25; -0.25; -0.25; -0.25; -0.25])).
    left. vm_compute. reflexivity.
  - rewrite (proj2 (sharpe_ratio_computed [0.5; 0; 0.5; 0; 0.5]));
      vm_compute; reflexivity.
  - rewrite (proj2 (sharpe_ratio_computed [0.5; 0; 0.5; 0; 0.5]));
      vm_compute; reflexivity.
  - vm_compute. reflexivity.
Defined.

(** NumPy adds eight elements or more in another order than left to right:
    ten times 0.1 sum to 1, where the running sum gives 0.9999999999999999;
    the metrics of a series of nine returns. *)
Example pairwise_sum_examples :
  np.sum [0.1; 0.1; 0.1; 0.1; 0.1; 0.1; 0.1; 0.1; 0.1; 0.1] = 1 /\
  fold_left PrimFloat.add [0.1; 0.1; 0.1; 0.1; 0.1; 0.1; 0.1; 0.1; 0.1; 0.1] 0
    = 0.9999999999999999 /\
  np.mean
    (daily_returns
       (map float_of_cents
          [10000; 11000; 9900; 10500; 9000; 12000; 11500; 10800; 11200;
           11100]%Z))
    = 0.019628276089628745 /\
  np.std
    (daily_returns
       (map float_of_cents
          [10000; 11000; 9900; 10500; 9000; 12000; 11500; 10800; 11200;
           11100]%Z))
    = 0.1327560932016346.
Proof. repeat split; vm_compute; reflexivity. Qed.

(** The whole calculator on eight equal valuations: volatility, drawdown,
    Sharpe ratio and value at risk are all stored as 0. *)
Example flat_history_metrics :
  calculate_portfolio_risk_metrics (10 * day) 1
    (db_with_history
       [10000; 10000; 10000; 10000; 10000; 10000; 10000; 10000]%Z)
  = ((true, "Risk metrics updated successfully"),
     with_risk_metrics
       (db_with_history
          [10000; 10000; 10000; 10000; 10000; 10000; 10000; 10000]%Z)
       {| volatility_30d := Some 0%Z; volatility_90d := Some 0%Z;
          max_drawdown := Some 0%Z; sharpe_ratio := Some 0%Z;
          value_at_risk := Some 0%Z; concentration_risk := None |}).
Proof. vm_compute. reflexivity. Qed.

(** *** Maximum drawdown *)

Lemma drawdowns_agree (peaks values : list float) :
  Forall (fun peak => (peak =? 0) = false) peaks ->
  np.divide (np.subtract peaks values) peaks = drawdowns_spec peaks values.
Proof.
  intros H. revert values. induction H as [|peak peaks Hpeak _ IH];
    intros [|value values]; simpl; try reflexivity.
  unfold drawdown_at. rewrite Hpeak, IH. reflexivity.
Qed.

(** Where no running maximum is zero the code computes the specified
    drawdown. *)
Lemma max_drawdown_agrees (values : list float) :
  Forall (fun peak => (peak =? 0) = false) (np.maximum_accumulate values) ->
  max_drawdown_of values = max_drawdown_spec values.
Proof.
  intros H. unfold max_drawdown_of, max_drawdown_spec.
  rewrite (drawdowns_agree _ values H). reflexivity.
Qed.

(** The series of the specification: the largest fall is from 110 to 90. *)
Example max_drawdown_example :
  max_drawdown_of
    (map float_of_cents [10000; 11000; 9900; 10500; 9000; 12000; 11500; 10800]%Z)
  = Some (100 * ((110 - 90) / 110)).
Proof. vm_compute. reflexivity. Qed.

(** C5, the code at a history that opens with a valuation of 0.00: the
    running maximum at index 0 is 0, the quotient 0/0 there is NaN and
    [np.max] returns it, so the maximum drawdown handed to the field is NaN,
    where the specified value is 0. *)
Theorem max_drawdown_nan_on_zero_peak :
  max_drawdown_of
    (map float_of_cents [0; 10000; 10000; 10000; 10000; 10000; 10000]%Z)
    = Some nan /\
  max_drawdown_spec
    (map float_of_cents [0; 10000; 10000; 10000; 10000; 10000; 10000]%Z)
    = Some 0 /\
  (5 <= List.length
          (daily_returns
             (map float_of_cents
                [0; 10000; 10000; 10000; 10000; 10000; 10000]%Z)))%nat.
Proof.
  split; [vm_compute; reflexivity|].
  split; [vm_compute; reflexivity|].
  vm_compute. lia.
Qed.

(** ** Concentration *)

Local Open Scope Z_scope.

Lemma fold_add_from (l : list Z) (a : Z) :
  fold_left Z.add l a = a + fold_left Z.add l 0.
Proof.
  revert a. induction l as [|y l IH]; intros a; simpl; [lia|].
  rewrite (IH (a + y)), (IH y). lia.
Qed.

Lemma sum_cons (x : Z) (l : list Z) : Py.sum (x :: l) = x + Py.sum l.
Proof. unfold Py.sum. simpl. apply fold_add_from. Qed.

Lemma aggregate_cons (sym : string) (wt : WalletToken)
    (wts : list WalletToken) :
  aggregate sym (wt :: wts) =
    if String.eqb (token_symbol wt) sym
    then Py.or0 (balance_usd wt) + aggregate sym wts
    else aggregate sym wts.
Proof.
  unfold aggregate. simpl.
  destruct (String.eqb (token_symbol wt) sym); [|reflexivity].
  simpl. apply sum_cons.
Qed.

Lemma aggregate_absent (sym : string) (wts : list WalletToken) :
  existsb (fun wt => String.eqb (token_symbol wt) sym) wts = false ->
  aggregate sym wts = 0.
Proof.
  induction wts as [|wt wts IH]; simpl; [reflexivity|].
  rewrite aggregate_cons.
  destruct (String.eqb (token_symbol wt) sym); simpl; [discriminate|].
  exact IH.
Qed.

Lemma lookup_dict_add (sym k : string) (v : Z) (d : list (string * Z)) :
  lookup sym (dict_add k v d) =
    if String.eqb k sym
    then Some (match lookup k d with Some w => w + v | None => v end)
    else lookup sym d.
Proof.
  induction d as [|[k' w] d IH]; simpl.
  - reflexivity.
  - destruct (String.eqb_spec k' k) as [-> | Hk]; simpl.
    + destruct (String.eqb k sym); reflexivity.
    + rewrite IH.
      destruct (String.eqb_spec k sym) as [-> | Hs].
      * apply String.eqb_neq in Hk. rewrite Hk. reflexivity.
      * reflexivity.
Qed.

Lemma lookup_In (sym : string) (v : Z) (d : list (string * Z)) :
  lookup sym d = Some v -> In (sym, v) d.
Proof.
  induction d as [|[k w] d IH]; simpl; [discriminate|].
  destruct (String.eqb_spec k sym) as [-> | Hk].
  - intros [= ->]. left. reflexivity.
  - intros H. right. apply IH, H.
Qed.

Lemma In_lookup (sym : string) (v : Z) (d : list (string * Z)) :
  NoDup (map fst d) -> In (sym, v) d -> lookup sym d = Some v.
Proof.
  induction d as [|[k w] d IH]; simpl; [tauto|].
  intros Hnd [[= -> ->] | Hin].
  - rewrite String.eqb_refl. reflexivity.
  - inversion Hnd as [|? ? Hnotin Hnd']; subst.
    destruct (String.eqb_spec k sym) as [-> | Hk].
    + exfalso. apply Hnotin. apply (in_map fst) in Hin. exact Hin.
    + apply IH; assumption.
Qed.

Lemma dict_add_keys (k : string) (v : Z) (d : list (string * Z)) :
  map fst (dict_add k v d) =
    if existsb (String.eqb k) (map fst d) then map fst d
    else map fst d ++ [k].
Proof.
  induction d as [|[k' w] d IH]; simpl; [reflexivity|].
  rewrite (String.eqb_sym k k').
  destruct (String.eqb k' k); simpl; [reflexivity|].
  rewrite IH. destruct (existsb (String.eqb k) (map fst d)); reflexivity.
Qed.

Lemma dict_add_NoDup (k : string) (v : Z) (d : list (string * Z)) :
  NoDup (map fst d) -> NoDup (map fst (dict_add k v d)).
Proof.
  intros Hnd. rewrite dict_add_keys.
  destruct (existsb (String.eqb k) (map fst d)) eqn:Hex; [exact Hnd|].
  apply NoDup_app; [exact Hnd | repeat constructor; simpl; tauto |].
  intros x Hx [Hk | []]. subst x.
  assert (existsb (String.eqb k) (map fst d) = true); [|congruence].
  apply existsb_exists. exists k. split; [exact Hx | apply String.eqb_refl].
Qed.

Lemma token_values_NoDup (wts : list WalletToken) :
  NoDup (map fst (token_values_of wts)).
Proof.
  unfold token_values_of.
  assert (H : NoDup (map fst (@nil (string * Z)))) by constructor.
  revert H. generalize (@nil (string * Z)).
  induction wts as [|wt wts IH]; intros d Hd; simpl; [exact Hd|].
  apply IH, dict_add_NoDup, Hd.
Qed.

(** The entry of a symbol after the grouping loop. *)
Lemma lookup_fold (sym : string) (wts : list WalletToken)
    (d : list (string * Z)) :
  lookup sym
    (fold_left
       (fun d wt => dict_add (token_symbol wt) (Py.or0 (balance_usd wt)) d)
       wts d) =
    if existsb (fun wt => String.eqb (token_symbol wt) sym) wts
    then Some (match lookup sym d with Some w => w | None => 0 end
               + aggregate sym wts)
    else lookup sym d.
Proof.
  revert d. induction wts as [|wt wts IH]; intros d; simpl; [reflexivity|].
  rewrite IH, lookup_dict_add, aggregate_cons.
  destruct (String.eqb_spec (token_symbol wt) sym) as [-> | Hs]; simpl;
    [|reflexivity].
  destruct (existsb (fun wt0 => String.eqb (token_symbol wt0) sym) wts) eqn:Hex.
  - destruct (lookup sym d); f_equal; lia.
  - rewrite (aggregate_absent _ _ Hex).
    destruct (lookup sym d); f_equal; lia.
Qed.

Lemma fold_max_spec (l : list Z) (x : Z) :
  let m := fold_left (fun m y => if m <? y then y else m) l x in
  In m (x :: l) /\ x <= m /\ (forall y, In y l -> y <= m).
Proof.
  revert x. induction l as [|y l IH]; intros x; simpl.
  - split; [left; reflexivity|]. split; [lia | tauto].
  - destruct (IH (if x <? y then y else x)) as (Hin & Hle & Hall).
    split; [|split].
    + destruct Hin as [Hin | Hin]; [|auto].
      rewrite <- Hin. destruct (x <? y); auto.
    + destruct (x <? y) eqn:Hxy; lia.
    + intros z [Hz | Hz]; [|apply Hall, Hz]. subst z.
      destruct (x <? y) eqn:Hxy; lia.
Qed.

Lemma max_spec (l : list Z) (m : Z) :
  Py.max l = Some m -> In m l /\ (forall y, In y l -> y <= m).
Proof.
  destruct l as [|x l]; simpl; [discriminate|]. intros [= <-].
  destruct (fold_max_spec l x) as (Hin & Hle & Hall).
  split; [exact Hin|]. intros y [Hy | Hy]; [subst y; exact Hle | apply Hall, Hy].
Qed.

Lemma token_values_lookup (sym : string) (wts : list WalletToken) :
  lookup sym (token_values_of wts) =
    if existsb (fun wt => String.eqb (token_symbol wt) sym) wts
    then Some (aggregate sym wts) else None.
Proof. unfold token_values_of. rewrite lookup_fold. reflexivity. Qed.

(** [max(token_values.values())] is the aggregate of some symbol that is
    held, and no held symbol has a larger aggregate. *)
Lemma largest_position_spec (wts : list WalletToken) :
  wts <> [] ->
  (exists wt, In wt wts /\
              largest_position wts = aggregate (token_symbol wt) wts) /\
  (forall wt, In wt wts ->
              aggregate (token_symbol wt) wts <= largest_position wts).
Proof.
  intros Hne. unfold largest_position.
  pose proof (token_values_nonempty wts Hne) as Htv.
  destruct (Py.max (map snd (token_values_of wts))) as [m|] eqn:Hmax.
  2:{ destruct (token_values_of wts); [congruence | discriminate]. }
  destruct (max_spec _ _ Hmax) as [Hin Hall]. split.
  - apply in_map_iff in Hin. destruct Hin as ([k w] & Hw & Hin).
    simpl in Hw. subst w.
    apply (In_lookup _ _ _ (token_values_NoDup wts)) in Hin.
    rewrite token_values_lookup in Hin.
    destruct (existsb (fun wt => String.eqb (token_symbol wt) k) wts) eqn:Hex;
      [|discriminate].
    injection Hin as <-.
    apply existsb_exists in Hex. destruct Hex as (wt & Hwt & Hk).
    apply String.eqb_eq in Hk. subst k. exists wt. auto.
  - intros wt Hwt. apply Hall.
    apply in_map_iff. exists (token_symbol wt, aggregate (token_symbol wt) wts).
    split; [reflexivity|]. apply lookup_In. rewrite token_values_lookup.
    assert (Hex : existsb (fun wt0 => String.eqb (token_symbol wt0) (token_symbol wt)) wts = true).
    { apply existsb_exists. exists wt. split; [exact Hwt | apply String.eqb_refl]. }
    rewrite Hex. reflexivity.
Qed.

(** What lines 328-346 do once they are reached, that is in a module where
    [PortfolioSnapshot] is bound: with rows and a positive total the stored
    concentration is 100 x largest aggregate / total, the quotient rounded
    to 28 digits; otherwise the field keeps its prior value. *)
Lemma concentration_when_snapshot_resolves (globals : list string)
    (c : cycle) (db : DB) :
  bound globals "PortfolioSnapshot" = true ->
  let stored :=
    concentration_risk
      (risk_metrics_or_new (snd (SyncWalletDataView_post globals c db))) in
  (synced_tokens c <> [] -> 0 < cycle_total c ->
   exists q, stored = Some q /\
     within_rounding q
       (100 * usd (largest_position (synced_tokens c)) / usd (cycle_total c))%Q) /\
  (synced_tokens c = [] \/ cycle_total c <= 0 ->
   stored = concentration_risk (risk_metrics_or_new db)).
Proof.
  intros Hb. rewrite post_run. unfold after_cycle, risk_metrics_or_new at 1.
  simpl. rewrite Hb. unfold with_concentration, cycle_total. split.
  - intros Hne Hpos.
    destruct (synced_tokens c) as [|wt wts] eqn:Hw; [congruence|].
    cbn [List.length Nat.eqb negb andb].
    assert (Hlt : (0 <? total_value_of (wt :: wts)) = true) by lia.
    rewrite Hlt. simpl. eexists. split; [reflexivity|].
    apply Z.ltb_lt in Hlt.
    assert (Hnz : ~ (inject_Z (total_value_of (wt :: wts)) == 0)%Q)
      by (apply inject_Z_nonzero; lia).
    unfold within_rounding.
    setoid_replace
      (100 * usd (largest_position (wt :: wts)) / usd (total_value_of (wt :: wts)))%Q
      with (100 * (inject_Z (largest_position (wt :: wts))
                   / inject_Z (total_value_of (wt :: wts))))%Q
      by (unfold usd; field; repeat split; first [exact Hnz | discriminate]).
    apply percent_within_rounding. lia.
  - intros [Hnil | Hle].
    + rewrite Hnil. reflexivity.
    + assert (Hlt : (0 <? total_value_of (synced_tokens c)) = false) by lia.
      rewrite Hlt, andb_false_r. reflexivity.
Qed.

Example concentration_example :
  with_concentration (synced_tokens btc_eth_sol) new_RiskMetrics
    = set_concentration_risk new_RiskMetrics
        (Decimal.quotient 60000 100000 * 100)%Q /\
  (Decimal.quotient 60000 100000 * 100 == 60)%Q.
Proof. split; [reflexivity | vm_compute; reflexivity]. Qed.

(** C7, the code at a cycle with positions and a positive total: whatever
    the holdings, [post] raises [NameError] at line 320, because [views.py]
    does not import [PortfolioSnapshot]; the handler at line 348 records the
    failure, and neither the snapshot nor the risk metrics are written.  For
    BTC 600, ETH 300, SOL 100 the concentration stays unset where the claim
    has 60. *)
Theorem sync_never_reaches_concentration :
  (forall c db,
     fst (SyncWalletDataView_post views_globals c db)
       = ["Portfolio update: name 'PortfolioSnapshot' is not defined"] /\
     risk_metrics (snd (SyncWalletDataView_post views_globals c db))
       = risk_metrics db /\
     snapshots (snd (SyncWalletDataView_post views_globals c db))
       = snapshots db) /\
  cycle_total btc_eth_sol = 100000 /\
  concentration_risk
    (risk_metrics_or_new
       (snd (SyncWalletDataView_post views_globals btc_eth_sol empty_db)))
    = None.
Proof.
  split; [|split; reflexivity].
  intros c db. rewrite post_run.
  change (bound views_globals "PortfolioSnapshot") with false.
  repeat split.
Qed.

(** ** History metrics and the cycle *)

Local Open Scope nat_scope.

(** C1, counterexample: with eight snapshots in the window a cycle leaves
    the five history metrics unset, although the calculator gives 0 for each
    on this history.  This is so in the module as it is and also in one that
    binds [PortfolioSnapshot], where the cycle does append its snapshot. *)
Lemma sync_does_not_recompute_history_metrics :
  ~ recomputed_on_sync views_globals (cycle_of 10000 (10 * day)) flat_history /\
  ~ recomputed_on_sync ("PortfolioSnapshot" :: views_globals)
      (cycle_of 10000 (10 * day)) flat_history.
Proof.
  split; intros H; unfold recomputed_on_sync in H.
  - assert (E := H ltac:(vm_compute; lia) ltac:(vm_compute; lia)
                   (Some 0%Z, Some 0%Z, Some 0%Z, Some 0%Z, Some 0%Z)
                   ltac:(vm_compute; reflexivity)).
    vm_compute in E. discriminate.
  - assert (E := H ltac:(vm_compute; lia) ltac:(vm_compute; lia)
                   (Some 0%Z, Some 0%Z, Some 0%Z, Some 0%Z, Some 0%Z)
                   ltac:(vm_compute; reflexivity)).
    vm_compute in E. discriminate.
Qed.

(** C1 (as the code has it): a cycle leaves the stored volatility (over 30
    and over 90 days), maximum drawdown, Sharpe ratio and value at risk as
    they were, whatever the snapshot history: [post] does not call the
    calculator. *)
Theorem sync_keeps_history_metrics (globals : list string) (c : cycle)
    (db : DB) :
  history_metrics
    (risk_metrics_or_new (snd (SyncWalletDataView_post globals c db)))
  = history_metrics (risk_metrics_or_new db).
Proof.
  rewrite post_run.
  unfold after_cycle, risk_metrics_or_new at 1. simpl.
  destruct (bound globals "PortfolioSnapshot"); [|reflexivity].
  apply with_concentration_history.
Qed.

(** * Further properties of the code *)

Local Open Scope Z_scope.

(** ** Sorting *)

Lemma insert_by_perm {A} (key : A -> Z) (x : A) (l : list A) :
  Permutation (Py.insert_by key x l) (x :: l).
Proof.
  induction l as [|y l IH]; simpl; [reflexivity|].
  destruct (key x <=? key y); [reflexivity|].
  rewrite IH. apply perm_swap.
Qed.

Lemma sort_by_perm {A} (key : A -> Z) (l : list A) :
  Permutation (Py.sort_by key l) l.
Proof.
  induction l as [|x l IH]; simpl; [reflexivity|].
  rewrite insert_by_perm. apply perm_skip, IH.
Qed.

Lemma sort_by_length {A} (key : A -> Z) (l : list A) :
  List.length (Py.sort_by key l) = List.length l.
Proof. apply Permutation_length, sort_by_perm. Qed.

Lemma insert_by_sorted {A} (key : A -> Z) (x : A) (l : list A) :
  StronglySorted (fun a b => key a <= key b) l ->
  StronglySorted (fun a b => key a <= key b) (Py.insert_by key x l).
Proof.
  induction 1 as [|y l Hl IH Hy]; simpl.
  - repeat constructor.
  - destruct (key x <=? key y) eqn:Hxy.
    + constructor; [constructor; assumption|].
      constructor; [lia|].
      eapply Forall_impl; [|exact Hy]. simpl. intros z Hz. lia.
    + constructor; [exact IH|].
      apply (Permutation_Forall (Permutation_sym (insert_by_perm key x l))).
      constructor; [lia | exact Hy].
Qed.

Lemma sort_by_sorted {A} (key : A -> Z) (l : list A) :
  StronglySorted (fun a b => key a <= key b) (Py.sort_by key l).
Proof.
  induction l as [|x l IH]; simpl; [constructor|].
  apply insert_by_sorted, IH.
Qed.

Lemma strongly_sorted_impl {A} (R S : A -> A -> Prop) (l : list A) :
  (forall a b, R a b -> S a b) ->
  StronglySorted R l -> StronglySorted S l.
Proof.
  intros HRS. induction 1 as [|x l Hl IH Hx]; constructor; [exact IH|].
  eapply Forall_impl; [|exact Hx]. intros y. apply HRS.
Qed.

(** In a sorted list that is cut in three, the middle precedes the end. *)
Lemma sorted_middle_before_end {A} (R : A -> A -> Prop) (a b c : list A) :
  StronglySorted R (a ++ b ++ c) ->
  forall x y, In x b -> In y c -> R x y.
Proof.
  induction a as [|z a IH]; simpl; intros H x y Hx Hy.
  - induction b as [|w b IHb]; simpl in *; [tauto|].
    inversion H as [|? ? Hs Hf]; subst.
    destruct Hx as [<- | Hx].
    + rewrite Forall_forall in Hf. apply Hf, in_or_app. right. exact Hy.
    + apply IHb; assumption.
  - inversion H; subst. apply IH; assumption.
Qed.

(** ** Pages of the transaction history *)

Lemma user_transactions_sorted (wallet_ids : list Z)
    (table : list Transaction.row) :
  StronglySorted newer_or_same (user_transactions wallet_ids table).
Proof.
  unfold user_transactions.
  eapply strongly_sorted_impl;
    [|apply (sort_by_sorted (fun t => - Transaction.timestamp t))].
  unfold newer_or_same. intros a b H. simpl in H. lia.
Qed.

Lemma history_page_run (wallet_ids : list Z) (p n : Z)
    (table : list Transaction.row) :
  1 <= p -> 1 <= n -> n <= max_limit -> (p - 1) * n <= max_limit ->
  TransactionHistoryView_get wallet_ids (Integer p) (Integer n) table =
    History_200
      {| page_transactions :=
           firstn (Z.to_nat n)
             (skipn (Z.to_nat ((p - 1) * n)) (user_transactions wallet_ids table));
         total := Z.of_nat (List.length (user_transactions wallet_ids table));
         page := p;
         page_size := n;
         total_pages :=
           (Z.of_nat (List.length (user_transactions wallet_ids table)) + n - 1)
           / n |}.
Proof.
  intros Hp Hn Hlimit Hoffset.
  unfold TransactionHistoryView_get, queryset_slice. simpl.
  assert (Hs : ((p - 1) * n <? 0) = false) by nia.
  assert (He : ((p - 1) * n + n <? 0) = false) by nia.
  assert (Hz : (n =? 0) = false) by lia.
  assert (Hem : ((p - 1) * n + n <=? (p - 1) * n) = false) by lia.
  replace ((p - 1) * n + n - (p - 1) * n) with n by ring.
  assert (Hl : (max_limit <? n) = false) by lia.
  assert (Ho : (max_limit <? (p - 1) * n) = false) by lia.
  rewrite Hs, He, Hz, Hem, Hl, Ho. reflexivity.
Qed.

(** A page whose LIMIT or OFFSET the database cannot hold is refused. *)
Lemma history_page_refused (wallet_ids : list Z) (p n : Z)
    (table : list Transaction.row) :
  1 <= p -> 1 <= n -> max_limit < n \/ max_limit < (p - 1) * n ->
  TransactionHistoryView_get wallet_ids (Integer p) (Integer n) table
    = History_500 OutOfRange.
Proof.
  intros Hp Hn Hbig.
  unfold TransactionHistoryView_get, queryset_slice. simpl.
  assert (Hs : ((p - 1) * n <? 0) = false) by nia.
  assert (He : ((p - 1) * n + n <? 0) = false) by nia.
  assert (Hem : ((p - 1) * n + n <=? (p - 1) * n) = false) by lia.
  replace ((p - 1) * n + n - (p - 1) * n) with n by ring.
  assert (Hb : (max_limit <? n) || (max_limit <? (p - 1) * n) = true).
  { apply orb_true_iff. destruct Hbig; [left | right]; lia. }
  rewrite Hs, He, Hem, Hb. reflexivity.
Qed.

Lemma shown_run (wallet_ids : list Z) (p n : Z)
    (table : list Transaction.row) :
  1 <= p -> 1 <= n -> n <= max_limit -> (p - 1) * n <= max_limit ->
  shown wallet_ids p n table =
    firstn (Z.to_nat n)
      (skipn (Z.to_nat ((p - 1) * n)) (user_transactions wallet_ids table)).
Proof.
  intros Hp Hn Hlimit Hoffset. unfold shown.
  rewrite history_page_run by assumption. reflexivity.
Qed.

Lemma shown_cases (wallet_ids : list Z) (p n : Z)
    (table : list Transaction.row) :
  1 <= p -> 1 <= n ->
  shown wallet_ids p n table =
    firstn (Z.to_nat n)
      (skipn (Z.to_nat ((p - 1) * n)) (user_transactions wallet_ids table)) \/
  shown wallet_ids p n table = [].
Proof.
  intros Hp Hn.
  destruct (Z_le_gt_dec n max_limit) as [Hl | Hl];
    [destruct (Z_le_gt_dec ((p - 1) * n) max_limit) as [Ho | Ho]|].
  - left. apply shown_run; assumption.
  - right. unfold shown. rewrite history_page_refused by lia. reflexivity.
  - right. unfold shown. rewrite history_page_refused by lia. reflexivity.
Qed.

(** X1: when the history answers.  An answer of 200 needs both parameters
    missing or integers (a missing page reads 1, a missing page size 20), a
    page size other than 0 and slice bounds that are not negative.  With
    page >= 1, page_size >= 1 and page x page_size within the 64-bit range
    of the database the answer is 200; with page <= 0 and page_size < 0 it is
    200 with an empty page.  A page size of 0 ends in the division by zero
    of [total_pages], a page below 1 with a positive size or a page from 1
    with a negative size in the refusal of a negative slice bound, and a
    text that is no integer in the error of [int()]: all are answered 500. *)
Theorem history_answers (wallet_ids : list Z)
    (page_param page_size_param : query_param)
    (table : list Transaction.row) :
  ((exists body,
      TransactionHistoryView_get wallet_ids page_param page_size_param table
        = History_200 body) ->
   exists p n,
     int_of_param page_param 1 = inr p /\
     int_of_param page_size_param 20 = inr n /\
     n <> 0 /\ 0 <= (p - 1) * n /\ 0 <= p * n) /\
  (forall p n,
     int_of_param page_param 1 = inr p ->
     int_of_param page_size_param 20 = inr n ->
     (1 <= p /\ 1 <= n /\ p * n <= max_limit ->
      exists body,
        TransactionHistoryView_get wallet_ids page_param page_size_param table
          = History_200 body /\
        page body = p /\ page_size body = n) /\
     (p <= 0 /\ n < 0 ->
      exists body,
        TransactionHistoryView_get wallet_ids page_param page_size_param table
          = History_200 body /\
        page_transactions body = []) /\
     (n = 0 ->
      TransactionHistoryView_get wallet_ids page_param page_size_param table
        = History_500 ZeroDivisionError) /\
     ((p <= 0 /\ 1 <= n) \/ (1 <= p /\ n < 0) ->
      TransactionHistoryView_get wallet_ids page_param page_size_param table
        = History_500 NegativeIndexing)) /\
  (page_param = NotInteger \/ page_size_param = NotInteger ->
   TransactionHistoryView_get wallet_ids page_param page_size_param table
     = History_500 InvalidLiteral).
Proof.
  unfold TransactionHistoryView_get, queryset_slice.
  split; [|split].
  - intros [body H].
    destruct (int_of_param page_param 1) as [e|p]; [discriminate|].
    destruct (int_of_param page_size_param 20) as [e|n]; [discriminate|].
    cbv zeta in H.
    destruct ((p - 1) * n <? 0) eqn:Hs; [discriminate|].
    destruct ((p - 1) * n + n <? 0) eqn:He; [discriminate|].
    simpl in H.
    exists p, n. split; [reflexivity|]. split; [reflexivity|].
    split; [|lia].
    intros ->.
    replace ((p - 1) * 0 + 0 <=? (p - 1) * 0) with true in H by lia.
    simpl in H. discriminate.
  - intros p n -> ->. cbv zeta.
    replace ((p - 1) * n + n - (p - 1) * n) with n by ring.
    split; [|split; [|split]].
    + intros (Hp & Hn & Hpn).
      assert (Hs : ((p - 1) * n <? 0) = false) by nia.
      assert (He : ((p - 1) * n + n <? 0) = false) by nia.
      assert (Hz : (n =? 0) = false) by lia.
      assert (Hem : ((p - 1) * n + n <=? (p - 1) * n) = false) by lia.
      assert (Hl : (max_limit <? n) = false) by nia.
      assert (Ho : (max_limit <? (p - 1) * n) = false) by nia.
      rewrite Hs, He, Hz, Hem, Hl, Ho. simpl.
      eexists. split; [reflexivity|]. split; reflexivity.
    + intros (Hp & Hn).
      assert (Hs : ((p - 1) * n <? 0) = false) by nia.
      assert (He : ((p - 1) * n + n <? 0) = false) by nia.
      assert (Hz : (n =? 0) = false) by lia.
      assert (Hem : ((p - 1) * n + n <=? (p - 1) * n) = true) by lia.
      rewrite Hs, He, Hz, Hem. simpl.
      eexists. split; reflexivity.
    + intros ->.
      replace ((p - 1) * 0) with 0 by ring. reflexivity.
    + intros H.
      assert (Hneg : ((p - 1) * n <? 0) || ((p - 1) * n + n <? 0) = true).
      { apply orb_true_iff. destruct H as [[Hp Hn] | [Hp Hn]].
        - left. nia.
        - right. nia. }
      rewrite Hneg. reflexivity.
  - intros [-> | ->]; simpl; [reflexivity|].
    destruct page_param; reflexivity.
Qed.

Lemma history_answers_witness :
  (exists body,
     TransactionHistoryView_get [1; 2] (Integer 2) Absent example_table
       = History_200 body /\
     page body = 2 /\ page_size body = 20 /\ total body = 5 /\
     total_pages body = 1 /\ page_transactions body = []) /\
  TransactionHistoryView_get [1; 2] (Integer 1) (Integer 0) example_table
    = History_500 ZeroDivisionError /\
  TransactionHistoryView_get [1; 2] (Integer 0) (Integer 5) example_table
    = History_500 NegativeIndexing /\
  TransactionHistoryView_get [1; 2] NotInteger (Integer 5) example_table
    = History_500 InvalidLiteral.
Proof.
  pose proof (history_answers [1; 2] (Integer 2) Absent example_table)
    as (_ & H200 & _).
  pose proof (history_answers [1; 2] (Integer 1) (Integer 0) example_table)
    as (_ & Hzero & _).
  pose proof (history_answers [1; 2] (Integer 0) (Integer 5) example_table)
    as (_ & Hneg & _).
  pose proof (history_answers [1; 2] NotInteger (Integer 5) example_table)
    as (_ & _ & Htext).
  split; [|split; [|split]].
  - destruct (H200 2 20 eq_refl eq_refl) as (H & _).
    destruct H as (body & Hbody & Hp & Hn); [unfold max_limit; lia|].
    exists body. split; [exact Hbody|]. split; [exact Hp|].
    split; [exact Hn|].
    vm_compute in Hbody. injection Hbody as <-. repeat split.
  - apply (Hzero 1 0 eq_refl eq_refl). reflexivity.
  - apply (Hneg 0 5 eq_refl eq_refl). left. lia.
  - apply Htext. left. reflexivity.
Defined.

Lemma chunks_concat {A} (n : nat) (m : nat) (l : list A) :
  (List.length l <= m * n)%nat ->
  List.concat (map (fun k => firstn n (skipn (k * n) l)) (seq 0 m)) = l.
Proof.
  revert l. induction m as [|m IH]; intros l Hl; simpl.
  - destruct l; [reflexivity | simpl in Hl; lia].
  - rewrite <- seq_shift, map_map.
    transitivity (firstn n l ++ skipn n l); [|apply firstn_skipn].
    f_equal.
    transitivity
      (List.concat
         (map (fun k => firstn n (skipn (k * n) (skipn n l))) (seq 0 m))).
    + apply f_equal, map_ext. intros k.
      rewrite skipn_skipn. f_equal. f_equal. lia.
    + apply IH. rewrite length_skipn. simpl in Hl. lia.
Qed.

(** The bounds that [total_pages] satisfies. *)
Lemma total_pages_bounds (count n : Z) :
  1 <= n -> 0 <= count ->
  count <= n * ((count + n - 1) / n) /\
  n * ((count + n - 1) / n) < count + n.
Proof.
  intros Hn Hc.
  pose proof (Z.mul_div_le (count + n - 1) n ltac:(lia)).
  pose proof (Z.mul_succ_div_gt (count + n - 1) n ltac:(lia)).
  lia.
Qed.

(** Two lists of the same rows, both newest first, are one list when no
    two rows have the same timestamp. *)
Lemma newest_first_unique (a b : list Transaction.row) :
  NoDup (map Transaction.timestamp a) ->
  Permutation a b ->
  StronglySorted newer_or_same a ->
  StronglySorted newer_or_same b ->
  a = b.
Proof.
  revert b. induction a as [|x a IH]; intros b Hnd Hperm Ha Hb.
  - apply Permutation_nil in Hperm. congruence.
  - destruct b as [|y b].
    { apply Permutation_sym, Permutation_nil in Hperm. discriminate. }
    inversion Ha as [|? ? Ha' Hxa]; subst.
    inversion Hb as [|? ? Hb' Hyb]; subst.
    inversion Hnd as [|? ? Hx Hnd']; subst.
    rewrite Forall_forall in Hxa, Hyb.
    assert (Hxy : x = y).
    { assert (Hx_in : In x (y :: b))
        by (apply (Permutation_in _ Hperm); left; reflexivity).
      assert (Hy_in : In y (x :: a))
        by (apply (Permutation_in _ (Permutation_sym Hperm)); left; reflexivity).
      destruct Hx_in as [-> | Hx_in]; [reflexivity|].
      destruct Hy_in as [-> | Hy_in]; [reflexivity|].
      exfalso. apply Hx.
      pose proof (Hyb x Hx_in) as H1. pose proof (Hxa y Hy_in) as H2.
      unfold newer_or_same in H1, H2.
      replace (Transaction.timestamp x) with (Transaction.timestamp y) by lia.
      apply in_map. exact Hy_in. }
    subst y. f_equal.
    apply IH; try assumption.
    apply Permutation_cons_inv in Hperm. exact Hperm.
Qed.

(** X2: take a page size from 1 that the database can hold as a LIMIT, and
    wallets whose transactions have pairwise different timestamps and are
    no more than the database can count.  Then the pages 1 to [total_pages]
    put end to end are the transactions of the user's wallets from newest
    to oldest: none is left out, none is shown twice. *)
Theorem history_pages_cover (wallet_ids : list Z) (n : Z)
    (table newest_first : list Transaction.row) :
  1 <= n <= max_limit ->
  Z.of_nat (List.length newest_first) <= max_limit ->
  NoDup (map Transaction.timestamp newest_first) ->
  Permutation newest_first
    (filter (fun t => existsb (Z.eqb (Transaction.wallet_id t)) wallet_ids)
       table) ->
  StronglySorted newer_or_same newest_first ->
  List.concat
    (map (fun k => shown wallet_ids (Z.of_nat k) n table)
       (seq 1
          (Z.to_nat ((Z.of_nat (List.length newest_first) + n - 1) / n))))
  = newest_first.
Proof.
  intros Hn Hcount Hdistinct Hperm Hsorted.
  assert (Hall : newest_first = user_transactions wallet_ids table).
  { apply newest_first_unique; try assumption.
    - rewrite Hperm. unfold user_transactions.
      apply Permutation_sym, sort_by_perm.
    - apply user_transactions_sorted. }
  rewrite Hall in Hcount |- *. clear Hall Hdistinct Hperm Hsorted.
  set (all := user_transactions wallet_ids table) in *.
  set (m := Z.to_nat ((Z.of_nat (List.length all) + n - 1) / n)).
  destruct (total_pages_bounds (Z.of_nat (List.length all)) n
              ltac:(lia) ltac:(lia)) as [Hlow Hhigh].
  rewrite <- seq_shift, map_map.
  transitivity
    (List.concat
       (map (fun k => firstn (Z.to_nat n) (skipn (k * Z.to_nat n) all))
          (seq 0 m))).
  2:{ apply chunks_concat. unfold m. nia. }
  f_equal. apply map_ext_in. intros k Hk. apply in_seq in Hk.
  assert (Hkm : Z.of_nat k < (Z.of_nat (List.length all) + n - 1) / n).
  { unfold m in Hk.
    destruct (Z_lt_le_dec (Z.of_nat k)
                ((Z.of_nat (List.length all) + n - 1) / n)); [assumption|].
    exfalso. lia. }
  rewrite shown_run; try lia.
  - fold all. f_equal. f_equal. nia.
  - nia.
Qed.

Lemma history_pages_cover_witness :
  List.concat (map (fun k => shown [1; 2] (Z.of_nat k) 2 example_table) (seq 1 3))
  = [ transaction_at 1 "0x06" 60; transaction_at 2 "0x02" 50;
      transaction_at 1 "0x04" 30; transaction_at 2 "0x05" 20;
      transaction_at 1 "0x01" 10 ].
Proof.
  apply (history_pages_cover [1; 2] 2 example_table
           [ transaction_at 1 "0x06" 60; transaction_at 2 "0x02" 50;
             transaction_at 1 "0x04" 30; transaction_at 2 "0x05" 20;
             transaction_at 1 "0x01" 10 ]).
  - unfold max_limit. lia.
  - unfold max_limit. simpl. lia.
  - simpl. repeat constructor; simpl; intuition discriminate.
  - simpl.
    apply perm_trans with
      [ transaction_at 1 "0x01" 10; transaction_at 1 "0x06" 60;
        transaction_at 2 "0x02" 50; transaction_at 1 "0x04" 30;
        transaction_at 2 "0x05" 20 ].
    + apply Permutation_sym.
      apply (Permutation_cons_app
               [ transaction_at 1 "0x06" 60; transaction_at 2 "0x02" 50;
                 transaction_at 1 "0x04" 30; transaction_at 2 "0x05" 20 ]
               [] (transaction_at 1 "0x01" 10)).
      rewrite app_nil_r. reflexivity.
    + apply perm_skip.
      apply perm_trans with
        [ transaction_at 2 "0x02" 50; transaction_at 1 "0x06" 60;
          transaction_at 1 "0x04" 30; transaction_at 2 "0x05" 20 ].
      * apply perm_swap.
      * apply perm_skip.
        apply perm_trans with
          [ transaction_at 1 "0x04" 30; transaction_at 1 "0x06" 60;
            transaction_at 2 "0x05" 20 ].
        -- apply perm_swap.
        -- apply perm_skip.
           apply perm_trans with
             [ transaction_at 2 "0x05" 20; transaction_at 1 "0x06" 60 ].
           ++ apply perm_swap.
           ++ reflexivity.
  - repeat constructor; unfold newer_or_same; simpl; lia.
Defined.

(** X3: with page >= 1, a page size from 1 that the database can hold as a
    LIMIT and no more transactions than it can count, a page never holds
    more than page_size transactions; every page before [total_pages] is
    full, the page [total_pages] is not empty, and every later page is
    empty. *)
Theorem history_page_sizes (wallet_ids : list Z) (p n : Z)
    (table : list Transaction.row) :
  1 <= p -> 1 <= n <= max_limit ->
  Z.of_nat (List.length (user_transactions wallet_ids table)) <= max_limit ->
  let count := Z.of_nat (List.length (user_transactions wallet_ids table)) in
  let last := (count + n - 1) / n in
  Z.of_nat (List.length (shown wallet_ids p n table)) <= n /\
  (p < last -> Z.of_nat (List.length (shown wallet_ids p n table)) = n) /\
  (p = last -> 1 <= Z.of_nat (List.length (shown wallet_ids p n table))) /\
  (last < p -> shown wallet_ids p n table = []).
Proof.
  intros Hp Hn Hcount count last.
  destruct (total_pages_bounds count n ltac:(lia) ltac:(unfold count; lia))
    as [Hlow Hhigh].
  fold last in Hlow, Hhigh. fold count in Hcount.
  assert (Hstart : 0 <= (p - 1) * n) by (apply Z.mul_nonneg_nonneg; lia).
  split; [|split; [|split]].
  - destruct (shown_cases wallet_ids p n table Hp ltac:(lia)) as [-> | ->].
    + rewrite length_firstn, length_skipn. lia.
    + simpl. lia.
  - intros Hlt.
    assert (p * n <= (last - 1) * n)
      by (apply Z.mul_le_mono_nonneg_r; lia).
    assert ((p - 1) * n + n <= count) by lia.
    rewrite shown_run by lia.
    rewrite length_firstn, length_skipn. fold count. lia.
  - intros Heq. assert ((p - 1) * n < count) by (subst p; lia).
    rewrite shown_run by lia.
    rewrite length_firstn, length_skipn. fold count. lia.
  - intros Hgt.
    destruct (shown_cases wallet_ids p n table Hp ltac:(lia)) as [-> | ->];
      [|reflexivity].
    apply length_zero_iff_nil.
    rewrite length_firstn, length_skipn.
    assert (last * n <= (p - 1) * n)
      by (apply Z.mul_le_mono_nonneg_r; lia).
    assert (count <= (p - 1) * n) by lia. unfold count in *. lia.
Qed.

Lemma history_page_sizes_witness :
  Z.of_nat (List.length (shown [1; 2] 3 2 example_table)) <= 2 /\
  List.length (shown [1; 2] 1 2 example_table) = 2%nat /\
  1 <= Z.of_nat (List.length (shown [1; 2] 3 2 example_table)) /\
  shown [1; 2] 4 2 example_table = [].
Proof.
  pose proof (history_page_sizes [1; 2] 3 2 example_table
                ltac:(lia) ltac:(unfold max_limit; lia)
                ltac:(unfold max_limit; simpl; lia)) as (H1 & _ & H3 & _).
  pose proof (history_page_sizes [1; 2] 1 2 example_table
                ltac:(lia) ltac:(unfold max_limit; lia)
                ltac:(unfold max_limit; simpl; lia)) as (_ & H2 & _ & _).
  pose proof (history_page_sizes [1; 2] 4 2 example_table
                ltac:(lia) ltac:(unfold max_limit; lia)
                ltac:(unfold max_limit; simpl; lia)) as (_ & _ & _ & H4).
  split; [exact H1|]. split; [|split].
  - apply Nat2Z.inj. apply H2. vm_compute. reflexivity.
  - apply H3. reflexivity.
  - apply H4. vm_compute. reflexivity.
Defined.

Lemma in_firstn {A} (n : nat) (l : list A) (x : A) :
  In x (firstn n l) -> In x l.
Proof.
  intros H. rewrite <- (firstn_skipn n l). apply in_or_app. left. exact H.
Qed.

Lemma in_skipn {A} (n : nat) (l : list A) (x : A) :
  In x (skipn n l) -> In x l.
Proof.
  intros H. rewrite <- (firstn_skipn n l). apply in_or_app. right. exact H.
Qed.

Lemma sorted_app_inv {A} (R : A -> A -> Prop) (a b : list A) :
  StronglySorted R (a ++ b) -> StronglySorted R a /\ StronglySorted R b.
Proof.
  induction a as [|x a IH]; simpl; intros H.
  - split; [constructor | exact H].
  - inversion H as [|? ? Hs Hf]; subst.
    destruct (IH Hs) as [Ha Hb]. split; [|exact Hb].
    constructor; [exact Ha|].
    rewrite Forall_forall in *. intros y Hy. apply Hf, in_or_app. left. exact Hy.
Qed.

(** X4: the history shows only rows of the table that belong to a wallet
    of the user, whatever the page and the page size. *)
Theorem history_shows_only_own (wallet_ids : list Z) (p n : Z)
    (table : list Transaction.row) (t : Transaction.row) :
  In t (shown wallet_ids p n table) ->
  In t table /\ In (Transaction.wallet_id t) wallet_ids.
Proof.
  unfold shown, TransactionHistoryView_get, queryset_slice. simpl.
  destruct (((p - 1) * n <? 0) || ((p - 1) * n + n <? 0)); simpl; [tauto|].
  destruct ((p - 1) * n + n <=? (p - 1) * n); simpl;
    [destruct (n =? 0); simpl; tauto|].
  destruct ((max_limit <? (p - 1) * n + n - (p - 1) * n)
            || (max_limit <? (p - 1) * n)); simpl; [tauto|].
  destruct (n =? 0); simpl; [tauto|].
  intros H. apply in_firstn, in_skipn in H.
  unfold user_transactions in H.
  apply (Permutation_in _ (sort_by_perm _ _)) in H.
  apply filter_In in H. destruct H as [Hin Hw]. split; [exact Hin|].
  apply existsb_exists in Hw. destruct Hw as (w & Hw & Heq).
  apply Z.eqb_eq in Heq. rewrite Heq. exact Hw.
Qed.

Lemma history_shows_only_own_witness :
  In (transaction_at 2 "0x02" 50) example_table /\ In 2 [1; 2].
Proof.
  apply (history_shows_only_own [1; 2] 1 2 example_table
           (transaction_at 2 "0x02" 50)).
  vm_compute. auto.
Defined.

(** X5: with page >= 1 and page_size >= 1 the transactions of a page are
    in order from newest to oldest, and every transaction of a page is at
    least as new as every transaction of any later page. *)
Theorem history_newest_first (wallet_ids : list Z) (p n : Z)
    (table : list Transaction.row) :
  1 <= p -> 1 <= n ->
  StronglySorted newer_or_same (shown wallet_ids p n table) /\
  (forall p' t t',
     p < p' ->
     In t (shown wallet_ids p n table) ->
     In t' (shown wallet_ids p' n table) ->
     newer_or_same t t').
Proof.
  intros Hp Hn.
  pose proof (user_transactions_sorted wallet_ids table) as Hall.
  set (all := user_transactions wallet_ids table) in *.
  set (s := Z.to_nat ((p - 1) * n)).
  assert (Hcut : all = firstn s all
                   ++ firstn (Z.to_nat n) (skipn s all)
                   ++ skipn (Z.to_nat n) (skipn s all)).
  { rewrite (firstn_skipn (Z.to_nat n)), (firstn_skipn s). reflexivity. }
  destruct (shown_cases wallet_ids p n table Hp Hn) as [-> | ->].
  2:{ split; [constructor | intros p' t t' _ []]. }
  fold all. fold s.
  rewrite Hcut in Hall. split.
  - apply sorted_app_inv in Hall. destruct Hall as [_ Hall].
    apply sorted_app_inv in Hall. tauto.
  - intros p' t t' Hlt Ht Ht'.
    destruct (shown_cases wallet_ids p' n table ltac:(lia) Hn) as [E | E];
      rewrite E in Ht'; [|destruct Ht'].
    fold all in Ht'.
    apply (sorted_middle_before_end _ _ _ _ Hall t t' Ht).
    apply in_firstn in Ht'.
    replace (Z.to_nat ((p' - 1) * n))
      with (Z.to_nat ((p' - 1) * n) - (Z.to_nat n + s) + (Z.to_nat n + s))%nat
      in Ht' by (unfold s; nia).
    rewrite <- skipn_skipn in Ht'. apply in_skipn in Ht'.
    rewrite <- skipn_skipn in Ht'. exact Ht'.
Qed.

Lemma history_newest_first_witness :
  StronglySorted newer_or_same (shown [1; 2] 1 2 example_table) /\
  newer_or_same (transaction_at 2 "0x02" 50) (transaction_at 2 "0x05" 20).
Proof.
  destruct (history_newest_first [1; 2] 1 2 example_table
              ltac:(lia) ltac:(lia)) as [Hsorted Hlater].
  split; [exact Hsorted|].
  apply (Hlater 2); [lia | vm_compute; auto | vm_compute; auto].
Defined.

(** ** The overview in closed form *)

Local Open Scope Z_scope.

Lemma allocation_rows_run (total_value : Z) (token_values : list (string * Z))
    (db : DB) :
  allocation_rows total_value token_values db
    = (Ok (map (allocation_of total_value) token_values), db).
Proof.
  induction token_values as [|[sym value] rest IH]; simpl; [reflexivity|].
  unfold allocation_of at 1. simpl.
  run_db. destruct (0 <? total_value) eqn:Hpos.
  - destruct (total_value =? 0) eqn:Hz; [lia|]. rewrite IH. reflexivity.
  - rewrite IH. reflexivity.
Qed.

Lemma change_pct_run (total_value : Z) (checkpoint : option Z) (db : DB) :
  change_pct total_value checkpoint db = (Ok (change_of total_value checkpoint), db).
Proof.
  unfold change_pct, change_of. destruct checkpoint as [c|]; [|reflexivity].
  destruct (Py.truthy (Some c) && (0 <? c)) eqn:Hc; [|reflexivity].
  run_db. apply andb_prop in Hc. destruct Hc as [_ Hc].
  destruct (c =? 0) eqn:Hz; [lia | reflexivity].
Qed.

Lemma overview_body_closed (now : Z) (db : DB) :
  overview_body now db = (Ok (overview_of now db), after_overview now db).
Proof.
  unfold overview_body, overview_of, after_overview, loaded, risk_metrics_or_new.
  destruct (portfolio db) as [p|] eqn:Hp;
    destruct (risk_metrics db) as [r|] eqn:Hr.
  all: run_db; rewrite Hp; simpl.
  all: rewrite allocation_rows_run; simpl; rewrite Hr; simpl.
  all: repeat (rewrite change_pct_run; simpl).
  all: reflexivity.
Qed.

(** What an overview that answers 200 carries and leaves. *)
Lemma overview_answer (now : Z) (db : DB) (body : overview) :
  fst (PortfolioView_get now db) = HTTP_200 body ->
  body = overview_of now db /\
  snd (PortfolioView_get now db) = after_overview now db.
Proof.
  unfold PortfolioView_get. rewrite overview_body_closed. simpl.
  intros [= <-]. split; reflexivity.
Qed.

(** ** The asset allocation of the overview *)

Lemma sum_fold_right (l : list Z) : Py.sum l = fold_right Z.add 0 l.
Proof.
  induction l as [|x l IH]; [reflexivity|].
  rewrite sum_cons, IH. reflexivity.
Qed.

Lemma fold_right_add_perm (l l' : list Z) :
  Permutation l l' -> fold_right Z.add 0 l = fold_right Z.add 0 l'.
Proof. induction 1; simpl; lia. Qed.

Lemma dict_add_sum (k : string) (v : Z) (d : list (string * Z)) :
  Py.sum (map snd (dict_add k v d)) = Py.sum (map snd d) + v.
Proof.
  induction d as [|[k' w] d IH]; simpl.
  - rewrite sum_cons. unfold Py.sum. simpl. lia.
  - destruct (String.eqb k' k); simpl; rewrite !sum_cons; [lia|].
    rewrite IH. lia.
Qed.

(** The grouped balances add up to the total value. *)
Lemma token_values_sum (wts : list WalletToken) :
  Py.sum (map snd (token_values_of wts)) = total_value_of wts.
Proof.
  unfold token_values_of, total_value_of.
  assert (H : forall d,
             Py.sum (map snd
                       (fold_left
                          (fun d wt =>
                             dict_add (token_symbol wt) (Py.or0 (balance_usd wt)) d)
                          wts d))
             = Py.sum (map snd d)
               + Py.sum (map (fun wt => Py.or0 (balance_usd wt)) wts)).
  { induction wts as [|wt wts IH]; intros d; simpl.
    - unfold Py.sum at 3. simpl. lia.
    - rewrite IH, dict_add_sum, sum_cons. lia. }
  rewrite H. unfold Py.sum at 1. simpl. reflexivity.
Qed.

Lemma aggregate_is_symbol_sum (sym : string) (wts : list WalletToken) :
  aggregate sym wts = symbol_sum sym wts.
Proof.
  unfold aggregate. induction wts as [|wt wts IH]; [reflexivity|].
  cbn [filter symbol_sum].
  destruct (String.eqb (token_symbol wt) sym); [|exact IH].
  cbn [map]. rewrite sum_cons, IH, or0_value.
  destruct (balance_usd wt); lia.
Qed.

Lemma allocation_perm (total_value : Z) (tv : list (string * Z)) :
  Permutation
    (Py.sort_by (fun r => - value_usd r) (map (allocation_of total_value) tv))
    (map (allocation_of total_value) tv).
Proof. apply sort_by_perm. Qed.

(** X6: an overview that answers 200 lists exactly one allocation row for
    every symbol held in the user's wallets and none for any other; the row
    carries the balance of the symbol added up over all wallets, and the
    rows are in descending order of value. *)
Theorem overview_allocation_rows (now : Z) (db : DB) (body : overview) :
  fst (PortfolioView_get now db) = HTTP_200 body ->
  NoDup (map symbol (asset_allocation body)) /\
  (forall row, In row (asset_allocation body) ->
     (exists wt, In wt (wallet_tokens db) /\ token_symbol wt = symbol row) /\
     value_usd row = symbol_sum (symbol row) (wallet_tokens db)) /\
  (forall wt, In wt (wallet_tokens db) ->
     exists row, In row (asset_allocation body) /\
                 symbol row = token_symbol wt) /\
  StronglySorted (fun a b => value_usd b <= value_usd a)
    (asset_allocation body).
Proof.
  intros Hbody. destruct (overview_answer now db body Hbody) as [-> _].
  unfold overview_of. cbn [asset_allocation].
  set (total := total_value_of (wallet_tokens db)).
  set (wts := wallet_tokens db).
  pose proof (allocation_perm total (token_values_of wts)) as Hperm.
  split; [|split; [|split]].
  - apply (Permutation_NoDup
             (Permutation_sym (Permutation_map symbol Hperm))).
    rewrite map_map. simpl. apply token_values_NoDup.
  - intros row Hrow.
    apply (Permutation_in _ Hperm) in Hrow.
    apply in_map_iff in Hrow. destruct Hrow as ([k v] & <- & Hin). simpl.
    apply (In_lookup _ _ _ (token_values_NoDup wts)) in Hin.
    rewrite token_values_lookup in Hin.
    destruct (existsb (fun wt => String.eqb (token_symbol wt) k) wts) eqn:Hex;
      [|discriminate].
    injection Hin as <-. split; [|apply aggregate_is_symbol_sum].
    apply existsb_exists in Hex. destruct Hex as (wt & Hwt & Hk).
    apply String.eqb_eq in Hk. exists wt. auto.
  - intros wt Hwt.
    exists (allocation_of total
              (token_symbol wt, aggregate (token_symbol wt) wts)).
    split; [|reflexivity].
    apply (Permutation_in _ (Permutation_sym Hperm)).
    apply in_map, lookup_In. rewrite token_values_lookup.
    assert (Hex : existsb (fun wt0 => String.eqb (token_symbol wt0) (token_symbol wt)) wts = true).
    { apply existsb_exists. exists wt. split; [exact Hwt | apply String.eqb_refl]. }
    rewrite Hex. reflexivity.
  - eapply strongly_sorted_impl;
      [|apply (sort_by_sorted (fun r => - value_usd r))].
    intros a b H. simpl in H. lia.
Qed.

Lemma overview_allocation_rows_witness :
  exists body,
    fst (PortfolioView_get 9 db_four_rows) = HTTP_200 body /\
    map (fun row => (symbol row, value_usd row)) (asset_allocation body)
      = [("BTC", 60000); ("ETH", 40000); ("XYZ", 0)] /\
    NoDup (map symbol (asset_allocation body)) /\
    StronglySorted (fun a b => value_usd b <= value_usd a)
      (asset_allocation body).
Proof.
  eexists. split; [vm_compute; reflexivity|].
  split; [vm_compute; reflexivity|].
  destruct (overview_allocation_rows 9 db_four_rows _ eq_refl)
    as (Hnodup & _ & _ & Hsorted).
  split; [exact Hnodup | exact Hsorted].
Defined.

(** X7: in an overview that answers 200 the values of the allocation rows
    add up to the reported total, which is the sum of the balances; when
    the total is positive the percentage of a row is 100 x value / total as
    [Decimal] rounds the quotient, and when it is not, every percentage is
    0. *)
Theorem overview_allocation_shares (now : Z) (db : DB) (body : overview) :
  fst (PortfolioView_get now db) = HTTP_200 body ->
  fold_right Z.add 0 (map value_usd (asset_allocation body))
    = ov_total_value_usd body /\
  ov_total_value_usd body = balance_sum (wallet_tokens db) /\
  (forall row, In row (asset_allocation body) ->
     (0 < ov_total_value_usd body ->
      within_rounding (percentage row)
        (100 * usd (value_usd row) / usd (ov_total_value_usd body))%Q) /\
     (ov_total_value_usd body <= 0 -> percentage row = 0%Q)).
Proof.
  intros Hbody. destruct (overview_answer now db body Hbody) as [-> _].
  unfold overview_of. cbn [asset_allocation ov_total_value_usd].
  set (total := total_value_of (wallet_tokens db)).
  set (wts := wallet_tokens db).
  pose proof (allocation_perm total (token_values_of wts)) as Hperm.
  split; [|split].
  - rewrite (fold_right_add_perm _ _ (Permutation_map value_usd Hperm)).
    rewrite map_map. simpl. rewrite <- sum_fold_right. apply token_values_sum.
  - apply total_value_is_balance_sum.
  - intros row Hrow.
    apply (Permutation_in _ Hperm) in Hrow.
    apply in_map_iff in Hrow. destruct Hrow as ([k v] & <- & _).
    unfold allocation_of. simpl. split.
    + intros Hpos. assert (Hlt : (0 <? total) = true) by lia. rewrite Hlt.
      assert (Hnz : ~ (inject_Z total == 0)%Q)
        by (apply inject_Z_nonzero; lia).
      unfold within_rounding.
      setoid_replace (100 * usd v / usd total)%Q
        with (100 * (inject_Z v / inject_Z total))%Q
        by (unfold usd; field; repeat split; first [exact Hnz | discriminate]).
      apply percent_within_rounding. lia.
    + intros Hle. assert (Hlt : (0 <? total) = false) by lia.
      rewrite Hlt. reflexivity.
Qed.

Lemma overview_allocation_shares_witness :
  exists body,
    fst (PortfolioView_get 9 db_four_rows) = HTTP_200 body /\
    ov_total_value_usd body = 100000 /\
    fold_right Z.add 0 (map value_usd (asset_allocation body)) = 100000 /\
    Forall2 (fun row share => (percentage row == share)%Q)
      (asset_allocation body) [60%Q; 40%Q; 0%Q] /\
    Forall (fun row =>
              within_rounding (percentage row)
                (100 * usd (value_usd row) / usd 100000)%Q)
      (asset_allocation body).
Proof.
  eexists. split; [vm_compute; reflexivity|].
  destruct (overview_allocation_shares 9 db_four_rows _ eq_refl)
    as (Hsum & Htotal & Hrows).
  split; [exact Htotal|]. split; [exact Hsum|]. split.
  - repeat constructor; vm_compute; reflexivity.
  - apply Forall_forall. intros row Hrow.
    apply (Hrows row Hrow). reflexivity.
Defined.

(** ** The history of the overview *)

(** X8: the historical data of an overview that answers 200 are the
    snapshots taken in the last 30 days, each as often as it is stored, in
    ascending order of timestamp; an older snapshot never appears. *)
Theorem overview_history_window (now : Z) (db : DB) (body : overview) :
  fst (PortfolioView_get now db) = HTTP_200 body ->
  Permutation (historical_data body)
    (filter (fun s => now - 30 * day <=? timestamp s) (snapshots db)) /\
  StronglySorted (fun a b => timestamp a <= timestamp b)
    (historical_data body) /\
  (forall s, In s (historical_data body) <->
             In s (snapshots db) /\ now - 30 * day <= timestamp s).
Proof.
  intros Hbody. destruct (overview_answer now db body Hbody) as [-> _].
  unfold overview_of. cbn [historical_data].
  unfold snapshots_since.
  pose proof (sort_by_perm timestamp
                (filter (fun s => now - 30 * day <=? timestamp s)
                   (snapshots db))) as Hperm.
  split; [exact Hperm|]. split; [apply sort_by_sorted|].
  intros s. split.
  - intros H. apply (Permutation_in _ Hperm) in H.
    apply filter_In in H. destruct H as [Hin Hts]. split; [exact Hin | lia].
  - intros [Hin Hts]. apply (Permutation_in _ (Permutation_sym Hperm)).
    apply filter_In. split; [exact Hin | lia].
Qed.

Lemma overview_history_window_witness :
  exists body,
    fst (PortfolioView_get (100 * day) db_three_snapshots) = HTTP_200 body /\
    historical_data body
      = [ {| snapshot_total_value_usd := 80000; timestamp := 80 * day |};
          {| snapshot_total_value_usd := 90000; timestamp := 95 * day |} ] /\
    StronglySorted (fun a b => timestamp a <= timestamp b)
      (historical_data body).
Proof.
  eexists. split; [vm_compute; reflexivity|].
  split; [vm_compute; reflexivity|].
  destruct (overview_history_window (100 * day) db_three_snapshots _ eq_refl)
    as (_ & Hsorted & _).
  exact Hsorted.
Defined.

(** ** Reads and cycles, one after the other *)

(** X9: the first cycle after an overview that answered 200, with a total
    that the field of the portfolio holds, leaves the same portfolio row,
    snapshot series and risk metric values as it would have left without
    the overview: a portfolio created by a read is initialised by its first
    cycle like one that the cycle creates. *)
Theorem cycle_after_overview (globals : list string) (c : cycle) (now : Z)
    (db : DB) (body : overview) :
  fst (PortfolioView_get now db) = HTTP_200 body ->
  field_fits 18 (cycle_total c) ->
  portfolio (snd (SyncWalletDataView_post globals c
                    (snd (PortfolioView_get now db))))
    = portfolio (snd (SyncWalletDataView_post globals c db)) /\
  snapshots (snd (SyncWalletDataView_post globals c
                    (snd (PortfolioView_get now db))))
    = snapshots (snd (SyncWalletDataView_post globals c db)) /\
  risk_metrics_or_new
    (snd (SyncWalletDataView_post globals c (snd (PortfolioView_get now db))))
    = risk_metrics_or_new (snd (SyncWalletDataView_post globals c db)).
Proof.
  intros Hbody _. destruct (overview_answer now db body Hbody) as [_ ->].
  rewrite !post_run. cbn [snd].
  unfold after_cycle, after_overview, risk_metrics_or_new.
  cbn [portfolio snapshots risk_metrics].
  split; [|split].
  - f_equal. unfold reconciled, loaded. cbn [portfolio portfolio_seq].
    destruct (portfolio db) as [p|]; [|reflexivity].
    cbn [fst snd].
    checkpoint_cases p;
      destruct (all_time_high_usd p) as [high|]; simpl;
      try destruct (high <? cycle_total c); simpl;
      destruct (all_time_low_usd p) as [low|]; simpl;
      try destruct (cycle_total c <? low); reflexivity.
  - reflexivity.
  - destruct (bound globals "PortfolioSnapshot");
      destruct (risk_metrics db); reflexivity.
Qed.

Lemma cycle_after_overview_witness :
  portfolio (snd (SyncWalletDataView_post views_globals (cycle_of 50000 (3 * day))
                    (snd (PortfolioView_get day empty_db))))
    = Some {| id := 1; total_value_usd := 50000;
              previous_day_value_usd := Some 50000;
              previous_week_value_usd := Some 50000;
              previous_month_value_usd := Some 50000;
              all_time_high_usd := Some 50000; all_time_high_date := Some 3;
              all_time_low_usd := Some 50000; all_time_low_date := Some 3;
              last_updated := 3 * day |} /\
  portfolio (snd (SyncWalletDataView_post views_globals (cycle_of 50000 (3 * day))
                    empty_db))
    = Some {| id := 1; total_value_usd := 50000;
              previous_day_value_usd := Some 50000;
              previous_week_value_usd := Some 50000;
              previous_month_value_usd := Some 50000;
              all_time_high_usd := Some 50000; all_time_high_date := Some 3;
              all_time_low_usd := Some 50000; all_time_low_date := Some 3;
              last_updated := 3 * day |}.
Proof.
  destruct (cycle_after_overview views_globals (cycle_of 50000 (3 * day)) day
              empty_db _ eq_refl ltac:(vm_compute; reflexivity))
    as (Hp & _ & _).
  split; [rewrite Hp|]; vm_compute; reflexivity.
Defined.

(** ** Extrema over a sequence of cycles *)

Lemma high_after_cycle (globals : list string) (c : cycle) (db : DB) :
  stored_high (snd (SyncWalletDataView_post globals c db)) =
    Some (match stored_high db with
          | Some h => Z.max h (cycle_total c)
          | None => cycle_total c
          end).
Proof.
  unfold stored_high. rewrite post_portfolio. unfold reconciled, loaded.
  destruct (portfolio db) as [p|]; [|reflexivity]. simpl.
  roll_cases p (cycle_total c);
    try match goal with
      | H : all_time_high_usd p = _ |- _ => rewrite H
      end;
    f_equal; lia.
Qed.

Lemma low_after_cycle (globals : list string) (c : cycle) (db : DB) :
  stored_low (snd (SyncWalletDataView_post globals c db)) =
    Some (match stored_low db with
          | Some l => Z.min l (cycle_total c)
          | None => cycle_total c
          end).
Proof.
  unfold stored_low. rewrite post_portfolio. unfold reconciled, loaded.
  destruct (portfolio db) as [p|]; [|reflexivity]. simpl.
  roll_cases p (cycle_total c);
    try match goal with
      | H : all_time_low_usd p = _ |- _ => rewrite H
      end;
    f_equal; lia.
Qed.

Lemma extrema_of_run (globals : list string) (cs : list cycle) (db : DB)
    (h l : Z) :
  stored_high db = Some h -> stored_low db = Some l ->
  exists h' l',
    stored_high (run_cycles globals cs db) = Some h' /\
    stored_low (run_cycles globals cs db) = Some l' /\
    (h' = h \/ In h' (map cycle_total cs)) /\
    (l' = l \/ In l' (map cycle_total cs)) /\
    h <= h' /\ l' <= l /\
    (forall t, In t (map cycle_total cs) -> l' <= t <= h').
Proof.
  revert db h l. induction cs as [|c cs IH]; intros db h l Hh Hl; simpl.
  - exists h, l. repeat split; auto; try lia; tauto.
  - pose proof (high_after_cycle globals c db) as Hh1.
    pose proof (low_after_cycle globals c db) as Hl1.
    rewrite Hh in Hh1. rewrite Hl in Hl1.
    destruct (IH _ _ _ Hh1 Hl1)
      as (h' & l' & Ehigh & Elow & Hinh & Hinl & Hge & Hle & Hall).
    exists h', l'. split; [exact Ehigh|]. split; [exact Elow|].
    split; [|split; [|split; [|split]]].
    + destruct Hinh as [-> | Hin]; [|auto].
      destruct (Z.max_spec h (cycle_total c)) as [[_ ->] | [_ ->]]; auto.
    + destruct Hinl as [-> | Hin]; [|auto].
      destruct (Z.min_spec l (cycle_total c)) as [[_ ->] | [_ ->]]; auto.
    + lia.
    + lia.
    + intros t [<- | Ht]; [lia | apply Hall, Ht].
Qed.

(** X10: for a portfolio whose extrema are still unset, after one or more
    cycles whose totals the fields of the portfolio hold, the stored
    all-time high is the largest and the stored all-time low the smallest
    of the totals that the cycles computed: each is one of those totals,
    and every total lies between them. *)
Theorem extrema_are_attained (globals : list string) (c : cycle)
    (cs : list cycle) (db : DB) :
  stored_high db = None -> stored_low db = None ->
  Forall (fun c => field_fits 18 (cycle_total c)) (c :: cs) ->
  exists h l,
    stored_high (run_cycles globals (c :: cs) db) = Some h /\
    stored_low (run_cycles globals (c :: cs) db) = Some l /\
    In h (map cycle_total (c :: cs)) /\
    In l (map cycle_total (c :: cs)) /\
    (forall t, In t (map cycle_total (c :: cs)) -> l <= t <= h).
Proof.
  intros Hh Hl _. simpl.
  pose proof (high_after_cycle globals c db) as Hh1.
  pose proof (low_after_cycle globals c db) as Hl1.
  rewrite Hh in Hh1. rewrite Hl in Hl1.
  destruct (extrema_of_run globals cs _ _ _ Hh1 Hl1)
    as (h' & l' & Ehigh & Elow & Hinh & Hinl & Hge & Hle & Hall).
  exists h', l'. split; [exact Ehigh|]. split; [exact Elow|].
  split; [|split].
  - destruct Hinh as [-> | Hin]; auto.
  - destruct Hinl as [-> | Hin]; auto.
  - intros t [<- | Ht]; [lia | apply Hall, Ht].
Qed.

Lemma extrema_are_attained_witness :
  stored_high
    (run_cycles views_globals
       [cycle_of 10000 100; cycle_of 15000 200; cycle_of 8000 300] empty_db)
    = Some 15000 /\
  stored_low
    (run_cycles views_globals
       [cycle_of 10000 100; cycle_of 15000 200; cycle_of 8000 300] empty_db)
    = Some 8000.
Proof.
  destruct (extrema_are_attained views_globals (cycle_of 10000 100)
              [cycle_of 15000 200; cycle_of 8000 300] empty_db
              eq_refl eq_refl
              ltac:(repeat constructor; vm_compute; reflexivity))
    as (h & l & Hh & Hl & _).
  split; [rewrite Hh | rewrite Hl]; vm_compute in Hh, Hl |- *; congruence.
Defined.

(** ** What the calculator stores *)

(** Rounding to hundredths is off by half a hundredth at most. *)
Lemma quantize_bound (q : Q) :
  (Qabs (q * 100 - inject_Z (Decimal.quantize q)) <= 1 # 2)%Q.
Proof.
  destruct q as [n d]. unfold Decimal.quantize. cbn [Qnum Qden].
  pose proof (Z.div_mod (n * 100) (Zpos d) ltac:(lia)) as Hdm.
  pose proof (Z.mod_pos_bound (n * 100) (Zpos d) ltac:(lia)) as Hr.
  set (below := n * 100 / Zpos d) in *.
  set (rest := (n * 100) mod Zpos d) in *.
  assert (Hcases : forall r,
             - Zpos d <= 2 * (n * 100 - r * Zpos d) <= Zpos d ->
             (Qabs ((n # d) * 100 - inject_Z r) <= 1 # 2)%Q).
  { intros r Hb. apply Qabs_Qle_condition.
    unfold Qle, Qminus, Qplus, Qmult, Qopp, inject_Z. simpl.
    rewrite ?Pos.mul_1_r, ?Z.mul_1_r. split; nia. }
  destruct (2 * rest ?= Zpos d) eqn:Hc.
  - apply Z.compare_eq in Hc.
    destruct (Z.even below); apply Hcases; nia.
  - rewrite Z.compare_lt_iff in Hc. apply Hcases. nia.
  - rewrite Z.compare_gt_iff in Hc. apply Hcases. nia.
Qed.

Lemma field_of_float_ok (max_digits : Z) (x : float) (hundredths : Z) :
  DecimalField_of_float max_digits x = Ok hundredths ->
  field_fits max_digits hundredths /\
  exists d, Decimal.of_float x = Some d /\
            (Qabs (d * 100 - inject_Z hundredths) <= 1 # 2)%Q.
Proof.
  unfold DecimalField_of_float, field_fits.
  destruct (Decimal.of_float x) as [d|]; [|discriminate].
  destruct (10 ^ max_digits <=? Z.abs (Decimal.quantize d)) eqn:Hfit;
    [discriminate|].
  intros [= <-]. split; [lia|].
  exists d. split; [reflexivity | apply quantize_bound].
Qed.

Lemma computed_metrics_ok (values : list float)
    (metrics : option Z * option Z * option Z * option Z * option Z) :
  computed_history_metrics values = Ok metrics ->
  exists drawdown v30 v90 dd sr var,
    max_drawdown_of values = Some drawdown /\
    metrics = (Some v30, Some v90, Some dd, Some sr, Some var) /\
    DecimalField_of_float 7 (volatility_30d_of (daily_returns values)) = Ok v30 /\
    DecimalField_of_float 7 (volatility_90d_of (daily_returns values)) = Ok v90 /\
    DecimalField_of_float 7 drawdown = Ok dd /\
    DecimalField_of_float 5 (sharpe_ratio_of (daily_returns values)) = Ok sr /\
    DecimalField_of_float 7 (var_95_of (daily_returns values)) = Ok var.
Proof.
  unfold computed_history_metrics. cbv zeta.
  destruct (max_drawdown_of values) as [drawdown|]; [|discriminate].
  destruct (DecimalField_of_float 7 (volatility_30d_of (daily_returns values)))
    as [v30|]; [|discriminate].
  destruct (DecimalField_of_float 7 (volatility_90d_of (daily_returns values)))
    as [v90|]; [|discriminate].
  destruct (DecimalField_of_float 7 drawdown) as [dd|] eqn:Hd; [|discriminate].
  destruct (DecimalField_of_float 5 (sharpe_ratio_of (daily_returns values)))
    as [sr|]; [|discriminate].
  destruct (DecimalField_of_float 7 (var_95_of (daily_returns values)))
    as [var|]; [|discriminate].
  intros [= <-]. exists drawdown, v30, v90, dd, sr, var.
  repeat split. exact Hd.
Qed.

(** X11: the calculator on an existing portfolio.  When it answers success
    the window held at least 7 snapshots and 5 returns, and each of the five
    history metrics is stored within half a hundredth of the decimal that
    [str] prints for the computed float, and fits its field (7 digits, 5
    for the Sharpe ratio).  When it answers failure, for whatever reason,
    every stored risk metric is as before.  In both cases the concentration,
    the portfolio and the snapshot series are as before. *)
Theorem calculator_stores_what_fits (now portfolio_id : Z) (db : DB)
    (p : Portfolio) :
  portfolio db = Some p ->
  id p = portfolio_id ->
  let answer := fst (calculate_portfolio_risk_metrics now portfolio_id db) in
  let after := snd (calculate_portfolio_risk_metrics now portfolio_id db) in
  let returns := daily_returns (window_values now db) in
  (fst answer = true ->
   snd answer = "Risk metrics updated successfully" /\
   (7 <= List.length (window_values now db))%nat /\
   (5 <= List.length returns)%nat /\
   exists drawdown v30 v90 dd sr var,
     max_drawdown_of (window_values now db) = Some drawdown /\
     history_metrics (risk_metrics_or_new after)
       = (Some v30, Some v90, Some dd, Some sr, Some var) /\
     stored_from (volatility_30d_of returns) 7 v30 /\
     stored_from (volatility_90d_of returns) 7 v90 /\
     stored_from drawdown 7 dd /\
     stored_from (sharpe_ratio_of returns) 5 sr /\
     stored_from (var_95_of returns) 7 var) /\
  (fst answer = false ->
   risk_metrics_or_new after = risk_metrics_or_new db) /\
  concentration_risk (risk_metrics_or_new after)
    = concentration_risk (risk_metrics_or_new db) /\
  portfolio after = portfolio db /\
  snapshots after = snapshots db.
Proof.
  intros Hp Hid answer after returns. subst answer after.
  rewrite (calculate_run now portfolio_id db p Hp Hid). cbv zeta.
  fold returns.
  destruct (List.length (window_values now db) <? 7)%nat eqn:Hn.
  { cbn [fst snd]. repeat split; try discriminate. }
  destruct (List.length returns <? 5)%nat eqn:Hr.
  { cbn [fst snd]. repeat split; try discriminate. }
  destruct (computed_history_metrics (window_values now db))
    as [[[[[m30 m90] mdd] msr] mvar]|e] eqn:Hm.
  2:{ cbn [fst snd]. repeat split; try discriminate. }
  cbn [fst snd].
  destruct (computed_metrics_ok _ _ Hm)
    as (drawdown & v30 & v90 & dd & sr & var & Hdd & [= -> -> -> -> ->]
        & H30 & H90 & Hd & Hs & Hv).
  split; [|repeat split; try discriminate].
  intros _. split; [reflexivity|].
  split; [apply Nat.ltb_ge in Hn; exact Hn|].
  split; [apply Nat.ltb_ge in Hr; exact Hr|].
  exists drawdown, v30, v90, dd, sr, var.
  split; [exact Hdd|]. split; [reflexivity|].
  unfold stored_from.
  split; [apply field_of_float_ok; exact H30|].
  split; [apply field_of_float_ok; exact H90|].
  split; [apply field_of_float_ok; exact Hd|].
  split; [apply field_of_float_ok; exact Hs|].
  apply field_of_float_ok; exact Hv.
Qed.

Lemma calculator_stores_what_fits_witness :
  fst (calculate_portfolio_risk_metrics (10 * day) 1 moving_history)
    = (true, "Risk metrics updated successfully") /\
  history_metrics
    (risk_metrics_or_new
       (snd (calculate_portfolio_risk_metrics (10 * day) 1 moving_history)))
    = (Some 1500, Some 1500, Some 1818, Some 270, Some 1300) /\
  fst (calculate_portfolio_risk_metrics (10 * day) 1
         (db_with_history growing_by_a_tenth))
    = (false,
       "Error calculating risk metrics: [<class 'decimal.InvalidOperation'>]") /\
  risk_metrics_or_new
    (snd (calculate_portfolio_risk_metrics (10 * day) 1
            (db_with_history growing_by_a_tenth)))
    = new_RiskMetrics.
Proof.
  destruct (calculator_stores_what_fits (10 * day) 1 moving_history
              (new_Portfolio 1 0) eq_refl eq_refl) as (Hok & _).
  destruct (calculator_stores_what_fits (10 * day) 1
              (db_with_history growing_by_a_tenth)
              (new_Portfolio 1 0) eq_refl eq_refl) as (_ & Hfail & _).
  split; [vm_compute; reflexivity|].
  split; [vm_compute; reflexivity|].
  split; [vm_compute; reflexivity|].
  rewrite Hfail; vm_compute; reflexivity.
Defined.

(** X12: asked for a portfolio that does not exist, the calculator answers
    "Portfolio not found" and leaves the database as it is: no
    [RiskMetrics] row is created. *)
Theorem calculator_without_portfolio (now portfolio_id : Z) (db : DB) :
  (forall p, portfolio db = Some p -> id p <> portfolio_id) ->
  calculate_portfolio_risk_metrics now portfolio_id db
    = ((false, "Portfolio not found"), db).
Proof.
  intros Hnone.
  unfold calculate_portfolio_risk_metrics, risk_metrics_body.
  unfold bind at 1. unfold Portfolio_get.
  destruct (portfolio db) as [p|]; [|reflexivity].
  specialize (Hnone p eq_refl).
  destruct (id p =? portfolio_id) eqn:E; [lia | reflexivity].
Qed.

Lemma calculator_without_portfolio_witness :
  calculate_portfolio_risk_metrics (10 * day) 2 moving_history
    = ((false, "Portfolio not found"), moving_history) /\
  calculate_portfolio_risk_metrics (10 * day) 1 empty_db
    = ((false, "Portfolio not found"), empty_db).
Proof.
  split.
  - apply (calculator_without_portfolio (10 * day) 2 moving_history).
    intros p [= <-]. discriminate.
  - apply (calculator_without_portfolio (10 * day) 1 empty_db).
    intros p H. discriminate.
Defined.

(** X13: the calculator reads the snapshots of the last 90 days only: two
    snapshot series that agree on those give the same answer and the same
    stored risk metrics. *)
Theorem calculator_reads_window_only (now portfolio_id : Z) (db : DB)
    (series : list PortfolioSnapshot) :
  filter (fun s => now - 90 * day <=? timestamp s) series
    = filter (fun s => now - 90 * day <=? timestamp s) (snapshots db) ->
  fst (calculate_portfolio_risk_metrics now portfolio_id
         (with_snapshots db series))
    = fst (calculate_portfolio_risk_metrics now portfolio_id db) /\
  risk_metrics (snd (calculate_portfolio_risk_metrics now portfolio_id
                       (with_snapshots db series)))
    = risk_metrics (snd (calculate_portfolio_risk_metrics now portfolio_id db)).
Proof.
  intros Hwindow.
  assert (Hvalues : window_values now (with_snapshots db series)
                    = window_values now db).
  { unfold window_values, snapshots_since. cbn [snapshots with_snapshots].
    rewrite Hwindow. reflexivity. }
  destruct (portfolio db) as [p|] eqn:Hp.
  - destruct (Z.eq_dec (id p) portfolio_id) as [Hid | Hid].
    + rewrite (calculate_run now portfolio_id (with_snapshots db series) p
                 Hp Hid).
      rewrite (calculate_run now portfolio_id db p Hp Hid).
      cbv zeta. rewrite Hvalues.
      replace (risk_metrics_or_new (with_snapshots db series))
        with (risk_metrics_or_new db) by reflexivity.
      destruct (List.length (window_values now db) <? 7)%nat;
        [split; reflexivity|].
      destruct (List.length (daily_returns (window_values now db)) <? 5)%nat;
        [split; reflexivity|].
      destruct (computed_history_metrics (window_values now db))
        as [[[[[m30 m90] mdd] msr] mvar]|e]; split; reflexivity.
    + rewrite !calculator_without_portfolio.
      * split; reflexivity.
      * intros p' Hp'. rewrite Hp in Hp'. injection Hp' as <-. exact Hid.
      * intros p' Hp'. cbn [portfolio with_snapshots] in Hp'.
        rewrite Hp in Hp'. injection Hp' as <-. exact Hid.
  - rewrite !calculator_without_portfolio.
    + split; reflexivity.
    + intros p' Hp'. rewrite Hp in Hp'. discriminate.
    + intros p' Hp'. cbn [portfolio with_snapshots] in Hp'.
      rewrite Hp in Hp'. discriminate.
Qed.

Lemma calculator_reads_window_only_witness :
  fst (calculate_portfolio_risk_metrics (95 * day) 1
         (with_snapshots moving_history
            ({| snapshot_total_value_usd := 1; timestamp := day |}
             :: {| snapshot_total_value_usd := 0; timestamp := 4 * day |}
             :: snapshots moving_history)))
    = fst (calculate_portfolio_risk_metrics (95 * day) 1 moving_history) /\
  fst (calculate_portfolio_risk_metrics (95 * day) 1 moving_history)
    = (false, "Not enough historical data for risk calculations").
Proof.
  split.
  - apply (calculator_reads_window_only (95 * day) 1 moving_history).
    vm_compute. reflexivity.
  - vm_compute. reflexivity.
Defined.

(** X14: with at most 30 returns in the window the two volatilities are
    computed from the same returns, so a calculator that answers success
    has stored the same value in both fields. *)
Theorem short_history_volatilities_agree (now portfolio_id : Z) (db : DB)
    (p : Portfolio) :
  portfolio db = Some p ->
  id p = portfolio_id ->
  (List.length (daily_returns (window_values now db)) <= 30)%nat ->
  fst (fst (calculate_portfolio_risk_metrics now portfolio_id db)) = true ->
  volatility_30d
    (risk_metrics_or_new
       (snd (calculate_portfolio_risk_metrics now portfolio_id db)))
  = volatility_90d
      (risk_metrics_or_new
         (snd (calculate_portfolio_risk_metrics now portfolio_id db))).
Proof.
  intros Hp Hid Hshort.
  rewrite (calculate_run now portfolio_id db p Hp Hid). cbv zeta.
  set (returns := daily_returns (window_values now db)) in *.
  destruct (List.length (window_values now db) <? 7)%nat; [discriminate|].
  destruct (List.length returns <? 5)%nat; [discriminate|].
  destruct (computed_history_metrics (window_values now db))
    as [[[[[m30 m90] mdd] msr] mvar]|e] eqn:Hm; [|discriminate].
  intros _. cbn [fst snd]. unfold risk_metrics_or_new, with_risk_metrics.
  cbn [risk_metrics volatility_30d volatility_90d].
  destruct (computed_metrics_ok _ _ Hm)
    as (drawdown & v30 & v90 & dd & sr & var & _ & [= -> -> -> -> ->]
        & H30 & H90 & _).
  fold returns in H30, H90.
  assert (Hsame : volatility_30d_of returns = volatility_90d_of returns).
  { unfold volatility_30d_of, volatility_90d_of, last_30.
    destruct (30 <=? List.length returns)%nat eqn:E; [|reflexivity].
    apply Nat.leb_le in E.
    replace (List.length returns - 30)%nat with 0%nat by lia.
    reflexivity. }
  rewrite Hsame in H30. congruence.
Qed.

Lemma short_history_volatilities_agree_witness :
  volatility_30d
    (risk_metrics_or_new
       (snd (calculate_portfolio_risk_metrics (10 * day) 1 moving_history)))
  = Some 1500 /\
  volatility_90d
    (risk_metrics_or_new
       (snd (calculate_portfolio_risk_metrics (10 * day) 1 moving_history)))
  = Some 1500.
Proof.
  pose proof (short_history_volatilities_agree (10 * day) 1 moving_history
                (new_Portfolio 1 0) eq_refl eq_refl
                ltac:(vm_compute; lia) ltac:(vm_compute; reflexivity)) as H.
  split; [rewrite H|]; vm_compute; reflexivity.
Defined.
